(** * Lathe Estimator Pro: the estimate-editing, costing, history and
      analysis logic

    The code embedded here, by source file:
    - [types.ts]: MachiningOperation, EstimationResult, AppState;
    - [components/ResultsView.tsx]: handleParamChange, splitTimes,
      handlePartNameChange, handleOpTextChange, handleNotesChange,
      formatTime, hasInnerDiameter;
    - [components/Part3DPreview.tsx]: isSolid;
    - [components/CostAnalysisCard.tsx]: parseDim, calculation,
      DENSITY_MAP and the effect that detects the density;
    - [components/EmptyState.tsx]: handleConfirmAnalysis and the button
      that calls it, handleDeleteHistory, formatTimeAgo;
    - [services/storageService.ts]: compressImage, saveHistoryItem,
      getHistory, deleteHistoryItem, clearHistory;
    - [services/geminiService.ts]: getEnvApiKey, analyzeBlueprint;
    - [App.tsx]: fileToGenerativePart, handleAnalyze, handleLoadHistory,
      resetApp, and what the component renders.

    JavaScript numbers are kept behind an interface ([JsNumber]), so that
    the code is written once.  Two instances are given: exact rational
    arithmetic ([Q]: no rounding error, no NaN, no infinities) and IEEE 754
    binary64 ([float], the numbers a browser computes with).  What the
    code computes is stated for every instance, in the order in which the
    code computes it; where a law of real arithmetic (the associativity
    of a sum, cancelling a factor) fails on binary64, a run on binary64
    shows it.  Statements on the sign, the range or the display of a
    number are made on the exact instance.

    A text in [localStorage] that [JSON.parse] accepts is kept as the value
    it parses to ([JsValue]): an array of history items, or any other JSON
    value, which the service then meets at run time.

    What the browser, pdf.js and the AI service answer is not computed but
    taken from a [Platform]; promises are run to their end, so that an async
    function is a computation that returns or throws. *)

From Stdlib Require Import QArith Qround Qabs Qfield ZArith Lia Lqa.
From Stdlib Require Import String Ascii DecimalString.
From Stdlib Require Floats Qpower.
From stdpp Require Import base option list strings gmap.

Set Default Proof Using "Type".

(* ================================================================== *)
(** * The JavaScript runtime: numbers and strings                       *)
(* ================================================================== *)

Declare Scope js_scope.
Delimit Scope js_scope with js.

(** What the code asks of a JavaScript number.  [parseFloat] returns [None]
    where JavaScript returns [NaN]; every call site tests the result with
    [isNaN] at once, so [NaN] never travels further. *)
Class JsNumber (num : Type) : Type := {
  lit : Z -> num;                       (* an integer literal            *)
  add : num -> num -> num;              (* x + y                         *)
  sub : num -> num -> num;              (* x - y                         *)
  mul : num -> num -> num;              (* x * y                         *)
  div : num -> num -> num;              (* x / y                         *)
  gt : num -> num -> bool;              (* x > y                         *)
  toBoolean : num -> bool;              (* truthiness: not 0, not NaN    *)
  Math_round : num -> num;              (* nearest integer, ties up      *)
  Math_pow : num -> Z -> num;           (* Math.pow, integer exponent    *)
  Math_PI : num;
  parseFloat : string -> option num;
}.

Infix "+" := add : js_scope.
Infix "-" := sub : js_scope.
Infix "*" := mul : js_scope.
Infix "/" := div : js_scope.

Section Truthiness.
Context {num : Type} `{JsNumber num}.

(** [x || 0] for a number. *)
Definition orZero (x : num) : num := if toBoolean x then x else lit 0.

(** [x || 0] for an optional number ([undefined] is falsy). *)
Definition optOrZero (x : option num) : num :=
  match x with Some v => orZero v | None => lit 0 end.

(** Truthiness of an optional number. *)
Definition optTruthy (x : option num) : bool :=
  match x with Some v => toBoolean v | None => false end.
End Truthiness.

(** ** Strings *)

(** [s.includes(kw)]. *)
Definition includes (s kw : string) : bool :=
  match String.index 0 kw s with Some _ => true | None => false end.

(** [s.startsWith(p)]. *)
Definition startsWith (s p : string) : bool := String.prefix p s.

Definition is_digit (c : ascii) : bool :=
  let n := nat_of_ascii c in (48 <=? n)%nat && (n <=? 57)%nat.

Definition digit_val (c : ascii) : Z := Z.of_nat (nat_of_ascii c) - 48.

(** The longest prefix of decimal digits, and what follows it. *)
Fixpoint span_digits (s : string) : string * string :=
  match s with
  | String c r =>
      if is_digit c
      then let '(d, rest) := span_digits r in (String c d, rest)
      else (EmptyString, s)
  | EmptyString => (EmptyString, EmptyString)
  end.

Fixpoint digits_value_from (acc : Z) (s : string) : Z :=
  match s with
  | String c r => digits_value_from (10 * acc + digit_val c) r
  | EmptyString => acc
  end.

Definition digits_value (s : string) : Z := digits_value_from 0 s.

(** White space that [parseFloat] skips at the start (the ASCII part of
    the ECMAScript WhiteSpace and LineTerminator classes). *)
Definition is_space (c : ascii) : bool :=
  let n := nat_of_ascii c in
  ((9 <=? n)%nat && (n <=? 13)%nat) || (n =? 32)%nat.

Fixpoint trimStart (s : string) : string :=
  match s with
  | String c r => if is_space c then trimStart r else s
  | EmptyString => EmptyString
  end.

(** A decimal literal read off the front of a string: sign, integer
    digits, fraction digits, decimal exponent. *)
Record DecimalLiteral : Type := {
  dl_negative : bool;
  dl_int : string;
  dl_frac : string;
  dl_exp : Z;
}.

(** The exponent part [e[+-]ddd]; without a digit after it the exponent
    is not part of the literal, which leaves the value as it is. *)
Definition read_exponent (s : string) : Z :=
  match s with
  | String c r =>
      if Ascii.eqb c "e" || Ascii.eqb c "E" then
        match r with
        | String "-" r' => - digits_value (fst (span_digits r'))
        | String "+" r' => digits_value (fst (span_digits r'))
        | _ => digits_value (fst (span_digits r))
        end
      else 0
  | EmptyString => 0
  end.

(** The StrDecimalLiteral prefix that [parseFloat] reads ([Infinity] apart):
    [None] when the string, after leading white space and a sign, starts
    with neither a digit nor a dot followed by a digit. *)
Definition read_decimal (s : string) : option DecimalLiteral :=
  let s0 := trimStart s in
  let '(neg, s1) :=
    match s0 with
    | String "-" r => (true, r)
    | String "+" r => (false, r)
    | _ => (false, s0)
    end in
  let '(ip, s2) := span_digits s1 in
  let '(fp, s3) :=
    match s2 with
    | String "." r => span_digits r
    | _ => (EmptyString, s2)
    end in
  if String.eqb ip "" && String.eqb fp "" then None
  else Some {| dl_negative := neg; dl_int := ip; dl_frac := fp;
               dl_exp := read_exponent s3 |}.

(** The exact value of a decimal literal. *)
Definition decimal_value (d : DecimalLiteral) : Q :=
  let m := digits_value (dl_int d +:+ dl_frac d) in
  let e := (dl_exp d - Z.of_nat (String.length (dl_frac d)))%Z in
  let v := (inject_Z m * Qpower (inject_Z 10) e)%Q in
  Qred (if dl_negative d then Qopp v else v).

(* ================================================================== *)
(** * Exact arithmetic: the rational instance                           *)
(* ================================================================== *)

(** [Math.round]: the nearest integer, a tie going to the larger one. *)
Definition Qround_half_up (q : Q) : Q := inject_Z (Qfloor (q + (1 # 2))).

(** [Math.PI] is the binary64 number 0x1.921fb54442d18p+1; this is its
    exact value. *)
Definition Q_PI : Q := 884279719003555 # 281474976710656.

#[export] Instance Q_JsNumber : JsNumber Q := {|
  lit := inject_Z;
  add := Qplus;
  sub := Qminus;
  mul := Qmult;
  div := Qdiv;
  gt := fun x y => negb (Qle_bool x y);
  toBoolean := fun x => negb (Qeq_bool x 0);
  Math_round := Qround_half_up;
  Math_pow := Qpower;
  Math_PI := Q_PI;
  parseFloat := fun s => decimal_value <$> read_decimal s;
|}.

(* ================================================================== *)
(** * IEEE 754 binary64: the instance a browser runs                    *)
(* ================================================================== *)

Module Binary64.
Import Floats.

Definition of_Z (z : Z) : float :=
  SF2Prim (binary_normalize prec emax z 0 false).

Definition gt (x y : float) : bool := PrimFloat.ltb y x.

(** Falsy numbers are [+0], [-0] and [NaN]. *)
Definition toBoolean (x : float) : bool :=
  negb (PrimFloat.eqb x 0) && PrimFloat.eqb x x.

(** [Math.round]: [floor (x + 1/2)] computed without rounding error.  A
    number with a non-negative exponent is an integer already; a result
    of zero keeps the sign of [x]. *)
Definition Math_round (x : float) : float :=
  match Prim2SF x with
  | S754_finite s m e =>
      if (0 <=? e)%Z then x
      else
        let twice := if s then (- (2 * Z.pos m))%Z else (2 * Z.pos m)%Z in
        let n := ((twice + 2 ^ (- e)) / 2 ^ (1 - e))%Z in
        SF2Prim (binary_normalize prec emax n 0 s)
  | _ => x
  end.

(** [Math.pow] is implementation-approximated in ECMAScript; with an
    integer exponent this is repeated multiplication, which for the
    squares the code takes is the correctly rounded result. *)
Definition Math_pow (x : float) (n : Z) : float :=
  match n with
  | Z0 => 1%float
  | Zpos p => Pos.iter (PrimFloat.mul x) 1%float p
  | Zneg p => PrimFloat.div 1 (Pos.iter (PrimFloat.mul x) 1%float p)
  end.

Definition Math_PI : float := 0x1.921fb54442d18p+1%float.

(** The binary64 number nearest to a decimal literal. *)
Definition decimal_to_float (d : DecimalLiteral) : float :=
  let m := digits_value (dl_int d +:+ dl_frac d) in
  let e := (dl_exp d - Z.of_nat (String.length (dl_frac d)))%Z in
  let neg := dl_negative d in
  match m, e with
  | Zpos p, Zneg k =>
      SF2Prim (SFdiv prec emax (S754_finite neg p 0)
                               (S754_finite false (10 ^ k)%positive 0))
  | _, _ => SF2Prim (binary_normalize prec emax
                       (if neg then - (m * 10 ^ e) else m * 10 ^ e)%Z 0 neg)
  end.

(** [parseFloat]: a decimal literal or [Infinity], after leading white
    space and a sign; [None] stands for [NaN]. *)
Definition parseFloat (s : string) : option float :=
  let s0 := trimStart s in
  let '(neg, s1) :=
    match s0 with
    | String "-" r => (true, r)
    | String "+" r => (false, r)
    | _ => (false, s0)
    end in
  if startsWith s1 "Infinity"
  then Some (if neg then neg_infinity else infinity)
  else decimal_to_float <$> read_decimal s.

#[export] Instance float_JsNumber : JsNumber float :=
  Build_JsNumber float
    of_Z PrimFloat.add PrimFloat.sub PrimFloat.mul PrimFloat.div
    gt toBoolean Math_round Math_pow Math_PI parseFloat.
End Binary64.

(** String functions of the runtime whose tables (Unicode case mapping,
    Unicode white space) are not reproduced here. *)
Class JsString : Type := {
  toLowerCase : string -> string;
  trim : string -> string;
}.

(** The ASCII fragment of both. *)
Module AsciiStrings.
Definition lower_char (c : ascii) : ascii :=
  let n := nat_of_ascii c in
  if (65 <=? n)%nat && (n <=? 90)%nat then ascii_of_nat (n + 32) else c.

Fixpoint toLowerCase (s : string) : string :=
  match s with
  | String c r => String (lower_char c) (toLowerCase r)
  | EmptyString => EmptyString
  end.

Fixpoint trimEnd (s : string) : string :=
  match s with
  | String c r =>
      match trimEnd r with
      | EmptyString => if is_space c then EmptyString else String c EmptyString
      | r' => String c r'
      end
  | EmptyString => EmptyString
  end.

Definition trim (s : string) : string := trimEnd (trimStart s).

#[export] Instance ascii_JsString : JsString :=
  Build_JsString toLowerCase trim.
End AsciiStrings.

(* ================================================================== *)
(** * types.ts                                                          *)
(* ================================================================== *)

Record MachiningOperation (num : Type) : Type := {
  name : string;
  description : string;
  estimatedTimeSeconds : num;
  toolType : string;
  rpm : option num;
  feedRate : option num;
}.
Arguments name {num} _.
Arguments description {num} _.
Arguments estimatedTimeSeconds {num} _.
Arguments toolType {num} _.
Arguments rpm {num} _.
Arguments feedRate {num} _.

Inductive Difficulty : Type := Low | Medium | High.

Record EstimationResult (num : Type) : Type := {
  partName : string;
  material : string;
  stockDiameter : string;
  stockInnerDiameter : option string;
  stockLength : string;
  operations : list (MachiningOperation num);
  totalTimeSeconds : num;
  difficultyRating : Difficulty;
  notes : string;
  sideMode : option string;
}.
Arguments partName {num} _.
Arguments material {num} _.
Arguments stockDiameter {num} _.
Arguments stockInnerDiameter {num} _.
Arguments stockLength {num} _.
Arguments operations {num} _.
Arguments totalTimeSeconds {num} _.
Arguments difficultyRating {num} _.
Arguments notes {num} _.
Arguments sideMode {num} _.

Inductive AppState : Type := IDLE | ANALYZING | SUCCESS | ERROR.

(* ================================================================== *)
(** * components/ResultsView.tsx                                        *)
(* ================================================================== *)

(** The [field] argument of [handleParamChange]: ['rpm' | 'feedRate']. *)
Inductive ParamField : Type := rpmField | feedRateField.

(** How a call of [handleParamChange] ends. *)
Inductive EditOutcome (num : Type) : Type :=
| Edited (localResult' : EstimationResult num)
    (* [setLocalResult] is called with this value *)
| EditTypeError
    (* [result.operations[index]] is [undefined]: reading its
       [estimatedTimeSeconds] throws, the state is left as it was *)
| EditUntyped.
    (* [index] lies in [result.operations] but beyond
       [localResult.operations]: JavaScript extends the array with an
       object that has none of the required fields, which is not a
       [MachiningOperation].  The component never gets here: both lists
       have the same length (see [same_shape]). *)
Arguments Edited {num} _.
Arguments EditTypeError {num}.
Arguments EditUntyped {num}.

Section ResultsView.
Context {num : Type} `{JsNumber num} `{JsString}.
Local Open Scope js_scope.

(** [currentOp[field] = v]. *)
Definition setParam (op : MachiningOperation num) (field : ParamField)
    (v : option num) : MachiningOperation num :=
  match field with
  | rpmField =>
      {| name := name op; description := description op;
         estimatedTimeSeconds := estimatedTimeSeconds op;
         toolType := toolType op; rpm := v; feedRate := feedRate op |}
  | feedRateField =>
      {| name := name op; description := description op;
         estimatedTimeSeconds := estimatedTimeSeconds op;
         toolType := toolType op; rpm := rpm op; feedRate := v |}
  end.

(** [currentOp.estimatedTimeSeconds = t]. *)
Definition setTime (op : MachiningOperation num) (t : num)
    : MachiningOperation num :=
  {| name := name op; description := description op;
     estimatedTimeSeconds := t;
     toolType := toolType op; rpm := rpm op; feedRate := feedRate op |}.

(** [Math.round(x * 10) / 10]. *)
Definition roundTenth (x : num) : num := Math_round (x * lit 10) / lit 10.

(** The body of [if (newRpm > 0 && newFeed > 0) { ... }], given the work
    factor. *)
Definition retime (workFactor : num) (currentOp : MachiningOperation num)
    : MachiningOperation num :=
  let newRpm := optOrZero (rpm currentOp) in
  let newFeed := optOrZero (feedRate currentOp) in
  if gt newRpm (lit 0) && gt newFeed (lit 0) then
    let newTime := workFactor / (newRpm * newFeed) in
    setTime currentOp (roundTenth newTime)
  else currentOp.

(** The block under "Recalculate estimated time based on the change": the
    time of the edited operation, recomputed from the original operation. *)
Definition recalculate (originalOp currentOp : MachiningOperation num)
    : MachiningOperation num :=
  match rpm originalOp, feedRate originalOp with
  | Some rpm0, Some feed0 =>
      if toBoolean (estimatedTimeSeconds originalOp)
         && toBoolean rpm0 && toBoolean feed0
      then
        let workFactor := estimatedTimeSeconds originalOp * rpm0 * feed0 in
        retime workFactor currentOp
      else currentOp
  | _, _ => currentOp
  end.

(** [ops.reduce((acc, op) => acc + (op.estimatedTimeSeconds || 0), 0)]. *)
Definition sumTimes (ops : list (MachiningOperation num)) : num :=
  fold_left (fun acc op => acc + orZero (estimatedTimeSeconds op)) ops (lit 0).

(** [{ ...localResult, operations, totalTimeSeconds }]. *)
Definition withOperations (r : EstimationResult num)
    (ops : list (MachiningOperation num)) (total : num)
    : EstimationResult num :=
  {| partName := partName r; material := material r;
     stockDiameter := stockDiameter r;
     stockInnerDiameter := stockInnerDiameter r;
     stockLength := stockLength r;
     operations := ops; totalTimeSeconds := total;
     difficultyRating := difficultyRating r; notes := notes r;
     sideMode := sideMode r |}.

(** [value === '' ? 0 : parseFloat(value)], [NaN] as [None]. *)
Definition enteredValue (value : string) : option num :=
  if String.eqb value "" then Some (lit 0) else parseFloat value.

(** [handleParamChange(index, field, value)], with the [result] prop and
    the [localResult] state it reads. *)
Definition handleParamChange (result localResult : EstimationResult num)
    (index : nat) (field : ParamField) (value : string)
    : EditOutcome num :=
  let numValue := enteredValue value in
  match operations result !! index with
  | None => EditTypeError
  | Some originalOp =>
      match operations localResult !! index with
      | None => EditUntyped
      | Some op =>
          (* isNaN(numValue) ? undefined : numValue *)
          let currentOp := setParam op field numValue in
          let currentOp := recalculate originalOp currentOp in
          let newOperations := <[index := currentOp]> (operations localResult) in
          let newTotalTime := sumTimes newOperations in
          Edited (withOperations localResult newOperations
                    (roundTenth newTotalTime))
      end
  end.

(** A run of edits, each an [(index, field, value)] triple, applied one
    after the other to the state; [result] stays the prop it was. *)
Fixpoint handleParamChanges (result localResult : EstimationResult num)
    (edits : list (nat * ParamField * string)) : EditOutcome num :=
  match edits with
  | [] => Edited localResult
  | (index, field, value) :: rest =>
      match handleParamChange result localResult index field value with
      | Edited localResult' => handleParamChanges result localResult' rest
      | EditTypeError => EditTypeError
      | EditUntyped => EditUntyped
      end
  end.

(** Both operation lists have one length: true when the component
    mounts ([localResult] starts as [result]) and kept by every edit. *)
Definition same_shape (result localResult : EstimationResult num) : Prop :=
  length (operations localResult) = length (operations result).

(** ** Words for the statements about [handleParamChange] *)

(** The original operation carries the three numbers the work factor is
    made of. *)
Definition has_work_factor (originalOp : MachiningOperation num) : bool :=
  toBoolean (estimatedTimeSeconds originalOp)
  && optTruthy (rpm originalOp) && optTruthy (feedRate originalOp).

(** Both effective parameters of an operation are strictly positive. *)
Definition params_positive (op : MachiningOperation num) : bool :=
  gt (optOrZero (rpm op)) (lit 0) && gt (optOrZero (feedRate op)) (lit 0).

(** The time the code gives an operation with positive parameters:
    [round(origTime * origRpm * origFeed / (newRpm * newFeed) * 10) / 10]. *)
Definition recomputedTime (origTime origRpm origFeed newRpm newFeed : num)
    : num :=
  Math_round ((origTime * origRpm * origFeed) / (newRpm * newFeed) * lit 10)
  / lit 10.

(** Operation [i] of a state is settled: when its parameters are
    positive, its time is the one recomputed from [originalOp]. *)
Definition settled_at (originalOp : MachiningOperation num) (i : nat)
    (localResult : EstimationResult num) : Prop :=
  forall op origRpm origFeed,
    operations localResult !! i = Some op ->
    rpm originalOp = Some origRpm ->
    feedRate originalOp = Some origFeed ->
    params_positive op = true ->
    estimatedTimeSeconds op =
      recomputedTime (estimatedTimeSeconds originalOp) origRpm origFeed
        (optOrZero (rpm op)) (optOrZero (feedRate op)).

(** A run of edits has one at index [i]. *)
Definition touches (i : nat) (edits : list (nat * ParamField * string)) : Prop :=
  exists field value, (i, field, value) ∈ edits.

(** The sum of a list of numbers: start from 0 and add them one after the
    other, in list order. *)
Fixpoint sumFrom (acc : num) (ts : list num) : num :=
  match ts with
  | [] => acc
  | t :: rest => sumFrom (acc + t) rest
  end.

Definition sumInOrder (ts : list num) : num := sumFrom (lit 0) ts.

(** The time of an operation as a total counts it: the number itself,
    and 0 where there is none to add (a zero, a NaN; a missing value has
    no place in the typed record). *)
Definition countedTime (op : MachiningOperation num) : num :=
  if toBoolean (estimatedTimeSeconds op) then estimatedTimeSeconds op
  else lit 0.

(** The total of a list of operations, rounded to a tenth of a second:
    [round(10 * S) / 10] with [S] the sum of the counted times. *)
Definition claimedTotal (ops : list (MachiningOperation num)) : num :=
  Math_round (sumInOrder (countedTime <$> ops) * lit 10) / lit 10.

(** ** splitTimes *)

(** The keywords, as the bytes of the source file have them. *)
Definition side2Keywords : list string := ["op20"; "side 2"; "Á¨¨‰∫åÂ∫è"; "ËÉåÈù¢"].
Definition flipKeywords : list string := ["flip"; "ÊéâÈ†≠"; "ÂèçËΩâ"; "Êé•Êñô"; "ÂâØ‰∏ªËª∏"].

Definition includesAny (n : string) (kws : list string) : bool :=
  existsb (includes n) kws.

(** The three variables the [forEach] callback updates. *)
Record SplitState : Type := {
  l1 : num;
  l2 : num;
  isSide2 : bool;
}.

Inductive Bucket : Type := L1 | L2.

(** The bucket the callback adds an operation to, given [isSide2] on
    entry, read off the callback ([splitStep_bucket] ties it to it). *)
Definition bucketOf (side2 : bool) (op : MachiningOperation num) : Bucket :=
  let n := toLowerCase (name op) in
  let side2 := if includesAny n side2Keywords then true else side2 in
  if includesAny n flipKeywords then L1
  else if side2 then L2 else L1.

(** [isSide2] when the callback returns. *)
Definition nextSide2 (side2 : bool) (op : MachiningOperation num) : bool :=
  let n := toLowerCase (name op) in
  let side2 := if includesAny n side2Keywords then true else side2 in
  if includesAny n flipKeywords then true else side2.

(** One call of the [forEach] callback. *)
Definition splitStep (st : SplitState) (op : MachiningOperation num)
    : SplitState :=
  let n := toLowerCase (name op) in
  let side2 := if includesAny n side2Keywords then true else isSide2 st in
  if includesAny n flipKeywords then
    {| l1 := l1 st + estimatedTimeSeconds op; l2 := l2 st; isSide2 := true |}
  else if side2 then
    {| l1 := l1 st; l2 := l2 st + estimatedTimeSeconds op; isSide2 := side2 |}
  else
    {| l1 := l1 st + estimatedTimeSeconds op; l2 := l2 st; isSide2 := side2 |}.

Definition splitInit : SplitState :=
  {| l1 := lit 0; l2 := lit 0; isSide2 := false |}.

(** The accumulators after the loop, before rounding. *)
Definition splitBuckets (ops : list (MachiningOperation num)) : SplitState :=
  fold_left splitStep ops splitInit.

(** [splitTimes]: [{ l1: Math.round(l1), l2: Math.round(l2) }]. *)
Definition splitTimes (ops : list (MachiningOperation num)) : num * num :=
  let st := splitBuckets ops in (Math_round (l1 st), Math_round (l2 st)).

(** The buckets of the operations of a list, in order. *)
Fixpoint bucketsFrom (side2 : bool) (ops : list (MachiningOperation num))
    : list Bucket :=
  match ops with
  | [] => []
  | op :: rest => bucketOf side2 op :: bucketsFrom (nextSide2 side2 op) rest
  end.

Definition buckets (ops : list (MachiningOperation num)) : list Bucket :=
  bucketsFrom false ops.

(** ** Words for the statements about [splitTimes] *)

Definition hasSide2Keyword (op : MachiningOperation num) : bool :=
  includesAny (toLowerCase (name op)) side2Keywords.

Definition hasFlipKeyword (op : MachiningOperation num) : bool :=
  includesAny (toLowerCase (name op)) flipKeywords.

(** An operation that switches the loop to side 2. *)
Definition isTrigger (op : MachiningOperation num) : bool :=
  hasSide2Keyword op || hasFlipKeyword op.

(** The rule the loop follows for operation [k]: a flip operation is
    added to L1 wherever it stands; any other operation is added to L2
    when an earlier operation is a trigger or it carries a side-2 keyword
    itself, and to L1 otherwise. *)
Definition ruleBucket (ops : list (MachiningOperation num)) (k : nat)
    (op : MachiningOperation num) : Bucket :=
  if hasFlipKeyword op then L1
  else if existsb isTrigger (take k ops) || hasSide2Keyword op then L2
  else L1.

(** The sum of the times of a list of operations. *)
Definition timeSum (ops : list (MachiningOperation num)) : num :=
  foldr (fun op acc => estimatedTimeSeconds op + acc) (lit 0) ops.

Definition bucket_eqb (a b : Bucket) : bool :=
  match a, b with L1, L1 | L2, L2 => true | _, _ => false end.

(** The operations the loop adds to bucket [b] when it starts with
    [isSide2 = side2]. *)
Definition opsOfBucketFrom (b : Bucket) (side2 : bool)
    (ops : list (MachiningOperation num)) : list (MachiningOperation num) :=
  fst <$> List.filter (fun p => bucket_eqb (snd p) b)
            (zip ops (bucketsFrom side2 ops)).

(** The operations the loop adds to bucket [b]. *)
Definition opsOfBucket (b : Bucket) (ops : list (MachiningOperation num))
    : list (MachiningOperation num) :=
  opsOfBucketFrom b false ops.

End ResultsView.

(* ================================================================== *)
(** * components/CostAnalysisCard.tsx                                   *)
(* ================================================================== *)

(** The characters [/[^0-9.]/g] leaves in place. *)
Definition isDimChar (c : ascii) : bool := is_digit c || Ascii.eqb c ".".

(** [val.replace(/[^0-9.]/g, '')]. *)
Fixpoint stripNonNumeric (s : string) : string :=
  match s with
  | String c r =>
      if isDimChar c then String c (stripNonNumeric r) else stripNonNumeric r
  | EmptyString => EmptyString
  end.

Section CostAnalysisCard.
Context {num : Type} `{JsNumber num}.
Local Open Scope js_scope.

(** [parseDim(val?: string)]; a missing [val] is [None]. *)
Definition parseDim (val : option string) : num :=
  match val with
  | None => lit 0
  | Some v =>
      if String.eqb v "" then lit 0
      else
        match parseFloat (stripNonNumeric v) with
        | None => lit 0          (* isNaN(num) *)
        | Some n => n
        end
  end.

(** What the [calculation] memo returns. *)
Record Calculation : Type := {
  volume : num;
  weight : num;
  machiningCost : num;
  materialCost : num;
  totalCost : num;
}.

(** The [calculation] memo of [CostAnalysisCard]: the props [odStr],
    [idStr], [lengthStr], [totalTimeSeconds] and the state [customDensity],
    [hourlyRate], [materialPriceKg]. *)
Definition calculation (odStr : string) (idStr : option string)
    (lengthStr : string) (totalTimeSeconds customDensity hourlyRate
    materialPriceKg : num) : Calculation :=
  let od := parseDim (Some odStr) in
  let id := parseDim idStr in
  let len := parseDim (Some lengthStr) in
  let density := customDensity in
  let rOut := od / lit 2 in
  let rIn := id / lit 2 in
  let volumeMm3 := Math_PI * (Math_pow rOut 2 - Math_pow rIn 2) * len in
  let weightKg := (volumeMm3 / lit 1000 * density) / lit 1000 in
  let machiningCost := (totalTimeSeconds / lit 3600) * hourlyRate in
  let materialCost := weightKg * materialPriceKg in
  {| volume := volumeMm3;
     weight := weightKg;
     machiningCost := machiningCost;
     materialCost := materialCost;
     totalCost := machiningCost + materialCost |}.
End CostAnalysisCard.

(* ================================================================== *)
(** * Effects: the world the services and the App component act on      *)
(* ================================================================== *)

(** What the code reads off a thrown value: [err.message],
    [err.toString()] and [JSON.stringify(err)]. *)
Record JsError : Type := {
  err_message : string;
  err_toString : string;
  err_json : string;
}.

(** [new Error(msg)]: no enumerable property, so its JSON text is [{}]. *)
Definition Error (msg : string) : JsError :=
  {| err_message := msg; err_toString := "Error: " +:+ msg; err_json := "{}" |}.

Definition SecurityError : JsError :=
  {| err_message := "The operation is insecure.";
     err_toString := "SecurityError: The operation is insecure.";
     err_json := "{}" |}.

Definition QuotaExceededError : JsError :=
  {| err_message := "The quota has been exceeded.";
     err_toString := "QuotaExceededError: The quota has been exceeded.";
     err_json := "{}" |}.

Definition SyntaxError : JsError :=
  {| err_message := "Unexpected token";
     err_toString := "SyntaxError: Unexpected token";
     err_json := "{}" |}.

Definition TypeError (msg : string) : JsError :=
  {| err_message := msg; err_toString := "TypeError: " +:+ msg;
     err_json := "{}" |}.

(** How a call, or the promise of an async call, ends. *)
Inductive Completion (A : Type) : Type :=
| Return (a : A)
| Throw (e : JsError).
Arguments Return {A} _.
Arguments Throw {A} _.

Inductive Sides : Type := side_1_left | side_1_right | side_1_complete | side_2.

Definition sidesText (s : Sides) : string :=
  match s with
  | side_1_left => "1-left"
  | side_1_right => "1-right"
  | side_1_complete => "1-complete"
  | side_2 => "2"
  end.

Inductive Strategy : Type := conservative | standard | aggressive.
Inductive SpindleMode : Type := G96 | G97.

Module AnalysisConfig.
Record t : Type := {
  material : string;
  od : string;
  id : string;
  length : string;
  sides : Sides;
  strategy : Strategy;
  spindleMode : SpindleMode;
  userRemarks : option string;
  apiKey : option string;
}.
End AnalysisConfig.

Module HistoryItem.
Record t (num : Type) : Type := {
  id : string;
  timestamp : Z;
  result : EstimationResult num;
  config : AnalysisConfig.t;
  thumbnail : string;
  previewImage : string;
}.
Arguments id {num} _.
Arguments timestamp {num} _.
Arguments result {num} _.
Arguments config {num} _.
Arguments thumbnail {num} _.
Arguments previewImage {num} _.
End HistoryItem.

(** A value [JSON.parse] returns.  An object with the six properties of
    a history item, typed as the interface types them, is kept as the
    record ([VItem]); any other object as its own properties, each name
    once ([VObject]). *)
#[warnings="-register-all"]
Inductive JsValue (num : Type) : Type :=
| VNull
| VBool (b : bool)
| VNumber (n : num)
| VString (s : string)
| VArray (elements : list (JsValue num))
| VObject (properties : list (string * JsValue num))
| VItem (item : HistoryItem.t num).
Arguments VNull {num}.
Arguments VBool {num} _.
Arguments VNumber {num} _.
Arguments VString {num} _.
Arguments VArray {num} _.
Arguments VObject {num} _.
Arguments VItem {num} _.

(** A text held by [localStorage]: a JSON text, kept as the value
    [JSON.parse] reads it as (and [JSON.stringify] writes it from), or a
    text that is not JSON, the empty text for one, which [JSON.parse]
    rejects.  The numbers of a value that came out of [JSON.parse] are
    finite, so that writing such a value and reading it back gives the
    value again (but for the sign of a zero). *)
Inductive StoredText (num : Type) : Type :=
| JsonText (value : JsValue num)
| NotJson (s : string).
Arguments JsonText {num} _.
Arguments NotJson {num} _.

(** The text of a list of history items. *)
Definition JsonHistory {num : Type} (items : list (HistoryItem.t num))
    : StoredText num :=
  JsonText (VArray (VItem <$> items)).

(** The request [ai.models.generateContent] is called with: the key the
    client was built with, the model, and the inline image.  The prompt
    text and the response schema, which no decision of the code reads,
    are left out. *)
Record Request : Type := {
  req_apiKey : string;
  req_model : string;
  req_data : option string;
  req_mimeType : string;
}.

(** The state of the [App] component. *)
Record AppModel (num : Type) : Type := {
  appState : AppState;
  result : option (EstimationResult num);
  errorMsg : option string;
  previewImage : option string;
}.
Arguments appState {num} _.
Arguments result {num} _.
Arguments errorMsg {num} _.
Arguments previewImage {num} _.

Record World (num : Type) : Type := {
  localStorage : gmap string (StoredText num);
  storageEnabled : bool;      (* false: every localStorage access throws *)
  clock : Z;                  (* the next reading of Date.now() *)
  requests : list Request;    (* generateContent requests sent, newest first *)
  analyzeCalls : nat;         (* calls of analyzeBlueprint so far *)
  app : AppModel num;
}.
Arguments localStorage {num} _.
Arguments storageEnabled {num} _.
Arguments clock {num} _.
Arguments requests {num} _.
Arguments analyzeCalls {num} _.
Arguments app {num} _.

(** A file handed to the App. *)
Record File : Type := {
  file_name : string;
  file_type : string;
}.

(** What the browser, pdf.js and the AI service answer.  The code cannot
    see inside any of these; each is a function of what it is given. *)
Class Platform (num : Type) : Type := {
  (* localStorage and the clock *)
  quotaAllows : StoredText num -> bool;   (* setItem of this text fits *)
  elapse : Z -> Z;                        (* the clock after a reading *)
  (* Image load, canvas draw and toDataURL of compressImage; the empty
     text when the image fails to load or there is no 2d context *)
  encodeImage : string -> Z -> Q -> string;
  (* where getEnvApiKey looks *)
  import_meta_env_VITE_API_KEY : option string;
  process_env_VITE_API_KEY : option string;
  process_env_REACT_APP_API_KEY : option string;
  process_env_API_KEY : option string;
  window_API_KEY : option string;
  (* the AI service: response.text, or a rejection *)
  generateContent : Request -> Completion (option string);
  JSON_parse : string -> Completion (EstimationResult num);
  (* file reading, pdf.js and the canvas *)
  ArrayBuffer : Type;
  PDFDocument : Type;
  PDFPage : Type;
  Canvas : Type;
  file_arrayBuffer : File -> Completion ArrayBuffer;
  pdfjs_getDocument : ArrayBuffer -> Completion PDFDocument;
  pdf_getPage : PDFDocument -> nat -> Completion PDFPage;
  canvas_getContext_2d : bool;            (* false: getContext returns null *)
  page_render : PDFPage -> Z -> Completion Canvas;   (* page, scale *)
  canvas_toDataURL : Canvas -> string -> Q -> string;
  readAsDataURL : File -> Completion string;  (* Throw: the error event *)
}.

Declare Scope jsm_scope.
Delimit Scope jsm_scope with jsm.

Section Effects.
Context {num : Type}.

(** A computation that may change the world and may throw. *)
Definition JS (A : Type) : Type := World num -> World num * Completion A.

Definition ret {A} (a : A) : JS A := fun w => (w, Return a).

Definition throw {A} (e : JsError) : JS A := fun w => (w, Throw e).

Definition bind {A B} (m : JS A) (k : A -> JS B) : JS B :=
  fun w =>
    match m w with
    | (w', Return a) => k a w'
    | (w', Throw e) => (w', Throw e)
    end.

(** [try { m } catch (e) { h e }]. *)
Definition tryCatch {A} (m : JS A) (h : JsError -> JS A) : JS A :=
  fun w =>
    match m w with
    | (w', Return a) => (w', Return a)
    | (w', Throw e) => h e w'
    end.

(** A platform answer, as a computation. *)
Definition answer {A} (c : Completion A) : JS A := fun w => (w, c).

Definition setStorage (w : World num) (ls : gmap string (StoredText num))
    : World num :=
  {| localStorage := ls; storageEnabled := storageEnabled w;
     clock := clock w; requests := requests w;
     analyzeCalls := analyzeCalls w; app := app w |}.

Definition setClock (w : World num) (t : Z) : World num :=
  {| localStorage := localStorage w; storageEnabled := storageEnabled w;
     clock := t; requests := requests w;
     analyzeCalls := analyzeCalls w; app := app w |}.

Definition setRequests (w : World num) (rs : list Request) : World num :=
  {| localStorage := localStorage w; storageEnabled := storageEnabled w;
     clock := clock w; requests := rs;
     analyzeCalls := analyzeCalls w; app := app w |}.

Definition setAnalyzeCalls (w : World num) (n : nat) : World num :=
  {| localStorage := localStorage w; storageEnabled := storageEnabled w;
     clock := clock w; requests := requests w;
     analyzeCalls := n; app := app w |}.

Definition setApp (w : World num) (a : AppModel num) : World num :=
  {| localStorage := localStorage w; storageEnabled := storageEnabled w;
     clock := clock w; requests := requests w;
     analyzeCalls := analyzeCalls w; app := a |}.
End Effects.
Arguments JS : clear implicits.

Notation "x <- m ;; k" := (bind m (fun x => k))
  (at level 20, m at level 99, k at level 200, only parsing) : jsm_scope.
Notation "m ;;; k" := (bind m (fun _ => k))
  (at level 100, k at level 200, only parsing) : jsm_scope.

(** [s.split(',')[1]]: the text between the first comma and the next,
    [undefined] when there is no comma. *)
Fixpoint upToComma (s : string) : string :=
  match s with
  | String c r => if Ascii.eqb c "," then EmptyString else String c (upToComma r)
  | EmptyString => EmptyString
  end.

Fixpoint splitCommaSecond (s : string) : option string :=
  match s with
  | String c r => if Ascii.eqb c "," then Some (upToComma r) else splitCommaSecond r
  | EmptyString => None
  end.

(** A value inside a template literal. *)
Definition templateText (s : option string) : string :=
  match s with Some v => v | None => "undefined" end.

(** Truthiness of an optional string: defined and not empty. *)
Definition strTruthy (s : option string) : bool :=
  match s with Some v => negb (String.eqb v "") | None => false end.

(* ================================================================== *)
(** * services/storageService.ts                                        *)
(* ================================================================== *)

Definition STORAGE_KEY : string := "lathe_estimator_history".
Definition MAX_ITEMS : nat := 10.

(** A byte that continues a UTF-8 sequence. *)
Definition is_continuation (c : ascii) : bool :=
  let n := nat_of_ascii c in (128 <=? n)%nat && (n <? 192)%nat.

(** The code points of a string, each as a string of its own: what
    iterating a string yields.  (Strings are kept as UTF-8 bytes.) *)
Fixpoint codePoints (s : string) : list string :=
  match s with
  | EmptyString => []
  | String c r =>
      let rest := codePoints r in
      match r, rest with
      | String d _, p :: ps =>
          if is_continuation d then String c p :: ps
          else String c EmptyString :: rest
      | _, _ => String c EmptyString :: rest
      end
  end.

Section storageService.
Context {num : Type} `{Platform num}.
Local Open Scope jsm_scope.

Definition localStorage_getItem (key : string)
    : JS num (option (StoredText num)) :=
  fun w =>
    if storageEnabled w then (w, Return (localStorage w !! key))
    else (w, Throw SecurityError).

Definition localStorage_setItem (key : string) (text : StoredText num)
    : JS num unit :=
  fun w =>
    if storageEnabled w then
      if quotaAllows text
      then (setStorage w (<[key := text]> (localStorage w)), Return tt)
      else (w, Throw QuotaExceededError)
    else (w, Throw SecurityError).

Definition localStorage_removeItem (key : string) : JS num unit :=
  fun w =>
    if storageEnabled w
    then (setStorage w (delete key (localStorage w)), Return tt)
    else (w, Throw SecurityError).

(** [JSON.parse(data)] on a stored text. *)
Definition JSON_parse_stored (data : StoredText num)
    : Completion (JsValue num) :=
  match data with
  | JsonText value => Return value
  | NotJson _ => Throw SyntaxError
  end.

(** Truthiness of a stored text: only the empty text is falsy, and no
    JSON text is empty. *)
Definition textTruthy (data : StoredText num) : bool :=
  match data with
  | JsonText _ => true
  | NotJson s => negb (String.eqb s "")
  end.

Definition Date_now : JS num Z :=
  fun w => (setClock w (elapse (clock w)), Return (clock w)).

Definition Z_toString (z : Z) : string :=
  NilZero.string_of_int (Z.to_int z).

Definition compressImage (base64Str : string) (maxWidth : Z) (quality : Q)
    : JS num string :=
  let src := if startsWith base64Str "data:" then base64Str
             else "data:image/jpeg;base64," +:+ base64Str in
  ret (encodeImage src maxWidth quality).

Definition getHistory : JS num (JsValue num) :=
  tryCatch
    (data <- localStorage_getItem STORAGE_KEY ;;
     match data with
     | Some text => if textTruthy text then answer (JSON_parse_stored text)
                    else ret (VArray [])
     | None => ret (VArray [])
     end)
    (fun e => ret (VArray [])).

(** [...existing] in an array literal: the elements of an array, the
    code points of a string; no other JSON value can be iterated. *)
Definition spread (existing : JsValue num)
    : Completion (list (JsValue num)) :=
  match existing with
  | VArray elements => Return elements
  | VString s => Return (VString <$> codePoints s)
  | _ => Throw (TypeError "existing is not iterable")
  end.

(** The item [saveHistoryItem] builds, from the two images and the two
    clock readings. *)
Definition newHistoryItem (result : EstimationResult num)
    (config : AnalysisConfig.t) (thumbnail previewImage : string)
    (idNow timestampNow : Z) : HistoryItem.t num :=
  {| HistoryItem.id := Z_toString idNow;
     HistoryItem.timestamp := timestampNow;
     HistoryItem.result := result;
     HistoryItem.config := config;
     HistoryItem.thumbnail := thumbnail;
     HistoryItem.previewImage := previewImage |}.

(** The [try] block of [saveHistoryItem]. *)
Definition saveHistoryItem_try (result : EstimationResult num)
    (config : AnalysisConfig.t) (originalImageBase64 : string) : JS num unit :=
  thumbnail <- compressImage originalImageBase64 150 (6 # 10) ;;
  previewImage <- compressImage originalImageBase64 800 (7 # 10) ;;
  idNow <- Date_now ;;
  timestampNow <- Date_now ;;
  let newItem := newHistoryItem result config thumbnail previewImage
                   idNow timestampNow in
  existing <- getHistory ;;
  rest <- answer (spread existing) ;;
  let updated := take MAX_ITEMS (VItem newItem :: rest) in
  localStorage_setItem STORAGE_KEY (JsonText (VArray updated)).

Definition saveHistoryItem (result : EstimationResult num)
    (config : AnalysisConfig.t) (originalImageBase64 : string) : JS num unit :=
  tryCatch (saveHistoryItem_try result config originalImageBase64)
           (fun e => ret tt).

(** [item.id] on an object that is no history item. *)
Definition property (key : string) (properties : list (string * JsValue num))
    : option (JsValue num) :=
  snd <$> List.find (fun p => String.eqb (fst p) key) properties.

(** The callback [item => item.id !== id]: reading a property of [null]
    throws; a number, a boolean, a string and an array have no [id]. *)
Definition idDiffers (id : string) (item : JsValue num) : Completion bool :=
  match item with
  | VNull => Throw (TypeError "Cannot read properties of null (reading 'id')")
  | VItem h => Return (negb (String.eqb (HistoryItem.id h) id))
  | VObject properties =>
      Return (match property "id" properties with
              | Some (VString s) => negb (String.eqb s id)
              | _ => true
              end)
  | VBool _ | VNumber _ | VString _ | VArray _ => Return true
  end.

(** [elements.filter(callback)]: the callback runs on each element in
    turn, and what it throws ends the call. *)
Fixpoint Array_filter (callback : JsValue num -> Completion bool)
    (elements : list (JsValue num)) : Completion (list (JsValue num)) :=
  match elements with
  | [] => Return []
  | x :: rest =>
      match callback x with
      | Throw e => Throw e
      | Return keep =>
          match Array_filter callback rest with
          | Throw e => Throw e
          | Return kept => Return (if keep then x :: kept else kept)
          end
      end
  end.

(** [existing.filter(item => item.id !== id)]: only an array has the
    method. *)
Definition existing_filter (id : string) (existing : JsValue num)
    : Completion (list (JsValue num)) :=
  match existing with
  | VArray elements => Array_filter (idDiffers id) elements
  | VNull => Throw (TypeError "Cannot read properties of null (reading 'filter')")
  | _ => Throw (TypeError "existing.filter is not a function")
  end.

Definition deleteHistoryItem (id : string) : JS num (JsValue num) :=
  tryCatch
    (existing <- getHistory ;;
     updated <- answer (existing_filter id existing) ;;
     localStorage_setItem STORAGE_KEY (JsonText (VArray updated)) ;;;
     ret (VArray updated))
    (fun e => ret (VArray [])).

Definition clearHistory : JS num unit := localStorage_removeItem STORAGE_KEY.

(** ** Words for the statements about the history *)

(** The value the stored text stands for: the value of a JSON text, and
    the empty array when there is no text, when the text is not JSON and
    when storage cannot be read. *)
Definition storedValue (w : World num) : JsValue num :=
  if storageEnabled w then
    match localStorage w !! STORAGE_KEY with
    | Some (JsonText value) => value
    | Some (NotJson _) => VArray []
    | None => VArray []
    end
  else VArray [].

(** The list a value is read as when a new item is put in front of it:
    an array is the list of its elements, a string the list of its
    characters; no other value is a list. *)
Inductive readsAsList : JsValue num -> list (JsValue num) -> Prop :=
| array_readsAsList (elements : list (JsValue num)) :
    readsAsList (VArray elements) elements
| string_readsAsList (s : string) :
    readsAsList (VString s) (VString <$> codePoints s).

(** An entry carries the id: a history item with this [id], or another
    object whose [id] property is this string. *)
Definition hasId (id : string) (entry : JsValue num) : bool :=
  match entry with
  | VItem h => String.eqb (HistoryItem.id h) id
  | VObject properties =>
      match property "id" properties with
      | Some (VString s) => String.eqb s id
      | _ => false
      end
  | _ => false
  end.

Definition isNull (entry : JsValue num) : bool :=
  match entry with VNull => true | _ => false end.

(** The stored value is an array without a [null] entry: a history that
    [deleteHistoryItem] can go through. *)
Definition storedEntries (w : World num) : option (list (JsValue num)) :=
  match storedValue w with
  | VArray entries => if existsb isNull entries then None else Some entries
  | _ => None
  end.

(** The ids of the history items of a stored value, in their order. *)
Definition idsOf (value : JsValue num) : list string :=
  match value with
  | VArray entries =>
      (fun entry => match entry with
                    | VItem h => HistoryItem.id h
                    | _ => ""
                    end) <$> entries
  | _ => []
  end.

(** The world after the two clock readings of a save. *)
Definition afterReadings (w : World num) : World num :=
  setClock (setClock w (elapse (clock w))) (elapse (elapse (clock w))).

(** The number of entries of a value; none for what is no array. *)
Definition entryCount (value : JsValue num) : nat :=
  match value with VArray entries => length entries | _ => 0 end.

(** The calls the rest of the application makes to the service. *)
Inductive ServiceCall : Type :=
| CallSave (result : EstimationResult num) (config : AnalysisConfig.t)
           (originalImageBase64 : string)
| CallGet
| CallDelete (id : string)
| CallClear.

(** The world after one call, and after a run of calls.  [clearHistory]
    has no [try]: when it throws the world is as it was. *)
Definition afterCall (w : World num) (c : ServiceCall) : World num :=
  match c with
  | CallSave result config image => fst (saveHistoryItem result config image w)
  | CallGet => fst (getHistory w)
  | CallDelete id => fst (deleteHistoryItem id w)
  | CallClear => fst (clearHistory w)
  end.

Definition afterCalls (w : World num) (calls : list ServiceCall) : World num :=
  fold_left afterCall calls w.

(** The item a call of [saveHistoryItem] in world [w] builds. *)
Definition itemToSave (result : EstimationResult num)
    (config : AnalysisConfig.t) (originalImageBase64 : string)
    (w : World num) : HistoryItem.t num :=
  let src := if startsWith originalImageBase64 "data:" then originalImageBase64
             else "data:image/jpeg;base64," +:+ originalImageBase64 in
  newHistoryItem result config
    (encodeImage src 150 (6 # 10)) (encodeImage src 800 (7 # 10))
    (clock w) (elapse (clock w)).
End storageService.

(* ================================================================== *)
(** * services/geminiService.ts                                         *)
(* ================================================================== *)

Definition API_KEY_MISSING_message : string := "API_KEY_MISSING: 請在 Vercel 設定環境變數，或在網頁下方直接輸入 API Key。".
Definition no_data_message : string := "Gemini 沒有回傳資料".

Section geminiService.
Context {num : Type} `{Platform num} `{JsString}.
Local Open Scope jsm_scope.

(** [getEnvApiKey]: the first truthy one of the five places, else [""]. *)
Definition getEnvApiKey : string :=
  if strTruthy import_meta_env_VITE_API_KEY
  then templateText import_meta_env_VITE_API_KEY
  else if strTruthy process_env_VITE_API_KEY
  then templateText process_env_VITE_API_KEY
  else if strTruthy process_env_REACT_APP_API_KEY
  then templateText process_env_REACT_APP_API_KEY
  else if strTruthy process_env_API_KEY
  then templateText process_env_API_KEY
  else if strTruthy window_API_KEY
  then templateText window_API_KEY
  else "".

(** [apiKey?.trim() || getEnvApiKey()]. *)
Definition effectiveApiKey (config : AnalysisConfig.t) : string :=
  let trimmed := trim <$> AnalysisConfig.apiKey config in
  if strTruthy trimmed then templateText trimmed else getEnvApiKey.

(** [await ai.models.generateContent(...)]: the request goes out, then
    the service answers. *)
Definition ai_models_generateContent (req : Request) : JS num (option string) :=
  fun w => (setRequests w (req :: requests w), generateContent req).

Definition withSideMode (r : EstimationResult num) (s : string)
    : EstimationResult num :=
  {| partName := partName r; material := material r;
     stockDiameter := stockDiameter r;
     stockInnerDiameter := stockInnerDiameter r;
     stockLength := stockLength r;
     operations := operations r; totalTimeSeconds := totalTimeSeconds r;
     difficultyRating := difficultyRating r; notes := notes r;
     sideMode := Some s |}.

(** The request [analyzeBlueprint] makes. *)
Definition requestOf (base64Image : option string) (mimeType : string)
    (config : AnalysisConfig.t) : Request :=
  {| req_apiKey := effectiveApiKey config;
     req_model := "gemini-2.5-flash";
     req_data := base64Image;
     req_mimeType := mimeType |}.

Definition analyzeBlueprint (base64Image : option string)
    (mimeType : string) (config : AnalysisConfig.t)
    : JS num (EstimationResult num) :=
  fun w0 =>
    let w := setAnalyzeCalls w0 (S (analyzeCalls w0)) in
    let key := effectiveApiKey config in
    if String.eqb key "" then throw (Error API_KEY_MISSING_message) w
    else
      tryCatch
        (response <- ai_models_generateContent
                       {| req_apiKey := key;
                          req_model := "gemini-2.5-flash";
                          req_data := base64Image;
                          req_mimeType := mimeType |} ;;
         if strTruthy response then
           parsed <- answer (JSON_parse (templateText response)) ;;
           ret (withSideMode parsed (sidesText (AnalysisConfig.sides config)))
         else throw (Error no_data_message))
        (fun error => throw error) w.
End geminiService.

(* ================================================================== *)
(** * App.tsx                                                           *)
(* ================================================================== *)

Definition pdf_conversion_message : string := "PDF 轉換失敗，請確認檔案未損壞或嘗試轉存為圖片。".
Definition default_error_message : string := "分析圖片失敗。請確認圖片清晰度並重試。".
Definition invalid_key_message : string := "⚠️ API Key 設定無效。請檢查 Vercel 環境變數，或直接在網頁下方輸入 API Key。".
Definition overloaded_message : string := "服務暫時繁忙 (Model Overloaded)，請稍後再試。".
Definition pdf_failure_message : string := "PDF 處理失敗 (請確認檔案是否加密或損壞)。".

(** What [fileToGenerativePart] resolves with. *)
Record GenerativePart : Type := {
  base64 : option string;
  mimeType : string;
}.

Section App.
Context {num : Type} `{Platform num} `{JsString}.
Local Open Scope jsm_scope.

Definition setAppState (s : AppState) : JS num unit :=
  fun w =>
    (setApp w {| appState := s; result := result (app w);
                 errorMsg := errorMsg (app w);
                 previewImage := previewImage (app w) |}, Return tt).

Definition setResult (r : option (EstimationResult num)) : JS num unit :=
  fun w =>
    (setApp w {| appState := appState (app w); result := r;
                 errorMsg := errorMsg (app w);
                 previewImage := previewImage (app w) |}, Return tt).

Definition setErrorMsg (m : option string) : JS num unit :=
  fun w =>
    (setApp w {| appState := appState (app w); result := result (app w);
                 errorMsg := m;
                 previewImage := previewImage (app w) |}, Return tt).

Definition setPreviewImage (p : option string) : JS num unit :=
  fun w =>
    (setApp w {| appState := appState (app w); result := result (app w);
                 errorMsg := errorMsg (app w);
                 previewImage := p |}, Return tt).

(** The PDF branch of [fileToGenerativePart], inside its [try]. *)
Definition pdfToJpeg (file : File) : JS num GenerativePart :=
  arrayBuffer <- answer (file_arrayBuffer file) ;;
  pdf <- answer (pdfjs_getDocument arrayBuffer) ;;
  page <- answer (pdf_getPage pdf 1) ;;
  if negb canvas_getContext_2d
  then throw (Error "Could not create canvas context")
  else
    canvas <- answer (page_render page 2) ;;
    let base64String := canvas_toDataURL canvas "image/jpeg" (85 # 100) in
    let base64Data := splitCommaSecond base64String in
    ret {| base64 := base64Data; mimeType := "image/jpeg" |}.

Definition fileToGenerativePart (file : File) : JS num GenerativePart :=
  if String.eqb (file_type file) "application/pdf" then
    tryCatch (pdfToJpeg file)
             (fun pdfError => throw (Error pdf_conversion_message))
  else
    match readAsDataURL file with
    | Return base64String =>
        ret {| base64 := splitCommaSecond base64String;
               mimeType := file_type file |}
    | Throw event => throw event
    end.

(** The message the [catch] of [handleAnalyze] picks. *)
Definition errorMessageFor (err : JsError) : string :=
  let errorStr := err_toString err in
  let errorMsgDetail := err_message err in
  let errorDetails := err_json err in
  if includes errorMsgDetail "API key"
     || includes errorStr "API key"
     || includes errorDetails "API_KEY"
     || includes errorMsgDetail "400"
     || includes errorMsgDetail "403"
  then invalid_key_message
  else if includes errorMsgDetail "503" || includes errorMsgDetail "Overloaded"
  then overloaded_message
  else if includes errorMsgDetail "PDF"
  then pdf_failure_message
  else default_error_message.

(** The [try] block of [handleAnalyze]. *)
Definition handleAnalyze_try (file : File) (config : AnalysisConfig.t)
    : JS num unit :=
  part <- fileToGenerativePart file ;;
  let fullDataUrl :=
    "data:" +:+ mimeType part +:+ ";base64," +:+ templateText (base64 part) in
  setPreviewImage (Some fullDataUrl) ;;;
  data <- analyzeBlueprint (base64 part) (mimeType part) config ;;
  setResult (Some data) ;;;
  setAppState SUCCESS ;;;
  saveHistoryItem data config fullDataUrl.

Definition handleAnalyze (file : File) (config : AnalysisConfig.t)
    : JS num unit :=
  setAppState ANALYZING ;;;
  setErrorMsg None ;;;
  tryCatch (handleAnalyze_try file config)
    (fun err =>
       setAppState ERROR ;;;
       setErrorMsg (Some (errorMessageFor err))).

Definition handleLoadHistory (item : HistoryItem.t num) : JS num unit :=
  setResult (Some (HistoryItem.result item)) ;;;
  setPreviewImage (Some (HistoryItem.previewImage item)) ;;;
  setAppState SUCCESS ;;;
  setErrorMsg None.

Definition resetApp : JS num unit :=
  setAppState IDLE ;;;
  setResult None ;;;
  setErrorMsg None ;;;
  setPreviewImage None.
(** ** Words for the statements about the App *)

(** The first page of a PDF file rendered to a canvas at scale 2 and
    encoded as a JPEG data URL, or the failure of the step that fails. *)
Definition renderFirstPageJpeg (file : File) : Completion string :=
  match file_arrayBuffer file with
  | Throw e => Throw e
  | Return arrayBuffer =>
      match pdfjs_getDocument arrayBuffer with
      | Throw e => Throw e
      | Return pdf =>
          match pdf_getPage pdf 1 with
          | Throw e => Throw e
          | Return page =>
              if canvas_getContext_2d then
                match page_render page 2 with
                | Throw e => Throw e
                | Return canvas =>
                    Return (canvas_toDataURL canvas "image/jpeg" (85 # 100))
                end
              else Throw (Error "Could not create canvas context")
          end
      end
  end.

(** How the conversion of a file ends, read off the platform: for a PDF,
    the first page as a JPEG or the conversion error; for any other file,
    what the reader gives. *)
Definition conversionOutcome (file : File) : Completion GenerativePart :=
  if String.eqb (file_type file) "application/pdf" then
    match renderFirstPageJpeg file with
    | Return url =>
        Return {| base64 := splitCommaSecond url; mimeType := "image/jpeg" |}
    | Throw _ => Throw (Error pdf_conversion_message)
    end
  else
    match readAsDataURL file with
    | Return url =>
        Return {| base64 := splitCommaSecond url; mimeType := file_type file |}
    | Throw event => Throw event
    end.

(** How the analysis of a converted file ends, read off the platform:
    no key, a rejected request, an answer without text, a text that does
    not parse, or the parsed estimate with the side mode of the form. *)
Definition analysisOutcome (part : GenerativePart) (config : AnalysisConfig.t)
    : Completion (EstimationResult num) :=
  if String.eqb (effectiveApiKey config) ""
  then Throw (Error API_KEY_MISSING_message)
  else
    match generateContent (requestOf (base64 part) (mimeType part) config) with
    | Throw e => Throw e
    | Return response =>
        if strTruthy response then
          match JSON_parse (templateText response) with
          | Throw e => Throw e
          | Return parsed =>
              Return (withSideMode parsed
                        (sidesText (AnalysisConfig.sides config)))
          end
        else Throw (Error no_data_message)
    end.

(** The world in which the [try] block of [handleAnalyze] starts. *)
Definition analyzing (w : World num) : World num :=
  setApp w {| appState := ANALYZING; result := result (app w);
              errorMsg := None; previewImage := previewImage (app w) |}.
End App.

(* ================================================================== *)
(** * Words for the statements about the cost card                      *)
(* ================================================================== *)

(** Deleting every character other than the digits and the dot. *)
Definition keepDigitsAndDots (s : string) : string :=
  string_of_list_ascii (List.filter isDimChar (list_ascii_of_string s)).

Section CostWords.
Context {num : Type} `{JsNumber num}.
Local Open Scope js_scope.

(** A dimension as the specification words it: the text with every
    character other than digits and dots deleted, parsed as a float, with
    0 for a missing or unparsable value. *)
Definition claimedDim (val : option string) : num :=
  match val with
  | None => lit 0
  | Some v =>
      match parseFloat (keepDigitsAndDots v) with
      | Some n => n
      | None => lit 0
      end
  end.

(** The weight as the specification writes it,
    [PI * ((od/2)^2 - (id/2)^2) * len * density / 10^6], computed from left
    to right. *)
Definition claimedWeight (od id len density : num) : num :=
  Math_PI * (Math_pow (od / lit 2) 2 - Math_pow (id / lit 2) 2) * len * density
  / lit (10 ^ 6).
End CostWords.

(* ================================================================== *)
(** * Sample data                                                       *)
(* ================================================================== *)

Module Sample.
Import AsciiStrings.
Local Open Scope Q_scope.

Definition roughing : MachiningOperation Q :=
  {| name := "OD rough turning"; description := "Rough the outer diameter";
     estimatedTimeSeconds := 60; toolType := "CNMG 432";
     rpm := Some 1000; feedRate := Some (2 # 10) |}.

Definition drilling : MachiningOperation Q :=
  {| name := "Drilling"; description := "Drill the centre hole";
     estimatedTimeSeconds := 91 # 2; toolType := "Drill 12";
     rpm := Some 800; feedRate := Some (1 # 10) |}.

Definition flipPart : MachiningOperation Q :=
  {| name := "Flip part"; description := "Turn the part around";
     estimatedTimeSeconds := 30; toolType := "Chuck";
     rpm := None; feedRate := None |}.

Definition backFacing : MachiningOperation Q :=
  {| name := "OP20 facing"; description := "Face the second side";
     estimatedTimeSeconds := 20; toolType := "CNMG 432";
     rpm := Some 1200; feedRate := Some (15 # 100) |}.

Definition estimate : EstimationResult Q :=
  {| partName := "Shaft"; material := "S45C"; stockDiameter := "50 mm";
     stockInnerDiameter := Some "0"; stockLength := "120 mm";
     operations := [roughing; drilling; flipPart; backFacing];
     totalTimeSeconds := 311 # 2; difficultyRating := Medium;
     notes := ""; sideMode := Some "2" |}.

(** The state after typing 2000 into the rpm box of the first operation. *)
Definition afterRpm2000 : EstimationResult Q :=
  Eval vm_compute in
    match handleParamChange estimate estimate 0%nat rpmField "2000" with
    | Edited r => r
    | _ => estimate
    end.

(** Two runs of edits that end with rpm 1500 and feed 0.2 at operation 0. *)
Definition runA : list (nat * ParamField * string) :=
  [(0, rpmField, "2000"); (0, feedRateField, "0.25"); (0, rpmField, "1500");
   (0, feedRateField, "0.2")]%nat.

Definition runB : list (nat * ParamField * string) :=
  [(0, feedRateField, "0.4"); (0, rpmField, "1500"); (0, feedRateField, "0.2")]%nat.

Definition afterRun (edits : list (nat * ParamField * string))
    : EstimationResult Q :=
  match handleParamChanges estimate estimate edits with
  | Edited r => r
  | _ => estimate
  end.

Definition afterRunA : EstimationResult Q := Eval vm_compute in afterRun runA.
Definition afterRunB : EstimationResult Q := Eval vm_compute in afterRun runB.

(** Operation 0 at the end of each run. *)
Definition opA : MachiningOperation Q :=
  Eval vm_compute in default roughing (operations afterRunA !! 0%nat).
Definition opB : MachiningOperation Q :=
  Eval vm_compute in default roughing (operations afterRunB !! 0%nat).

(** An operation of 11.25 s, and the estimate that holds it alone. *)
Definition finishing : MachiningOperation Q :=
  {| name := "OD finish turning"; description := "Finish the outer diameter";
     estimatedTimeSeconds := 45 # 4; toolType := "VNMG 331";
     rpm := Some 1000; feedRate := Some (7 # 20) |}.

Definition finishEstimate : EstimationResult Q :=
  {| partName := "Pin"; material := "S45C"; stockDiameter := "20 mm";
     stockInnerDiameter := None; stockLength := "60 mm";
     operations := [finishing]; totalTimeSeconds := 45 # 4;
     difficultyRating := Low; notes := ""; sideMode := Some "1-complete" |}.

(** The rpm of the first operation set to 2000 and back to 1000. *)
Definition thereAndBack : list (nat * ParamField * string) :=
  [(0, rpmField, "2000"); (0, rpmField, "1000")]%nat.

(** An operation with both kinds of keyword. *)
Definition op20Flip : MachiningOperation Q :=
  {| name := "OP20 flip and face"; description := "";
     estimatedTimeSeconds := 12; toolType := "";
     rpm := None; feedRate := None |}.

(** A platform to run the services on.  Reading [unreadable.png] fails,
    [corrupt.pdf] is not a PDF, the key [bad-key] is refused, and the
    quota has no room for more than twelve items. *)
Definition NotReadableError : JsError :=
  {| err_message := ""; err_toString := "[object ProgressEvent]";
     err_json := "{}" |}.

#[export] Instance platform : Platform Q := {|
  quotaAllows := fun text =>
    match text with
    | JsonText (VArray entries) => (length entries <=? 12)%nat
    | _ => true
    end;
  elapse := Z.succ;
  encodeImage := fun src maxWidth quality => "data:image/jpeg;base64,/9j/2Q==";
  import_meta_env_VITE_API_KEY := None;
  process_env_VITE_API_KEY := Some "";
  process_env_REACT_APP_API_KEY := None;
  process_env_API_KEY := Some "env-key";
  window_API_KEY := Some "window-key";
  generateContent := fun req =>
    if String.eqb (req_apiKey req) "bad-key"
    then Throw (Error "API key not valid. Please pass a valid API key.")
    else Return (Some "{ }");
  JSON_parse := fun text => Return estimate;
  ArrayBuffer := string;
  PDFDocument := string;
  PDFPage := string * nat;
  Canvas := string * nat;
  file_arrayBuffer := fun file => Return (file_name file);
  pdfjs_getDocument := fun buffer =>
    if String.eqb buffer "corrupt.pdf"
    then Throw (Error "Invalid PDF structure.")
    else Return buffer;
  pdf_getPage := fun pdf n => Return (pdf, n);
  canvas_getContext_2d := true;
  page_render := fun page scale => Return page;
  canvas_toDataURL := fun canvas type quality => "data:image/jpeg;base64,/9j/4AAQ";
  readAsDataURL := fun file =>
    if String.eqb (file_name file) "unreadable.png" then Throw NotReadableError
    else Return ("data:" +:+ file_type file +:+ ";base64,iVBORw0KGgo=");
|}.

(** The same platform with no key anywhere in the environment. *)
Definition platformWithoutEnvKey : Platform Q := {|
  quotaAllows := quotaAllows;
  elapse := elapse;
  encodeImage := encodeImage;
  import_meta_env_VITE_API_KEY := None;
  process_env_VITE_API_KEY := Some "";
  process_env_REACT_APP_API_KEY := None;
  process_env_API_KEY := None;
  window_API_KEY := None;
  generateContent := generateContent;
  JSON_parse := JSON_parse;
  ArrayBuffer := ArrayBuffer;
  PDFDocument := PDFDocument;
  PDFPage := PDFPage;
  Canvas := Canvas;
  file_arrayBuffer := file_arrayBuffer;
  pdfjs_getDocument := pdfjs_getDocument;
  pdf_getPage := pdf_getPage;
  canvas_getContext_2d := canvas_getContext_2d;
  page_render := page_render;
  canvas_toDataURL := canvas_toDataURL;
  readAsDataURL := readAsDataURL;
|}.

Definition config : AnalysisConfig.t :=
  {| AnalysisConfig.material := "S45C"; AnalysisConfig.od := "50";
     AnalysisConfig.id := "0"; AnalysisConfig.length := "120";
     AnalysisConfig.sides := side_2; AnalysisConfig.strategy := standard;
     AnalysisConfig.spindleMode := G96; AnalysisConfig.userRemarks := None;
     AnalysisConfig.apiKey := None |}.

Definition withApiKey (c : AnalysisConfig.t) (key : option string)
    : AnalysisConfig.t :=
  {| AnalysisConfig.material := AnalysisConfig.material c;
     AnalysisConfig.od := AnalysisConfig.od c;
     AnalysisConfig.id := AnalysisConfig.id c;
     AnalysisConfig.length := AnalysisConfig.length c;
     AnalysisConfig.sides := AnalysisConfig.sides c;
     AnalysisConfig.strategy := AnalysisConfig.strategy c;
     AnalysisConfig.spindleMode := AnalysisConfig.spindleMode c;
     AnalysisConfig.userRemarks := AnalysisConfig.userRemarks c;
     AnalysisConfig.apiKey := key |}.

Definition historyItem (n : Z) : HistoryItem.t Q :=
  {| HistoryItem.id := Z_toString n; HistoryItem.timestamp := n;
     HistoryItem.result := estimate; HistoryItem.config := config;
     HistoryItem.thumbnail := ""; HistoryItem.previewImage := "" |}.

(** A fresh browser: nothing stored, nothing sent, the App idle. *)
Definition freshWorld : World Q :=
  {| localStorage := ∅; storageEnabled := true; clock := 1730000000000;
     requests := []; analyzeCalls := 0%nat;
     app := {| appState := IDLE; result := None; errorMsg := None;
               previewImage := None |} |}.

(** A browser with ten items in the history. *)
Definition fullWorld : World Q :=
  setStorage freshWorld
    {[ STORAGE_KEY := JsonHistory (historyItem <$> [10; 9; 8; 7; 6; 5; 4; 3; 2; 1]%Z) ]}.

Definition drawingPng : File := {| file_name := "drawing.png"; file_type := "image/png" |}.
Definition drawingPdf : File := {| file_name := "drawing.pdf"; file_type := "application/pdf" |}.
Definition corruptPdf : File := {| file_name := "corrupt.pdf"; file_type := "application/pdf" |}.
Definition unreadablePng : File := {| file_name := "unreadable.png"; file_type := "image/png" |}.

(** The browser with a full history after one more save. *)
Definition afterSave : World Q :=
  Eval vm_compute in fst (saveHistoryItem estimate config "iVBORw0KGgo=" fullWorld).
End Sample.

(** The first sample operation on binary64 numbers. *)
Module Sample64.
Import Floats.
Import Binary64.
Local Open Scope float_scope.

Definition roughing64 : MachiningOperation float :=
  {| name := "OD rough turning"; description := "";
     estimatedTimeSeconds := 60; toolType := "CNMG 432";
     rpm := Some 1000; feedRate := Some 0x1.999999999999ap-3 |}.

Definition estimate64 : EstimationResult float :=
  {| partName := "Shaft"; material := "S45C"; stockDiameter := "50 mm";
     stockInnerDiameter := None; stockLength := "120 mm";
     operations := [roughing64]; totalTimeSeconds := 60;
     difficultyRating := Medium; notes := ""; sideMode := None |}.

(** The operation of 11.25 s (rpm 1000, feed 0.35) on binary64 numbers. *)
Definition finishing64 : MachiningOperation float :=
  {| name := "OD finish turning"; description := "";
     estimatedTimeSeconds := 11.25; toolType := "VNMG 331";
     rpm := Some 1000; feedRate := Some 0x1.6666666666666p-2 |}.

Definition finishEstimate64 : EstimationResult float :=
  {| partName := "Pin"; material := "S45C"; stockDiameter := "20 mm";
     stockInnerDiameter := None; stockLength := "60 mm";
     operations := [finishing64]; totalTimeSeconds := 11.25;
     difficultyRating := Low; notes := ""; sideMode := None |}.

(** Four operations of 12.5 s, 12.5 s, 8.7 s and 20.1 s, the last two on
    the second side. *)
Definition timed64 (n : string) (t : float) : MachiningOperation float :=
  {| name := n; description := ""; estimatedTimeSeconds := t;
     toolType := ""; rpm := None; feedRate := None |}.

Definition twoSides64 : list (MachiningOperation float) :=
  [timed64 "OD rough turning" 12.5; timed64 "Drilling" 12.5;
   timed64 "OP20 facing" 0x1.1666666666666p+3;
   timed64 "OP20 finish turning" 0x1.419999999999ap+4].
End Sample64.

(* ================================================================== *)
(** * components/ResultsView.tsx: the text boxes and the display        *)
(* ================================================================== *)

(** The [field] argument of [handleOpTextChange]: ['name' | 'description']. *)
Inductive TextField : Type := nameField | descriptionField.

(** One change event of the result page. *)
Inductive Edit : Type :=
| ParamEdit (index : nat) (field : ParamField) (value : string)
| OpTextEdit (index : nat) (field : TextField) (value : string)
| PartNameEdit (value : string)
| NotesEdit (value : string).

Section ResultsViewText.
Context {num : Type} `{JsNumber num}.

(** [{ ...op, [field]: value }]. *)
Definition setText (op : MachiningOperation num) (field : TextField)
    (value : string) : MachiningOperation num :=
  match field with
  | nameField =>
      {| name := value; description := description op;
         estimatedTimeSeconds := estimatedTimeSeconds op;
         toolType := toolType op; rpm := rpm op; feedRate := feedRate op |}
  | descriptionField =>
      {| name := name op; description := value;
         estimatedTimeSeconds := estimatedTimeSeconds op;
         toolType := toolType op; rpm := rpm op; feedRate := feedRate op |}
  end.

(** [handlePartNameChange]: [{ ...localResult, partName: e.target.value }]. *)
Definition handlePartNameChange (localResult : EstimationResult num)
    (value : string) : EstimationResult num :=
  {| partName := value; material := material localResult;
     stockDiameter := stockDiameter localResult;
     stockInnerDiameter := stockInnerDiameter localResult;
     stockLength := stockLength localResult;
     operations := operations localResult;
     totalTimeSeconds := totalTimeSeconds localResult;
     difficultyRating := difficultyRating localResult;
     notes := notes localResult; sideMode := sideMode localResult |}.

(** [handleNotesChange]: [{ ...localResult, notes: e.target.value }]. *)
Definition handleNotesChange (localResult : EstimationResult num)
    (value : string) : EstimationResult num :=
  {| partName := partName localResult; material := material localResult;
     stockDiameter := stockDiameter localResult;
     stockInnerDiameter := stockInnerDiameter localResult;
     stockLength := stockLength localResult;
     operations := operations localResult;
     totalTimeSeconds := totalTimeSeconds localResult;
     difficultyRating := difficultyRating localResult;
     notes := value; sideMode := sideMode localResult |}.

(** [handleOpTextChange(index, field, value)].  It reads no field of the
    operation, so it never throws; beyond the end of the list JavaScript
    extends the array with an object that holds [field] alone. *)
Definition handleOpTextChange (localResult : EstimationResult num)
    (index : nat) (field : TextField) (value : string) : EditOutcome num :=
  match operations localResult !! index with
  | None => EditUntyped
  | Some op =>
      let newOperations :=
        <[index := setText op field value]> (operations localResult) in
      Edited (withOperations localResult newOperations
                (totalTimeSeconds localResult))
  end.

(** The handler a change event runs. *)
Definition applyEdit (result localResult : EstimationResult num) (e : Edit)
    : EditOutcome num :=
  match e with
  | ParamEdit index field value =>
      handleParamChange result localResult index field value
  | OpTextEdit index field value =>
      handleOpTextChange localResult index field value
  | PartNameEdit value => Edited (handlePartNameChange localResult value)
  | NotesEdit value => Edited (handleNotesChange localResult value)
  end.

(** A run of change events, each handled in the state the one before
    left. *)
Fixpoint applyEdits (result localResult : EstimationResult num)
    (edits : list Edit) : EditOutcome num :=
  match edits with
  | [] => Edited localResult
  | e :: rest =>
      match applyEdit result localResult e with
      | Edited localResult' => applyEdits result localResult' rest
      | EditTypeError => EditTypeError
      | EditUntyped => EditUntyped
      end
  end.

(** The total shown is the total of the operations shown: the sum of
    their counted times, rounded to a tenth of a second. *)
Definition total_consistent (localResult : EstimationResult num) : Prop :=
  totalTimeSeconds localResult = claimedTotal (operations localResult).

(** What no edit touches. *)
Definition same_stock (a b : EstimationResult num) : Prop :=
  material a = material b
  /\ stockDiameter a = stockDiameter b
  /\ stockInnerDiameter a = stockInnerDiameter b
  /\ stockLength a = stockLength b
  /\ difficultyRating a = difficultyRating b
  /\ sideMode a = sideMode b
  /\ length (operations a) = length (operations b)
  /\ toolType <$> operations a = toolType <$> operations b.

(** What an edit of a text box leaves as it was. *)
Definition same_numbers (a b : EstimationResult num) : Prop :=
  totalTimeSeconds a = totalTimeSeconds b
  /\ estimatedTimeSeconds <$> operations a = estimatedTimeSeconds <$> operations b
  /\ rpm <$> operations a = rpm <$> operations b
  /\ feedRate <$> operations a = feedRate <$> operations b.

Definition isParamEdit (e : Edit) : bool :=
  match e with ParamEdit _ _ _ => true | _ => false end.

Definition isRename (e : Edit) : bool :=
  match e with OpTextEdit _ nameField _ => true | _ => false end.
End ResultsViewText.

(** ** formatTime *)

(** [x % y] on exact numbers: the remainder has the sign of [x], the
    quotient being cut towards zero. *)
Definition Qtruncate (x : Q) : Z := Z.quot (Qnum x) (Z.pos (Qden x)).

Definition Q_rem (x y : Q) : Q := (x - y * inject_Z (Qtruncate (x / y)))%Q.

(** [Math.floor]. *)
Definition Q_floor (x : Q) : Q := inject_Z (Qfloor x).

(** The text of an integer-valued number in a template literal (below
    10^21, where JavaScript writes every digit). *)
Definition integerText (x : Q) : string := Z_toString (Qfloor x).

(** The two numbers [formatTime] prints. *)
Definition formatTime_minutes (seconds : Q) : Q := Q_floor (seconds / 60).

Definition formatTime_remainingSeconds (seconds : Q) : Q :=
  Math_round (Q_rem seconds 60).

(** The two suffixes of [formatTime], as the bytes of the source file
    have them. *)
Definition minutes_suffix : string := "ÂàÜ ".
Definition seconds_suffix : string := "Áßí".

(** [formatTime(seconds)]. *)
Definition formatTime (seconds : Q) : string :=
  let minutes := formatTime_minutes seconds in
  let remainingSeconds := formatTime_remainingSeconds seconds in
  integerText minutes +:+ minutes_suffix
  +:+ integerText remainingSeconds +:+ seconds_suffix.

(** ** hasInnerDiameter *)

Definition is_I (c : ascii) : bool := Ascii.eqb c "i" || Ascii.eqb c "I".
Definition is_D (c : ascii) : bool := Ascii.eqb c "d" || Ascii.eqb c "D".
Definition is_M (c : ascii) : bool := Ascii.eqb c "m" || Ascii.eqb c "M".

(** [s.replace(/ID/gi, '')]: every occurrence of the two letters, read
    from the left, is deleted.  Without the [u] flag no character outside
    ASCII matches a letter of the pattern. *)
Fixpoint replace_ID (s : string) : string :=
  match s with
  | String c1 r =>
      match r with
      | String c2 r' =>
          if is_I c1 && is_D c2 then replace_ID r'
          else String c1 (replace_ID r)
      | EmptyString => s
      end
  | EmptyString => EmptyString
  end.

(** White space at the end of a text, read from its last byte backwards.
    [\s] is the ECMAScript WhiteSpace and LineTerminator classes; in UTF-8
    these are the six ASCII characters of [is_space], U+00A0 (C2 A0),
    U+1680 (E1 9A 80), U+2000 to U+200A, U+2028, U+2029, U+202F
    (E2 80 80 to 8A, A8, A9, AF), U+205F (E2 81 9F), U+3000 (E3 80 80) and
    U+FEFF (EF BB BF). *)
Definition is_space2 (b1 b2 : ascii) : bool :=
  (nat_of_ascii b1 =? 194)%nat && (nat_of_ascii b2 =? 160)%nat.

Definition is_space3 (b1 b2 b3 : ascii) : bool :=
  let n1 := nat_of_ascii b1 in
  let n2 := nat_of_ascii b2 in
  let n3 := nat_of_ascii b3 in
  ((n1 =? 225)%nat && (n2 =? 154)%nat && (n3 =? 128)%nat)
  || ((n1 =? 226)%nat && (n2 =? 128)%nat
      && (((128 <=? n3)%nat && (n3 <=? 138)%nat)
          || (n3 =? 168)%nat || (n3 =? 169)%nat || (n3 =? 175)%nat))
  || ((n1 =? 226)%nat && (n2 =? 129)%nat && (n3 =? 159)%nat)
  || ((n1 =? 227)%nat && (n2 =? 128)%nat && (n3 =? 128)%nat)
  || ((n1 =? 239)%nat && (n2 =? 187)%nat && (n3 =? 191)%nat).

(** The bytes of a text in reverse order, with the white space that ends
    the text taken off. *)
Fixpoint dropSpacesRev (r : list ascii) : list ascii :=
  match r with
  | b :: r1 =>
      if is_space b then dropSpacesRev r1
      else
        match r1 with
        | b2 :: r2 =>
            if is_space2 b2 b then dropSpacesRev r2
            else
              match r2 with
              | b3 :: r3 =>
                  if is_space3 b3 b2 b then dropSpacesRev r3 else r
              | [] => r
              end
        | [] => r
        end
  | [] => []
  end.

(** [s.replace(/\s*mm$/i, '')]: when the text ends in the two letters,
    they go, and with them the white space that stands before them. *)
Definition replace_mm_end (s : string) : string :=
  match rev (list_ascii_of_string s) with
  | c2 :: c1 :: r =>
      if is_M c1 && is_M c2
      then string_of_list_ascii (rev (dropSpacesRev r))
      else s
  | _ => s
  end.

Section ResultsViewDisplay.
Context {num : Type} `{JsNumber num} `{JsString}.

(** [hasInnerDiameter(idVal?: string)]. *)
Definition hasInnerDiameter (idVal : option string) : bool :=
  if negb (strTruthy idVal) then false
  else
    let str := trim (replace_mm_end (replace_ID (templateText idVal))) in
    if String.eqb str "" || String.eqb str "0" || String.eqb str "0.0"
    then false
    else
      match parseFloat str with
      | None => false                       (* isNaN(num) *)
      | Some n => gt n (lit 0)
      end.

(** [localResult.stockInnerDiameter || '0'], the [id] the 2D view is
    given. *)
Definition previewId (localResult : EstimationResult num) : string :=
  if strTruthy (stockInnerDiameter localResult)
  then templateText (stockInnerDiameter localResult)
  else "0".

(** [splitTimes.l2 > 0]: the condition under which the page shows the
    two side times under the total. *)
Definition showSplit (ops : list (MachiningOperation num)) : bool :=
  gt (snd (splitTimes ops)) (lit 0).
End ResultsViewDisplay.

(* ================================================================== *)
(** * components/Part3DPreview.tsx                                      *)
(* ================================================================== *)

Section Part3DPreview.
Context {num : Type} `{JsNumber num} `{JsString}.

(** [isSolid()], for the [id] prop.  A number that is not [NaN] is
    [=== 0] exactly when it is falsy. *)
Definition isSolid (id : string) : bool :=
  if String.eqb id "" then true
  else
    let str := trim (replace_mm_end (replace_ID id)) in
    if String.eqb str "" || String.eqb str "0" || String.eqb str "0.0"
    then true
    else
      match parseFloat str with
      | None => true                        (* isNaN(num) *)
      | Some n => negb (toBoolean n)
      end.
End Part3DPreview.

(* ================================================================== *)
(** * components/EmptyState.tsx                                         *)
(* ================================================================== *)

(** The texts of [formatTimeAgo]. *)
Definition just_now_text : string := "剛剛".
Definition minutes_ago_text : string := " 分鐘前".
Definition hours_ago_text : string := " 小時前".
Definition days_ago_text : string := " 天前".

(** [formatTimeAgo(timestamp)], with [now] the reading of [Date.now()].
    Both are whole milliseconds. *)
Definition formatTimeAgo (now timestamp : Z) : string :=
  let seconds := ((now - timestamp) / 1000)%Z in
  if (seconds <? 60)%Z then just_now_text
  else
    let minutes := (seconds / 60)%Z in
    if (minutes <? 60)%Z then Z_toString minutes +:+ minutes_ago_text
    else
      let hours := (minutes / 60)%Z in
      if (hours <? 24)%Z then Z_toString hours +:+ hours_ago_text
      else Z_toString (hours / 24) +:+ days_ago_text.

(* ================================================================== *)
(** * components/CostAnalysisCard.tsx: the density of the material      *)
(* ================================================================== *)

(** [s.toUpperCase()], whose table (Unicode case mapping) is not
    reproduced here. *)
Class JsUpperCase : Type := {
  toUpperCase : string -> string;
}.

(** Its ASCII fragment. *)
Module AsciiUpperCase.
Definition upper_char (c : ascii) : ascii :=
  let n := nat_of_ascii c in
  if (97 <=? n)%nat && (n <=? 122)%nat then ascii_of_nat (n - 32) else c.

Fixpoint toUpperCase (s : string) : string :=
  match s with
  | String c r => String (upper_char c) (toUpperCase r)
  | EmptyString => EmptyString
  end.

#[export] Instance ascii_JsUpperCase : JsUpperCase :=
  Build_JsUpperCase toUpperCase.
End AsciiUpperCase.

(** A property key that is an array index: the decimal text of an
    integer below 2^32 - 1, without a leading zero. *)
Definition isArrayIndex (key : string) : bool :=
  match key with
  | String c r =>
      forallb is_digit (list_ascii_of_string key)
      && (negb (Ascii.eqb c "0") || String.eqb r "")
      && (digits_value key <? 4294967295)%Z
  | EmptyString => false
  end.

Fixpoint insertByIndex {A : Type} (e : string * A) (l : list (string * A))
    : list (string * A) :=
  match l with
  | [] => [e]
  | x :: r =>
      if (digits_value (fst e) <? digits_value (fst x))%Z then e :: l
      else x :: insertByIndex e r
  end.

(** The order in which [for (const key in obj)] visits the properties
    of an object literal: the array indices first, in ascending order,
    then the other keys in the order they were written. *)
Definition forInOrder {A : Type} (entries : list (string * A))
    : list (string * A) :=
  foldr insertByIndex [] (List.filter (fun e => isArrayIndex (fst e)) entries)
  ++ List.filter (fun e => negb (isArrayIndex (fst e))) entries.

(** The state of the card. *)
Record CardState (num : Type) : Type := {
  hourlyRate : num;
  materialPriceKg : num;
  customDensity : num;
  useCustomDensity : bool;
}.
Arguments hourlyRate {num} _.
Arguments materialPriceKg {num} _.
Arguments customDensity {num} _.
Arguments useCustomDensity {num} _.

Section Density.
Context {num : Type} `{JsNumber num} `{JsUpperCase}.
Local Open Scope js_scope.

(** A decimal literal of the source, [7.85] as [decimal 785 100]: the
    number nearest to the quotient, which is what the division gives. *)
Definition decimal (digits scale : Z) : num := lit digits / lit scale.

(** [DENSITY_MAP], as it is written. *)
Definition DENSITY_MAP : list (string * num) :=
  [("S45C", decimal 785 100);
   ("SUS304", decimal 793 100);
   ("SUS316", decimal 798 100);
   ("AL6061", decimal 270 100);
   ("AL7075", decimal 281 100);
   ("SCM440", decimal 785 100);
   ("SCM415", decimal 785 100);
   ("1215", decimal 787 100);
   ("SKD11", decimal 780 100);
   ("C3604", decimal 850 100);
   ("POM", decimal 141 100);
   ("ABS", decimal 105 100);
   ("FC", decimal 720 100);
   ("FCD", decimal 710 100)].

(** The [detected] density the effect on [material] computes. *)
Definition detectedDensity (material : string) : num :=
  let matUpper := toUpperCase material in
  match List.find (fun e => includes matUpper (fst e)) (forInOrder DENSITY_MAP) with
  | Some (key, density) => density
  | None =>
      if includes matUpper "鋁" || includes matUpper "ALUMINUM"
      then decimal 27 10
      else if includes matUpper "不鏽鋼" || includes matUpper "STAINLESS"
      then decimal 793 100
      else if includes matUpper "銅" || includes matUpper "BRASS"
      then decimal 85 10
      else if includes matUpper "塑膠" || includes matUpper "PLASTIC"
      then decimal 12 10
      else decimal 785 100
  end.

(** The state the card mounts with. *)
Definition initialCard : CardState num :=
  {| hourlyRate := lit 600; materialPriceKg := lit 45;
     customDensity := decimal 785 100; useCustomDensity := false |}.

(** The effect that runs when the card mounts and when [material]
    changes. *)
Definition onMaterial (material : string) (st : CardState num) : CardState num :=
  {| hourlyRate := hourlyRate st; materialPriceKg := materialPriceKg st;
     customDensity := detectedDensity material; useCustomDensity := false |}.

(** The [calculation] memo of the card for a result and a state. *)
Definition cardCalculation (localResult : EstimationResult num)
    (st : CardState num) : Calculation :=
  calculation (stockDiameter localResult) (stockInnerDiameter localResult)
    (stockLength localResult) (totalTimeSeconds localResult)
    (customDensity st) (hourlyRate st) (materialPriceKg st).
End Density.

(** A text of decimal digits only. *)
Fixpoint all_digits (s : string) : bool :=
  match s with
  | String c r => is_digit c && all_digits r
  | EmptyString => true
  end.

(* ================================================================== *)
(** * services/storageService.ts: the size of a compressed image        *)
(* ================================================================== *)

Section ImageSize.
Context {num : Type} `{JsNumber num}.
Local Open Scope js_scope.

(** The [width] and [height] that [img.onload] draws the image with. *)
Definition scaledSize (width height maxWidth : num) : num * num :=
  if gt width maxWidth
  then (maxWidth, (height * maxWidth) / width)
  else (width, height).
End ImageSize.

(* ================================================================== *)
(** * components/EmptyState.tsx: the form and the history list          *)
(* ================================================================== *)

Definition COMMON_MATERIALS : list string :=
  ["自動判斷 (依圖面)";
   "S45C 中碳鋼";
   "SUS304 不鏽鋼";
   "SUS316 不鏽鋼";
   "AL6061和5056鋁合金";
   "AL7075 航太鋁";
   "SCM440 鉻鉬合金鋼";
   "SCM415 綠十字";
   "1215 快削鋼";
   "SKD11 模具鋼";
   "C3604 黃銅 (Brass)";
   "POM/ABS 工程塑膠";
   "FC/FCD 鑄鐵";
   "其他 (自訂)"].

Definition AUTO_MATERIAL : string := "自動判斷 (依圖面)".
Definition CUSTOM_MATERIAL : string := "其他 (自訂)".

Module EmptyState.
(** The state of the component. *)
Record State (num : Type) : Type := {
  dragActive : bool;
  selectedFile : option File;
  history : JsValue num;
  materialSelection : string;
  customMaterial : string;
  od : string;
  id : string;
  length : string;
  sides : Sides;
  strategy : Strategy;
  spindleMode : SpindleMode;
  userRemarks : string;
  apiKey : string;
}.
Arguments dragActive {num} _.
Arguments selectedFile {num} _.
Arguments history {num} _.
Arguments materialSelection {num} _.
Arguments customMaterial {num} _.
Arguments od {num} _.
Arguments id {num} _.
Arguments length {num} _.
Arguments sides {num} _.
Arguments strategy {num} _.
Arguments spindleMode {num} _.
Arguments userRemarks {num} _.
Arguments apiKey {num} _.

Section Handlers.
Context {num : Type} `{Platform num} `{JsString}.
Local Open Scope jsm_scope.

Definition setHistory (st : State num) (h : JsValue num) : State num :=
  {| dragActive := dragActive st; selectedFile := selectedFile st;
     history := h;
     materialSelection := materialSelection st;
     customMaterial := customMaterial st;
     od := od st; id := id st; length := length st;
     sides := sides st; strategy := strategy st;
     spindleMode := spindleMode st;
     userRemarks := userRemarks st; apiKey := apiKey st |}.

(** The effect that runs on mount: [setHistory(getHistory())]. *)
Definition onMount (st : State num) : JS num (State num) :=
  items <- getHistory ;;
  ret (setHistory st items).

(** [handleDeleteHistory(e, id)]. *)
Definition handleDeleteHistory (itemId : string) (st : State num)
    : JS num (State num) :=
  updated <- deleteHistoryItem itemId ;;
  ret (setHistory st updated).

(** The material [handleConfirmAnalysis] passes on. *)
Definition finalMaterial (st : State num) : string :=
  if String.eqb (materialSelection st) CUSTOM_MATERIAL then customMaterial st
  else if String.eqb (materialSelection st) AUTO_MATERIAL then ""
  else materialSelection st.

(** [handleConfirmAnalysis()]: the arguments [onAnalyze] is called with,
    or nothing when no file is selected. *)
Definition handleConfirmAnalysis (st : State num)
    : option (File * AnalysisConfig.t) :=
  match selectedFile st with
  | None => None
  | Some file =>
      Some (file,
            {| AnalysisConfig.material := finalMaterial st;
               AnalysisConfig.od := od st;
               AnalysisConfig.id := id st;
               AnalysisConfig.length := length st;
               AnalysisConfig.sides := sides st;
               AnalysisConfig.strategy := strategy st;
               AnalysisConfig.spindleMode := spindleMode st;
               AnalysisConfig.userRemarks := Some (userRemarks st);
               AnalysisConfig.apiKey := Some (apiKey st) |})
  end.

(** The [disabled] prop of the button that calls
    [handleConfirmAnalysis]. *)
Definition confirmDisabled (st : State num) : bool :=
  (String.eqb (materialSelection st) CUSTOM_MATERIAL
   && String.eqb (trim (customMaterial st)) "")
  || String.eqb (od st) "" || String.eqb (length st) "".

(** A click on that button: a disabled button runs no handler. *)
Definition clickConfirm (st : State num) : option (File * AnalysisConfig.t) :=
  if confirmDisabled st then None else handleConfirmAnalysis st.
End Handlers.
End EmptyState.

(* ================================================================== *)
(** * App.tsx: what the page shows                                      *)
(* ================================================================== *)

Definition unknown_error_message : string := "發生未知錯誤，請稍後再試。".

(** What [App] renders below the navigation bar. *)
Record Screen (num : Type) : Type := {
  errorBanner : option string;          (* the text of the red banner *)
  emptyState : option bool;             (* EmptyState, with isAnalyzing *)
  resultsView : option (EstimationResult num * option string);
                                        (* ResultsView: result, imageUrl *)
}.
Arguments errorBanner {num} _.
Arguments emptyState {num} _.
Arguments resultsView {num} _.

(** The events that reach the handlers of [App]. *)
Inductive AppEvent (num : Type) : Type :=
| Analyze (file : File) (config : AnalysisConfig.t)
| LoadHistory (item : HistoryItem.t num)
| ResetApp.
Arguments Analyze {num} _ _.
Arguments LoadHistory {num} _.
Arguments ResetApp {num}.

Section AppScreen.
Context {num : Type} `{Platform num} `{JsString}.

Definition isState (a b : AppState) : bool :=
  match a, b with
  | IDLE, IDLE | ANALYZING, ANALYZING | SUCCESS, SUCCESS | ERROR, ERROR => true
  | _, _ => false
  end.

(** The three conditional blocks of the [return] of [App]. *)
Definition render (a : AppModel num) : Screen num :=
  {| errorBanner :=
       if isState (appState a) ERROR
       then Some (if strTruthy (errorMsg a) then templateText (errorMsg a)
                  else unknown_error_message)
       else None;
     emptyState :=
       if isState (appState a) IDLE || isState (appState a) ANALYZING
          || isState (appState a) ERROR
       then Some (isState (appState a) ANALYZING)
       else None;
     resultsView :=
       if isState (appState a) SUCCESS
       then match result a with
            | Some r =>
                Some (r, if strTruthy (previewImage a) then previewImage a
                         else None)
            | None => None
            end
       else None |}.

(** [`data:${mimeType};base64,${base64}`], the [fullDataUrl] of
    [handleAnalyze]. *)
Definition fullDataUrl (part : GenerativePart) : string :=
  "data:" +:+ mimeType part +:+ ";base64," +:+ templateText (base64 part).

(** The log after a call of [analyzeBlueprint]: one call more, and the
    request when there is a key to send it with. *)
Definition logged (w : World num) (base64Image : option string)
    (mimeType : string) (config : AnalysisConfig.t) : World num :=
  setRequests (setAnalyzeCalls w (S (analyzeCalls w)))
    (if String.eqb (effectiveApiKey config) "" then requests w
     else requestOf base64Image mimeType config :: requests w).

(** The state [App] mounts with. *)
Definition initialApp : AppModel num :=
  {| appState := IDLE; result := None; errorMsg := None;
     previewImage := None |}.

(** The handler an event runs, to its end. *)
Definition handleEvent (e : AppEvent num) : JS num unit :=
  match e with
  | Analyze file config => handleAnalyze file config
  | LoadHistory item => handleLoadHistory item
  | ResetApp => resetApp
  end.

Definition afterEvent (w : World num) (e : AppEvent num) : World num :=
  fst (handleEvent e w).

Definition afterEvents (w : World num) (events : list (AppEvent num))
    : World num :=
  fold_left afterEvent events w.

(** What holds of the state of [App] between two events. *)
Definition app_coherent (a : AppModel num) : Prop :=
  appState a <> ANALYZING
  /\ (appState a = SUCCESS -> exists r, result a = Some r)
  /\ (appState a = ERROR ->
      exists m, errorMsg a = Some m
                /\ m ∈ [invalid_key_message; overloaded_message;
                        pdf_failure_message; default_error_message]).
End AppScreen.

(* ================================================================== *)
(** * More sample data                                                  *)
(* ================================================================== *)

Module SampleSession.
Import AsciiStrings AsciiUpperCase.
Import Sample.
Local Open Scope Q_scope.

(** A run of edits of the text boxes, and one that also edits numbers. *)
Definition textEdits : list Edit :=
  [PartNameEdit "Axle"; OpTextEdit 1 nameField "OP20 drilling";
   NotesEdit "Check the runout"; OpTextEdit 0 descriptionField "Rough turn"]%nat.

Definition mixedEdits : list Edit :=
  [NotesEdit "Faster roughing"; ParamEdit 0 rpmField "2000";
   OpTextEdit 0 descriptionField "Rough turn at 2000 rpm";
   ParamEdit 3 feedRateField "0.3"]%nat.

Definition afterEdits (edits : list Edit) : EstimationResult Q :=
  match applyEdits estimate estimate edits with
  | Edited r => r
  | _ => estimate
  end.

Definition afterTextEdits : EstimationResult Q :=
  Eval vm_compute in afterEdits textEdits.
Definition afterMixedEdits : EstimationResult Q :=
  Eval vm_compute in afterEdits mixedEdits.

(** Edits of the first two operations, in both orders. *)
Definition afterBoth : EstimationResult Q :=
  Eval vm_compute in
    afterRun [(0, rpmField, "2000"); (1, feedRateField, "0.25")]%nat.

(** A tube, and a tube whose inner diameter exceeds the outer one. *)
Definition tube : EstimationResult Q :=
  {| partName := "Bushing"; material := "C3604 brass";
     stockDiameter := "50 mm"; stockInnerDiameter := Some "ID 20 mm";
     stockLength := "100 mm"; operations := [roughing; drilling];
     totalTimeSeconds := 211 # 2; difficultyRating := Low;
     notes := ""; sideMode := Some "1-right" |}.

(** A form filled in with a custom material. *)
Definition form : EmptyState.State Q :=
  {| EmptyState.dragActive := false;
     EmptyState.selectedFile := Some drawingPng;
     EmptyState.history := VArray [];
     EmptyState.materialSelection := CUSTOM_MATERIAL;
     EmptyState.customMaterial := "Ti-6Al-4V";
     EmptyState.od := "50"; EmptyState.id := ""; EmptyState.length := "120";
     EmptyState.sides := side_2; EmptyState.strategy := standard;
     EmptyState.spindleMode := G96;
     EmptyState.userRemarks := ""; EmptyState.apiKey := "" |}.

Definition formConfig : AnalysisConfig.t :=
  {| AnalysisConfig.material := "Ti-6Al-4V"; AnalysisConfig.od := "50";
     AnalysisConfig.id := ""; AnalysisConfig.length := "120";
     AnalysisConfig.sides := side_2; AnalysisConfig.strategy := standard;
     AnalysisConfig.spindleMode := G96;
     AnalysisConfig.userRemarks := Some "";
     AnalysisConfig.apiKey := Some "" |}.

(** What [fileToGenerativePart] makes of [drawing.png]. *)
Definition drawingPart : GenerativePart :=
  {| base64 := Some "iVBORw0KGgo="; mimeType := "image/png" |}.

(** The estimate the sample service returns for side mode "2". *)
Definition analysed : EstimationResult Q :=
  Eval vm_compute in withSideMode estimate "2".

(** A session of the App: an analysis, a reset, and a load from the
    history. *)
Definition session : list (AppEvent Q) :=
  [Analyze drawingPng config; ResetApp; LoadHistory (historyItem 3);
   Analyze corruptPdf config].
End SampleSession.

(* ================================================================== *)
(** * Facts: ResultsView                                                *)
(* ================================================================== *)

Section ResultsViewFacts.
Context {num : Type} `{JsNumber num}.
Local Open Scope js_scope.

Lemma setParam_time (op : MachiningOperation num) field v :
  estimatedTimeSeconds (setParam op field v) = estimatedTimeSeconds op.
Proof. by destruct field. Qed.

Lemma retime_params workFactor (op : MachiningOperation num) :
  rpm (retime workFactor op) = rpm op
  /\ feedRate (retime workFactor op) = feedRate op.
Proof. unfold retime. by case_match. Qed.

Lemma recalculate_params (originalOp op : MachiningOperation num) :
  rpm (recalculate originalOp op) = rpm op
  /\ feedRate (recalculate originalOp op) = feedRate op.
Proof.
  unfold recalculate. repeat case_match; try done; apply retime_params.
Qed.

(** What an edit that goes through does: it replaces operation [index]
    and nothing else, and recomputes the total. *)
Lemma handleParamChange_Edited result localResult index field value localResult' :
  handleParamChange result localResult index field value = Edited localResult' ->
  exists originalOp op,
    operations result !! index = Some originalOp
    /\ operations localResult !! index = Some op
    /\ let op' := recalculate originalOp (setParam op field (enteredValue value)) in
       localResult' =
         withOperations localResult (<[index := op']> (operations localResult))
           (roundTenth (sumTimes (<[index := op']> (operations localResult)))).
Proof.
  unfold handleParamChange. intros Hrun.
  destruct (operations result !! index) as [originalOp|] eqn:Ho; [|done].
  destruct (operations localResult !! index) as [op|] eqn:Hl; [|done].
  exists originalOp, op. by inversion Hrun.
Qed.

(** An edit in range of both lists goes through. *)
Lemma handleParamChange_in_range result localResult index field value :
  index < length (operations result) ->
  index < length (operations localResult) ->
  exists localResult',
    handleParamChange result localResult index field value = Edited localResult'.
Proof.
  intros Hr Hl. unfold handleParamChange.
  destruct (lookup_lt_is_Some_2 _ _ Hr) as [originalOp ->].
  destruct (lookup_lt_is_Some_2 _ _ Hl) as [op ->].
  eauto.
Qed.

(** Every edit keeps the number of operations. *)
Lemma handleParamChange_same_shape result localResult index field value localResult' :
  handleParamChange result localResult index field value = Edited localResult' ->
  same_shape result localResult -> same_shape result localResult'.
Proof.
  intros (originalOp & op & _ & _ & ->)%handleParamChange_Edited.
  unfold same_shape. simpl. by rewrite length_insert.
Qed.

(** The operation an edit leaves at [index]. *)
Lemma handleParamChange_lookup result localResult index field value localResult' :
  handleParamChange result localResult index field value = Edited localResult' ->
  exists originalOp op,
    operations result !! index = Some originalOp
    /\ operations localResult !! index = Some op
    /\ operations localResult' !! index =
         Some (recalculate originalOp (setParam op field (enteredValue value))).
Proof.
  intros (originalOp & op & Ho & Hl & ->)%handleParamChange_Edited.
  exists originalOp, op. repeat split; [done..|]. simpl.
  apply list_lookup_insert_eq. by eapply lookup_lt_Some.
Qed.

(** An edit leaves the other operations alone. *)
Lemma handleParamChange_other result localResult index field value localResult' j :
  handleParamChange result localResult index field value = Edited localResult' ->
  j <> index ->
  operations localResult' !! j = operations localResult !! j.
Proof.
  intros (originalOp & op & _ & _ & ->)%handleParamChange_Edited Hne.
  simpl. by apply list_lookup_insert_ne.
Qed.

(** The reduction of the code adds the counted times in list order. *)
Lemma fold_sumTimes_sumFrom (ops : list (MachiningOperation num)) (acc : num) :
  fold_left (fun acc op => acc + orZero (estimatedTimeSeconds op)) ops acc
  = sumFrom acc (countedTime <$> ops).
Proof.
  revert acc. induction ops as [|op ops IH]; intros acc; [done|].
  cbn [fold_left fmap list_fmap sumFrom]. apply IH.
Qed.

Lemma sumTimes_sumInOrder (ops : list (MachiningOperation num)) :
  sumTimes ops = sumInOrder (countedTime <$> ops).
Proof. apply fold_sumTimes_sumFrom. Qed.

Lemma roundTenth_claimedTotal (ops : list (MachiningOperation num)) :
  roundTenth (sumTimes ops) = claimedTotal ops.
Proof. unfold roundTenth, claimedTotal. by rewrite sumTimes_sumInOrder. Qed.

Lemma recalculate_positive (originalOp op : MachiningOperation num) rpm0 feed0 :
  rpm originalOp = Some rpm0 -> feedRate originalOp = Some feed0 ->
  has_work_factor originalOp = true ->
  params_positive op = true ->
  estimatedTimeSeconds (recalculate originalOp op) =
    recomputedTime (estimatedTimeSeconds originalOp) rpm0 feed0
      (optOrZero (rpm op)) (optOrZero (feedRate op)).
Proof.
  unfold has_work_factor, params_positive, recalculate, retime.
  intros -> -> Hwf Hpos. simpl in Hwf. by rewrite Hwf, Hpos.
Qed.

Lemma recalculate_unchanged (originalOp op : MachiningOperation num) :
  has_work_factor originalOp = false \/ params_positive op = false ->
  recalculate originalOp op = op.
Proof.
  unfold has_work_factor, params_positive, recalculate, retime.
  intros Hcase.
  destruct (rpm originalOp) as [rpm0|], (feedRate originalOp) as [feed0|];
    simpl in *; try done.
  destruct Hcase as [-> | ->]; [done|]. by case_match.
Qed.
End ResultsViewFacts.

Section ResultsViewClaims.
Context {num : Type} `{JsNumber num}.
Local Open Scope js_scope.


(** C4.  Whatever the index, the field and the value, a call of
    [handleParamChange] that sets the state leaves
    [totalTimeSeconds = round(S * 10) / 10], where [S] is the sum of the
    times of the new operations, added from 0 in list order, a time that
    is zero or NaN counting as 0 ([sumInOrder] and [countedTime] say so
    without the code).  The new operations are the old ones but for the
    one at [index].  A call whose index is outside [result.operations]
    throws and sets no state; a call whose index is inside
    [result.operations] but outside [localResult.operations], which the
    component never makes, leaves the typed model.  This holds for every
    number instance. *)
Theorem handleParamChange_total_consistent
    (result localResult : EstimationResult num)
    (index : nat) (field : ParamField) (value : string) :
  match handleParamChange result localResult index field value with
  | Edited localResult' =>
      totalTimeSeconds localResult' =
        Math_round (sumInOrder (countedTime <$> operations localResult')
                    * lit 10) / lit 10
      /\ length (operations localResult') = length (operations localResult)
      /\ (forall j, j <> index ->
            operations localResult' !! j = operations localResult !! j)
  | EditTypeError => length (operations result) <= index
  | EditUntyped => length (operations localResult) <= index
  end.
Proof.
  destruct (handleParamChange result localResult index field value)
    as [localResult'| |] eqn:Hrun.
  - split; [|split].
    + apply handleParamChange_Edited in Hrun as (? & ? & _ & _ & ->).
      cbn [totalTimeSeconds operations withOperations].
      apply roundTenth_claimedTotal.
    + apply handleParamChange_Edited in Hrun as (? & ? & _ & _ & ->).
      cbn [operations withOperations]. apply length_insert.
    + intros j Hj. by eapply handleParamChange_other.
  - unfold handleParamChange in Hrun.
    destruct (operations result !! index) eqn:Ho.
    + by destruct (operations localResult !! index).
    + by apply lookup_ge_None.
  - unfold handleParamChange in Hrun.
    destruct (operations result !! index) eqn:Ho; [|done].
    destruct (operations localResult !! index) eqn:Hl; [done|].
    by apply lookup_ge_None.
Qed.

(** ** Runs of edits *)

Lemma handleParamChange_settles result localResult i field value localResult' originalOp :
  operations result !! i = Some originalOp ->
  has_work_factor originalOp = true ->
  handleParamChange result localResult i field value = Edited localResult' ->
  settled_at originalOp i localResult'.
Proof.
  intros Ho Hwf Hrun op' origRpm origFeed Hop' Hr Hf Hpos.
  destruct (handleParamChange_lookup _ _ _ _ _ _ Hrun)
    as (originalOp' & op & Ho' & _ & Hl').
  assert (originalOp' = originalOp) as -> by congruence.
  rewrite Hl' in Hop'. inversion Hop'; subst op'; clear Hop'.
  destruct (recalculate_params originalOp
              (setParam op field (enteredValue value))) as [Hrpm Hfeed].
  rewrite Hrpm, Hfeed. apply recalculate_positive; [done..|].
  revert Hpos. unfold params_positive. by rewrite Hrpm, Hfeed.
Qed.

Lemma handleParamChanges_settled result originalOp i edits :
  operations result !! i = Some originalOp ->
  has_work_factor originalOp = true ->
  forall localResult localResult',
    handleParamChanges result localResult edits = Edited localResult' ->
    settled_at originalOp i localResult \/ touches i edits ->
    settled_at originalOp i localResult'.
Proof.
  intros Ho Hwf. induction edits as [|[[j field] value] rest IH];
    intros localResult localResult' Hrun Hcase; simpl in Hrun.
  - inversion Hrun; subst. destruct Hcase as [Hs | (f & v & Hin)]; [done|].
    by apply elem_of_nil in Hin.
  - destruct (handleParamChange result localResult j field value)
      as [mid| |] eqn:Hstep; [|done..].
    apply (IH mid localResult' Hrun).
    destruct (decide (j = i)) as [-> | Hne].
    + left. by eapply handleParamChange_settles.
    + destruct Hcase as [Hs | (f & v & Hin)].
      * left. intros op origRpm origFeed Hop.
        rewrite (handleParamChange_other _ _ _ _ _ _ i Hstep) in Hop by done.
        by apply Hs.
      * right. exists f, v.
        apply elem_of_cons in Hin as [Heq | Hin]; [congruence | done].
Qed.

(** No drift, for every number instance: two runs of edits with an edit
    at index [i] that end with the same rpm and feed at operation [i], both
    effective parameters positive, end with the same time there. *)
Lemma handleParamChanges_final_pair result i originalOp
    localA localB editsA editsB localA' localB' opA opB :
  operations result !! i = Some originalOp ->
  has_work_factor originalOp = true ->
  handleParamChanges result localA editsA = Edited localA' ->
  handleParamChanges result localB editsB = Edited localB' ->
  touches i editsA -> touches i editsB ->
  operations localA' !! i = Some opA ->
  operations localB' !! i = Some opB ->
  rpm opA = rpm opB -> feedRate opA = feedRate opB ->
  params_positive opA = true ->
  estimatedTimeSeconds opA = estimatedTimeSeconds opB.
Proof.
  intros Ho Hwf HrunA HrunB HtA HtB HopA HopB Hr Hf Hpos.
  assert (HposB : params_positive opB = true).
  { revert Hpos. unfold params_positive. by rewrite Hr, Hf. }
  unfold has_work_factor in Hwf.
  destruct (rpm originalOp) as [origRpm|] eqn:Hr0;
    [|by rewrite andb_false_r in Hwf].
  destruct (feedRate originalOp) as [origFeed|] eqn:Hf0;
    [|by rewrite andb_false_r in Hwf].
  assert (Hwf' : has_work_factor originalOp = true).
  { unfold has_work_factor. by rewrite Hr0, Hf0. }
  rewrite (handleParamChanges_settled result originalOp i editsA Ho Hwf'
             localA localA' HrunA (or_intror HtA) opA origRpm origFeed) by done.
  rewrite (handleParamChanges_settled result originalOp i editsB Ho Hwf'
             localB localB' HrunB (or_intror HtB) opB origRpm origFeed) by done.
  by rewrite Hr, Hf.
Qed.

(** A run of edits with none at index [i] leaves operation [i] as it
    was. *)
Lemma handleParamChanges_untouched result i edits :
  ~ touches i edits ->
  forall localResult localResult',
    handleParamChanges result localResult edits = Edited localResult' ->
    operations localResult' !! i = operations localResult !! i.
Proof.
  induction edits as [|[[j field] value] rest IH];
    intros Hno localResult localResult' Hrun; simpl in Hrun.
  - by inversion Hrun.
  - destruct (handleParamChange result localResult j field value)
      as [mid| |] eqn:Hstep; [|done..].
    rewrite (IH (fun '(ex_intro _ f (ex_intro _ v Hin)) =>
                   Hno (ex_intro _ f (ex_intro _ v (list_elem_of_further _ _ _ Hin))))
               mid localResult' Hrun).
    apply (handleParamChange_other _ _ _ _ _ _ i Hstep).
    intros ->. apply Hno. exists field, value. apply list_elem_of_here.
Qed.

(** C5.  Let operation [i] of the original result have a truthy
    (non-zero) time [T], rpm [r0] and feed [f0].  (1) After a run of
    edits with at least one edit at index [i], if both effective
    parameters of operation [i] are strictly positive, its time is
    [round(T * r0 * f0 / (rpm * feed) * 10) / 10], computed from the
    original operation and the final rpm and feed alone.  (2) So two such
    runs, from any two local states, that end with the same rpm and the
    same feed at operation [i] end with the same time there, whatever
    the number and the order of the edits before.  (3) A run with no edit
    at index [i], the empty run for one, leaves operation [i] as it was,
    its time not rounded.  This holds for every number instance. *)
Theorem edits_path_independent (result : EstimationResult num) (i : nat)
    (originalOp : MachiningOperation num) (origRpm origFeed : num) :
  operations result !! i = Some originalOp ->
  rpm originalOp = Some origRpm -> feedRate originalOp = Some origFeed ->
  has_work_factor originalOp = true ->
  (forall localResult edits localResult' op,
      handleParamChanges result localResult edits = Edited localResult' ->
      touches i edits ->
      operations localResult' !! i = Some op ->
      params_positive op = true ->
      estimatedTimeSeconds op =
        recomputedTime (estimatedTimeSeconds originalOp) origRpm origFeed
          (optOrZero (rpm op)) (optOrZero (feedRate op)))
  /\ (forall localA localB editsA editsB localA' localB' opA opB,
        handleParamChanges result localA editsA = Edited localA' ->
        handleParamChanges result localB editsB = Edited localB' ->
        touches i editsA -> touches i editsB ->
        operations localA' !! i = Some opA ->
        operations localB' !! i = Some opB ->
        rpm opA = rpm opB -> feedRate opA = feedRate opB ->
        params_positive opA = true ->
        estimatedTimeSeconds opA = estimatedTimeSeconds opB)
  /\ (forall localResult edits localResult',
        handleParamChanges result localResult edits = Edited localResult' ->
        ~ touches i edits ->
        operations localResult' !! i = operations localResult !! i).
Proof.
  intros Ho Hr0 Hf0 Hwf. split; [|split].
  - intros localResult edits localResult' op Hrun Htouch Hop Hpos.
    by apply (handleParamChanges_settled result originalOp i edits Ho Hwf
                localResult localResult' Hrun (or_intror Htouch)).
  - intros localA localB editsA editsB localA' localB' opA opB
      HrunA HrunB HtA HtB HopA HopB Hr Hf Hpos.
    by eapply (handleParamChanges_final_pair result i originalOp
                 localA localB editsA editsB localA' localB').
  - intros localResult edits localResult' Hrun Hno.
    by eapply handleParamChanges_untouched.
Qed.

(** A run of edits whose indices all lie within the operations goes
    through, when both lists have one length. *)
Lemma handleParamChanges_in_range result edits :
  Forall (fun e => e.1.1 < length (operations result)) edits ->
  forall localResult,
    same_shape result localResult ->
    exists localResult', handleParamChanges result localResult edits = Edited localResult'.
Proof.
  induction 1 as [|[[j field] value] rest Hj _ IH]; intros localResult Hshape.
  - by exists localResult.
  - simpl in *.
    destruct (handleParamChange_in_range result localResult j field value)
      as [mid Hmid]; [done | by rewrite Hshape|].
    rewrite Hmid. apply IH. by eapply handleParamChange_same_shape.
Qed.
End ResultsViewClaims.

(* ================================================================== *)
(** * Facts: exact arithmetic                                           *)
(* ================================================================== *)

Section ExactArithmetic.
Local Open Scope Q_scope.

Lemma Q_gt_spec (x y : Q) : gt x y = true <-> y < x.
Proof.
  simpl. rewrite negb_true_iff, <- not_true_iff_false, Qle_bool_iff.
  split; [apply Qnot_le_lt | apply Qlt_not_le].
Qed.

Lemma Q_toBoolean_spec (x : Q) : toBoolean x = true <-> ~ x == 0.
Proof.
  simpl. by rewrite negb_true_iff, <- not_true_iff_false, Qeq_bool_iff.
Qed.

(** Zero and the negative numbers are not positive. *)
Lemma Q_not_positive (x : Q) : gt x (lit 0) = false <-> x <= 0.
Proof.
  simpl. rewrite negb_false_iff, Qle_bool_iff. reflexivity.
Qed.

Lemma Q_positive_truthy (x : Q) : 0 < x -> toBoolean x = true.
Proof. intros Hx. apply Q_toBoolean_spec. lra. Qed.

(** A strictly positive parameter is its own effective value. *)
Lemma Q_optOrZero_positive (x : Q) : 0 < x -> optOrZero (Some x) = x.
Proof.
  intros Hx. unfold optOrZero, orZero. by rewrite Q_positive_truthy.
Qed.

Lemma Qround_half_up_proper (x y : Q) :
  x == y -> Qround_half_up x = Qround_half_up y.
Proof.
  intros Hxy. unfold Qround_half_up. f_equal. apply Qfloor_comp.
  by rewrite Hxy.
Qed.

Lemma roundTenth_Q (x : Q) : roundTenth x = Qround_half_up (x * 10) / 10.
Proof. reflexivity. Qed.

Lemma roundTenth_proper (x y : Q) : x == y -> roundTenth x = roundTenth y.
Proof.
  intros Hxy. rewrite !roundTenth_Q. f_equal.
  apply Qround_half_up_proper. by rewrite Hxy.
Qed.

(** [Math.round] is within one half of its argument. *)
Lemma Qround_half_up_close (x : Q) :
  x - (1 # 2) < Qround_half_up x <= x + (1 # 2).
Proof.
  unfold Qround_half_up.
  pose proof (Qfloor_le (x + (1 # 2))).
  pose proof (Qlt_floor (x + (1 # 2))) as Hlt.
  rewrite inject_Z_plus in Hlt. change (inject_Z 1) with 1 in Hlt.
  split; lra.
Qed.

(** Rounding to a tenth moves a number by at most a twentieth. *)
Lemma roundTenth_close (x : Q) : Qabs (roundTenth x - x) <= 1 # 20.
Proof.
  rewrite roundTenth_Q.
  pose proof (Qround_half_up_close (x * 10)) as [Hlo Hhi].
  apply Qabs_Qle_condition.
  generalize dependent (Qround_half_up (x * 10)). intros r Hlo Hhi.
  unfold Qdiv. change (/ 10) with (1 # 10). split; lra.
Qed.
End ExactArithmetic.


(* ================================================================== *)
(** * Facts: splitTimes                                                 *)
(* ================================================================== *)

Section SplitFacts.
Context {num : Type} `{JsNumber num} `{JsString}.
Local Open Scope js_scope.

Lemma nextSide2_trigger side2 (op : MachiningOperation num) :
  nextSide2 side2 op = side2 || isTrigger op.
Proof.
  unfold nextSide2, isTrigger, hasSide2Keyword, hasFlipKeyword.
  by destruct side2, (includesAny (toLowerCase (name op)) side2Keywords),
    (includesAny (toLowerCase (name op)) flipKeywords).
Qed.

Lemma bucketOf_rule side2 (op : MachiningOperation num) :
  bucketOf side2 op =
    if hasFlipKeyword op then L1
    else if side2 || hasSide2Keyword op then L2 else L1.
Proof.
  unfold bucketOf, hasSide2Keyword, hasFlipKeyword.
  by destruct side2, (includesAny (toLowerCase (name op)) side2Keywords),
    (includesAny (toLowerCase (name op)) flipKeywords).
Qed.

(** One turn of the loop adds the time to the bucket of the operation
    and moves [isSide2] on. *)
Lemma splitStep_bucket (st : SplitState) (op : MachiningOperation num) :
  splitStep st op =
    match bucketOf (isSide2 st) op with
    | L1 => {| l1 := l1 st + estimatedTimeSeconds op; l2 := l2 st;
               isSide2 := nextSide2 (isSide2 st) op |}
    | L2 => {| l1 := l1 st; l2 := l2 st + estimatedTimeSeconds op;
               isSide2 := nextSide2 (isSide2 st) op |}
    end.
Proof.
  unfold splitStep, bucketOf, nextSide2.
  by destruct (isSide2 st), (includesAny (toLowerCase (name op)) side2Keywords),
    (includesAny (toLowerCase (name op)) flipKeywords).
Qed.

Lemma bucketsFrom_length side2 (ops : list (MachiningOperation num)) :
  length (bucketsFrom side2 ops) = length ops.
Proof.
  revert side2. induction ops as [|op ops IH]; intros side2; simpl; [done|].
  by rewrite IH.
Qed.

Lemma bucketsFrom_lookup (ops : list (MachiningOperation num)) side2 k op :
  ops !! k = Some op ->
  bucketsFrom side2 ops !! k =
    Some (if hasFlipKeyword op then L1
          else if side2 || existsb isTrigger (take k ops) || hasSide2Keyword op
               then L2 else L1).
Proof.
  revert side2 k. induction ops as [|op0 ops IH]; intros side2 k Hk; [done|].
  destruct k as [|k]; simpl in *.
  - inversion Hk; subst. rewrite bucketOf_rule. by rewrite orb_false_r.
  - rewrite (IH _ _ Hk), nextSide2_trigger. by rewrite orb_assoc.
Qed.

Lemma buckets_rule (ops : list (MachiningOperation num)) k op :
  ops !! k = Some op -> buckets ops !! k = Some (ruleBucket ops k op).
Proof. intros Hk. unfold buckets. by rewrite (bucketsFrom_lookup _ _ _ _ Hk). Qed.
End SplitFacts.

Section SplitSums.
Context {num : Type} `{JsNumber num} `{JsString}.
Local Open Scope js_scope.

Lemma opsOfBucketFrom_cons b side2 (op : MachiningOperation num) ops :
  opsOfBucketFrom b side2 (op :: ops) =
    if bucket_eqb (bucketOf side2 op) b
    then op :: opsOfBucketFrom b (nextSide2 side2 op) ops
    else opsOfBucketFrom b (nextSide2 side2 op) ops.
Proof.
  unfold opsOfBucketFrom. simpl. by destruct (bucket_eqb (bucketOf side2 op) b).
Qed.

(** Each accumulator of the loop is the sum, in list order, of the times
    of the operations of its bucket. *)
Lemma fold_splitStep_sumFrom (ops : list (MachiningOperation num)) (st : SplitState) :
  l1 (fold_left splitStep ops st)
    = sumFrom (l1 st) (estimatedTimeSeconds <$> opsOfBucketFrom L1 (isSide2 st) ops)
  /\ l2 (fold_left splitStep ops st)
    = sumFrom (l2 st) (estimatedTimeSeconds <$> opsOfBucketFrom L2 (isSide2 st) ops).
Proof.
  revert st. induction ops as [|op ops IH]; intros st; [done|].
  change (fold_left splitStep (op :: ops) st)
    with (fold_left splitStep ops (splitStep st op)).
  destruct (IH (splitStep st op)) as [IH1 IH2].
  rewrite IH1, IH2, !opsOfBucketFrom_cons, splitStep_bucket.
  by destruct (bucketOf (isSide2 st) op).
Qed.

(** The two buckets share out the operations. *)
Lemma opsOfBucketFrom_Permutation (ops : list (MachiningOperation num)) side2 :
  opsOfBucketFrom L1 side2 ops ++ opsOfBucketFrom L2 side2 ops ≡ₚ ops.
Proof.
  revert side2. induction ops as [|op ops IH]; intros side2; [done|].
  rewrite !opsOfBucketFrom_cons.
  destruct (bucketOf side2 op); simpl bucket_eqb; cbv iota.
  - rewrite <- app_comm_cons. f_equiv. apply IH.
  - rewrite <- Permutation_middle. f_equiv. apply IH.
Qed.

(** C3, as the code has it.  For every list of operations and every
    number instance: every operation gets one bucket, so that the two
    buckets share out the operations; the bucket of operation [k] follows
    [ruleBucket] (a flip operation is added to L1 wherever it stands, any
    other operation goes to L2 when an earlier operation is a trigger or
    it has a side-2 keyword itself, and to L1 otherwise); before rounding,
    each of L1 and L2 is the sum of the times of its operations, added
    from 0 in list order; the values returned are the two buckets, each
    rounded with [Math.round]. *)
Theorem splitTimes_buckets (ops : list (MachiningOperation num)) :
  length (buckets ops) = length ops
  /\ (forall k op, ops !! k = Some op ->
        buckets ops !! k = Some (ruleBucket ops k op))
  /\ opsOfBucket L1 ops ++ opsOfBucket L2 ops ≡ₚ ops
  /\ l1 (splitBuckets ops) = sumInOrder (estimatedTimeSeconds <$> opsOfBucket L1 ops)
  /\ l2 (splitBuckets ops) = sumInOrder (estimatedTimeSeconds <$> opsOfBucket L2 ops)
  /\ splitTimes ops
     = (Math_round (sumInOrder (estimatedTimeSeconds <$> opsOfBucket L1 ops)),
        Math_round (sumInOrder (estimatedTimeSeconds <$> opsOfBucket L2 ops))).
Proof.
  destruct (fold_splitStep_sumFrom ops splitInit) as [H1 H2].
  change (fold_left splitStep ops splitInit) with (splitBuckets ops) in *.
  split; [apply bucketsFrom_length|].
  split; [apply buckets_rule|].
  split; [apply opsOfBucketFrom_Permutation|].
  split; [exact H1|]. split; [exact H2|].
  unfold splitTimes. by rewrite H1, H2.
Qed.
End SplitSums.

Section SplitConservation.
Context `{JsString}.
Local Open Scope Q_scope.

Lemma timeSum_cons (op : MachiningOperation Q) ops :
  timeSum (op :: ops) = estimatedTimeSeconds op + timeSum ops.
Proof. reflexivity. Qed.

Lemma fold_splitStep (ops : list (MachiningOperation Q)) (st : SplitState) :
  l1 (fold_left splitStep ops st)
    == l1 st + timeSum (opsOfBucketFrom L1 (isSide2 st) ops)
  /\ l2 (fold_left splitStep ops st)
    == l2 st + timeSum (opsOfBucketFrom L2 (isSide2 st) ops).
Proof.
  revert st. induction ops as [|op ops IH]; intros st.
  - simpl. change (timeSum []) with 0. split; ring.
  - change (fold_left splitStep (op :: ops) st)
      with (fold_left splitStep ops (splitStep st op)).
    destruct (IH (splitStep st op)) as [IH1 IH2].
    rewrite IH1, IH2, !opsOfBucketFrom_cons, splitStep_bucket.
    destruct (bucketOf (isSide2 st) op); simpl bucket_eqb; cbv iota;
      rewrite ?timeSum_cons; simpl l1; simpl l2; simpl isSide2;
      change add with Qplus; split; ring.
Qed.

Lemma opsOfBucketFrom_partition (ops : list (MachiningOperation Q)) side2 :
  timeSum (opsOfBucketFrom L1 side2 ops) + timeSum (opsOfBucketFrom L2 side2 ops)
  == timeSum ops.
Proof.
  revert side2. induction ops as [|op ops IH]; intros side2.
  - reflexivity.
  - rewrite !opsOfBucketFrom_cons, timeSum_cons, <- (IH (nextSide2 side2 op)).
    destruct (bucketOf side2 op); simpl bucket_eqb; cbv iota;
      rewrite ?timeSum_cons; ring.
Qed.

End SplitConservation.

(* ================================================================== *)
(** * Runs on sample data                                               *)
(* ================================================================== *)

Section SampleRuns.
Import AsciiStrings.
Import Sample.
#[local] Existing Instance Binary64.float_JsNumber.
Local Open Scope Q_scope.

(** Typing 2000 for the rpm of the first operation halves its time. *)
Example edit_rpm_2000 :
  handleParamChange estimate estimate 0 rpmField "2000" = Edited afterRpm2000
  /\ estimatedTimeSeconds <$> operations afterRpm2000 !! 0%nat = Some (300 # 10)
  /\ totalTimeSeconds afterRpm2000 = 1255 # 10.
Proof. by vm_compute. Qed.

(** Clearing the box, typing 0, a negative number or a text that is not a
    number leaves the time as it was. *)
Example edit_not_positive :
  Forall (fun value =>
            exists r, handleParamChange estimate estimate 0 rpmField value = Edited r
                      /\ estimatedTimeSeconds <$> operations r !! 0%nat = Some 60)
         [""; "0"; "-5"; "abc"]%string.
Proof. repeat constructor; eexists; by vm_compute. Qed.

(** An operation without rpm and feed in the original keeps its time. *)
Example edit_without_work_factor :
  exists r, handleParamChange estimate estimate 2 rpmField "500" = Edited r
            /\ operations r !! 2%nat =
               Some {| name := "Flip part"; description := "Turn the part around";
                       estimatedTimeSeconds := 30; toolType := "Chuck";
                       rpm := Some 500; feedRate := None |}.
Proof. eexists. by vm_compute. Qed.

(** An index beyond the operations throws. *)
Example edit_out_of_range :
  handleParamChange estimate estimate 4 rpmField "500" = EditTypeError.
Proof. reflexivity. Qed.


(** C4 on the sample estimate, for an edit that goes through and for one
    whose index is out of range: the total shown after the edit, 125.5 s,
    is the sum 30 + 45.5 + 30 + 20 of the four times. *)
Lemma handleParamChange_total_consistent_witness :
  (totalTimeSeconds afterRpm2000 =
     Math_round (sumInOrder (countedTime <$> operations afterRpm2000) * lit 10)
     / lit 10
   /\ length (operations afterRpm2000) = length (operations estimate)
   /\ (forall j, j <> 0%nat ->
         operations afterRpm2000 !! j = operations estimate !! j))
  /\ (length (operations estimate) <= 4)%nat
  /\ sumInOrder (countedTime <$> operations afterRpm2000) == 1255 # 10.
Proof.
  split; [|split].
  - exact (handleParamChange_total_consistent estimate estimate 0 rpmField "2000").
  - exact (handleParamChange_total_consistent estimate estimate 4 rpmField "2000").
  - by vm_compute.
Defined.

(** Where the two sample runs end. *)
Example runs_end :
  handleParamChanges estimate estimate runA = Edited afterRunA
  /\ handleParamChanges estimate estimate runB = Edited afterRunB
  /\ operations afterRunA !! 0%nat = Some opA
  /\ operations afterRunB !! 0%nat = Some opB.
Proof. by vm_compute. Qed.

(** C5 on the sample estimate: [runA] and [runB] end alike at operation
    0, with the time recomputed from the original operation, and leave
    operation 3, which they do not edit, as it was. *)
Lemma edits_path_independent_witness :
  operations estimate !! 0%nat = Some roughing
  /\ has_work_factor roughing = true
  /\ estimatedTimeSeconds opA = estimatedTimeSeconds opB
  /\ estimatedTimeSeconds opA = recomputedTime 60 1000 (2 # 10) 1500 (1 # 5)
  /\ operations afterRunA !! 3%nat = operations estimate !! 3%nat.
Proof.
  split; [reflexivity|]. split; [reflexivity|].
  assert (Hwf0 : has_work_factor roughing = true) by reflexivity.
  assert (Hwf3 : has_work_factor backFacing = true) by reflexivity.
  destruct (edits_path_independent estimate 0 roughing 1000 (2 # 10)
              eq_refl eq_refl eq_refl Hwf0) as (Htime & Hsame & _).
  destruct (edits_path_independent estimate 3 backFacing 1200 (15 # 100)
              eq_refl eq_refl eq_refl Hwf3) as (_ & _ & Hkeep).
  assert (HtA : touches 0 runA).
  { exists rpmField, "2000"%string. by left. }
  assert (HtB : touches 0 runB).
  { exists feedRateField, "0.4"%string. by left. }
  split; [|split].
  - apply (Hsame estimate estimate runA runB afterRunA afterRunB opA opB);
      try done; by vm_compute.
  - apply (Htime estimate runA afterRunA opA); try done; by vm_compute.
  - apply (Hkeep estimate runA afterRunA); [by vm_compute|].
    intros (f & v & Hin). unfold runA in Hin.
    repeat (apply elem_of_cons in Hin as [Hin|Hin]; [discriminate Hin|]).
    by apply elem_of_nil in Hin.
Defined.

(** C5, counterexample.  An operation of 11.25 s at rpm 1000 and feed
    0.35: with no edit it stays at 11.25 s; with the rpm set to 2000 and
    back to 1000 it ends with the same rpm and feed and another time, 11.3 s
    in exact arithmetic and 11.2 s on binary64 numbers (where the original
    time rounded to a tenth is 11.3 s).  So the time depends on more than
    the final pair, and on binary64 the original values do not even bring
    back the original time rounded to a tenth. *)
Lemma edit_and_back_differs :
  (exists rBack opBack,
      handleParamChanges finishEstimate finishEstimate [] = Edited finishEstimate
      /\ handleParamChanges finishEstimate finishEstimate thereAndBack = Edited rBack
      /\ operations finishEstimate !! 0%nat = Some finishing
      /\ operations rBack !! 0%nat = Some opBack
      /\ rpm opBack = rpm finishing /\ feedRate opBack = feedRate finishing
      /\ params_positive opBack = true
      /\ estimatedTimeSeconds finishing = 45 # 4
      /\ estimatedTimeSeconds opBack = 113 # 10)
  /\ (exists rBack opBack,
        handleParamChanges Sample64.finishEstimate64 Sample64.finishEstimate64
          thereAndBack = Edited rBack
        /\ operations rBack !! 0%nat = Some opBack
        /\ rpm opBack = rpm Sample64.finishing64
        /\ feedRate opBack = feedRate Sample64.finishing64
        /\ params_positive opBack = true
        /\ PrimFloat.eqb (estimatedTimeSeconds opBack)
             (roundTenth (estimatedTimeSeconds Sample64.finishing64)) = false
        /\ PrimFloat.eqb (estimatedTimeSeconds opBack)
             (PrimFloat.div (Binary64.of_Z 112) (Binary64.of_Z 10)) = true
        /\ PrimFloat.eqb (roundTenth (estimatedTimeSeconds Sample64.finishing64))
             (PrimFloat.div (Binary64.of_Z 113) (Binary64.of_Z 10)) = true).
Proof.
  split.
  - eexists _, _. by vm_compute.
  - eexists _, _. by vm_compute.
Qed.

(** The loop on the sample estimate: the flip goes to L1, what follows to
    L2. *)
Example split_sample :
  buckets (operations estimate) = [L1; L1; L1; L2]
  /\ splitBuckets (operations estimate)
     = {| l1 := 271 # 2; l2 := 20; isSide2 := true |}
  /\ splitTimes (operations estimate) = (136, 20).
Proof. by vm_compute. Qed.

(** C3 on the operations of the sample estimate. *)
Lemma splitTimes_buckets_witness :
  buckets (operations estimate) = [L1; L1; L1; L2]
  /\ l1 (splitBuckets (operations estimate))
     = sumInOrder (estimatedTimeSeconds <$> [roughing; drilling; flipPart])
  /\ l2 (splitBuckets (operations estimate))
     = sumInOrder (estimatedTimeSeconds <$> [backFacing])
  /\ splitTimes (operations estimate) = (136, 20).
Proof.
  destruct (splitTimes_buckets (operations estimate))
    as (_ & _ & _ & H1 & H2 & Hround).
  split; [by vm_compute|]. split; [exact H1|]. split; [exact H2|].
  rewrite Hround. by vm_compute.
Defined.

(** An operation with a side-2 keyword and a flip keyword is added to L1. *)
Example split_both_keywords :
  hasSide2Keyword op20Flip = true /\ hasFlipKeyword op20Flip = true
  /\ buckets [op20Flip] = [L1].
Proof. by vm_compute. Qed.

(** C3, counterexample.  Four operations of 12.5 s, 12.5 s, 8.7 s and
    20.1 s on binary64 numbers, the last two on the second side: L1 is
    25, L2 is 28.8, and L1 + L2 is not the sum of the four times added in
    list order (53.8 against 53.800000000000004). *)
Lemma split_sum_not_conserved :
  buckets Sample64.twoSides64 = [L1; L1; L2; L2]
  /\ PrimFloat.eqb
       (add (l1 (splitBuckets Sample64.twoSides64))
            (l2 (splitBuckets Sample64.twoSides64)))
       (sumInOrder (estimatedTimeSeconds <$> Sample64.twoSides64)) = false
  /\ PrimFloat.eqb (l1 (splitBuckets Sample64.twoSides64)) (Binary64.of_Z 25) = true
  /\ PrimFloat.eqb
       (add (l1 (splitBuckets Sample64.twoSides64))
            (l2 (splitBuckets Sample64.twoSides64)))
       (PrimFloat.div (Binary64.of_Z 538) (Binary64.of_Z 10)) = true
  /\ PrimFloat.ltb
       (PrimFloat.div (Binary64.of_Z 538) (Binary64.of_Z 10))
       (sumInOrder (estimatedTimeSeconds <$> Sample64.twoSides64)) = true.
Proof. by vm_compute. Qed.
End SampleRuns.

(* ================================================================== *)
(** * Facts: CostAnalysisCard                                           *)
(* ================================================================== *)

Section CostFormulas.
Context {num : Type} `{JsNumber num}.
Local Open Scope js_scope.

Lemma stripNonNumeric_keeps (s : string) :
  stripNonNumeric s = keepDigitsAndDots s.
Proof.
  unfold keepDigitsAndDots. induction s as [|c s IH]; [done|]. simpl.
  destruct (isDimChar c); simpl; by rewrite IH.
Qed.

(** [parseDim] is the dimension of the specification: the guard on the
    empty text changes nothing, as the empty text does not parse. *)
Lemma parseDim_claimed (val : option string) :
  parseFloat "" = None -> parseDim val = claimedDim val.
Proof.
  intros Hempty. destruct val as [v|]; [|done]. unfold parseDim, claimedDim.
  rewrite stripNonNumeric_keeps.
  destruct (String.eqb_spec v "") as [-> | _]; [|done].
  change (keepDigitsAndDots "") with EmptyString. by rewrite Hempty.
Qed.

(** C2.  Weight and cost from the stock geometry, as the code computes
    them, for every number instance on which the empty text is no number
    (exact and binary64 numbers are two).  For all dimension texts, total
    time, density, hourly rate and price per kilogram, with [od], [id],
    [len] the dimensions read as the specification says (every character
    other than digits and dots deleted, the rest parsed as a float, 0 for
    a missing or unparsable value):
    [volume = PI * ((od/2)^2 - (id/2)^2) * len],
    [weight = (volume / 1000 * density) / 1000],
    [machiningCost = totalTimeSeconds / 3600 * hourlyRate],
    [materialCost = weight * materialPriceKg] and
    [totalCost = machiningCost + materialCost], each operation in this
    order. *)
Theorem calculation_formulas (odStr : string) (idStr : option string)
    (lengthStr : string) (totalTime density hourlyRate materialPriceKg : num) :
  parseFloat "" = None ->
  let od := claimedDim (Some odStr) in
  let id := claimedDim idStr in
  let len := claimedDim (Some lengthStr) in
  let c := calculation odStr idStr lengthStr totalTime density hourlyRate
             materialPriceKg in
  volume c = Math_PI * (Math_pow (od / lit 2) 2 - Math_pow (id / lit 2) 2) * len
  /\ weight c = (volume c / lit 1000 * density) / lit 1000
  /\ machiningCost c = totalTime / lit 3600 * hourlyRate
  /\ materialCost c = weight c * materialPriceKg
  /\ totalCost c = machiningCost c + materialCost c.
Proof.
  intros Hempty od id len c. subst od id len c. unfold calculation.
  by rewrite !parseDim_claimed.
Qed.
End CostFormulas.

Section CostFacts.
#[local] Existing Instance Binary64.float_JsNumber.
Local Open Scope Q_scope.

(** C2 on a tube of 30 mm by 10 mm by 50 mm of aluminium (density 2.7),
    two minutes of machining, on binary64 numbers. *)
Lemma calculation_formulas_witness :
  let density := PrimFloat.div (Binary64.of_Z 27) (Binary64.of_Z 10) in
  let c := calculation "OD 30 mm" (Some "ID 10") "50 mm" (Binary64.of_Z 120)
             density (Binary64.of_Z 600) (Binary64.of_Z 45) in
  @parseFloat PrimFloat.float _ "" = None
  /\ volume c
     = mul (mul Math_PI
              (sub (Math_pow (div (Binary64.of_Z 30) (Binary64.of_Z 2)) 2)
                   (Math_pow (div (Binary64.of_Z 10) (Binary64.of_Z 2)) 2)))
           (Binary64.of_Z 50)
  /\ weight c = div (mul (div (volume c) (Binary64.of_Z 1000)) density)
                    (Binary64.of_Z 1000)
  /\ machiningCost c = Binary64.of_Z 20.
Proof.
  intros density c.
  assert (Hempty : @parseFloat PrimFloat.float _ "" = None) by reflexivity.
  destruct (calculation_formulas "OD 30 mm" (Some "ID 10") "50 mm"
              (Binary64.of_Z 120) density (Binary64.of_Z 600) (Binary64.of_Z 45)
              Hempty) as (Hv & Hw & Hm & _).
  split; [exact Hempty|]. split; [exact Hv|]. split; [exact Hw|].
  etrans; [exact Hm|]. by vm_compute.
Defined.

(** C2, counterexample.  For that tube, on binary64 numbers, the weight
    the code computes, [(volume / 1000 * density) / 1000], is not the
    number [PI * ((od/2)^2 - (id/2)^2) * len * density / 10^6] computed
    from left to right: the two differ in the last binary digit. *)
Lemma weight_not_closed_form :
  let density := PrimFloat.div (Binary64.of_Z 27) (Binary64.of_Z 10) in
  let c := calculation "OD 30 mm" (Some "ID 10") "50 mm" (Binary64.of_Z 120)
             density (Binary64.of_Z 600) (Binary64.of_Z 45) in
  let claimed := claimedWeight (Binary64.of_Z 30) (Binary64.of_Z 10)
                   (Binary64.of_Z 50) density in
  PrimFloat.eqb (weight c) claimed = false
  /\ PrimFloat.ltb claimed (weight c) = true
  /\ FloatOps.Prim2SF (weight c) = SpecFloat.S754_finite false 6112141417752573 (-56)
  /\ FloatOps.Prim2SF claimed = SpecFloat.S754_finite false 6112141417752572 (-56).
Proof. by vm_compute. Qed.

(** Dimension texts as a drawing gives them, and texts that do not
    parse. *)
Example parseDim_samples :
  (parseDim (Some "50 mm") : Q) = 50
  /\ (parseDim (Some "OD 25.4mm") : Q) = 127 # 5
  /\ (parseDim (Some "ID20") : Q) = 20
  /\ (parseDim (Some "1.2.3") : Q) = 6 # 5
  /\ (parseDim (Some "solid") : Q) = 0
  /\ (parseDim (Some "") : Q) = 0
  /\ (parseDim None : Q) = 0.
Proof. by vm_compute. Qed.

(** A solid steel bar of 50 mm by 100 mm weighs about 1.54 kg. *)
Example weight_sample :
  let c := calculation "50 mm" None "100 mm" 120 (785 # 100) 600 45 in
  (154 # 100) < weight c < (155 # 100)
  /\ machiningCost c == 20.
Proof. by vm_compute. Qed.
End CostFacts.

(* ================================================================== *)
(** * Facts: storageService                                             *)
(* ================================================================== *)

Section StorageFacts.
Context {num : Type} `{Platform num}.

Lemma getHistory_stored (w : World num) :
  getHistory w = (w, Return (storedValue w)).
Proof.
  unfold getHistory, storedValue, tryCatch, bind, localStorage_getItem.
  destruct (storageEnabled w); [|done].
  destruct (localStorage w !! STORAGE_KEY) as [[value|s]|]; simpl; try done.
  unfold textTruthy. by destruct (String.eqb s "").
Qed.

Lemma setItem_Return key text (w w' : World num) :
  localStorage_setItem key text w = (w', Return ()) ->
  storageEnabled w = true /\ quotaAllows text = true
  /\ w' = setStorage w (<[key := text]> (localStorage w)).
Proof.
  unfold localStorage_setItem. intros Hrun.
  destruct (storageEnabled w); [|done].
  destruct (quotaAllows text); [|done]. by inversion Hrun.
Qed.

Lemma setItem_Throw key text (w w' : World num) e :
  localStorage_setItem key text w = (w', Throw e) ->
  (storageEnabled w = false \/ quotaAllows text = false) /\ w' = w.
Proof.
  unfold localStorage_setItem. intros Hrun.
  destruct (storageEnabled w); [|by inversion Hrun; auto].
  destruct (quotaAllows text); [done|]. by inversion Hrun; auto.
Qed.

(** The spread of the code yields the list a value is read as. *)
Lemma spread_readsAsList (value : JsValue num) (entries : list (JsValue num)) :
  spread value = Return entries <-> readsAsList value entries.
Proof.
  split.
  - destruct value; intros Hs; inversion Hs; constructor.
  - by intros [elements|s].
Qed.

(** The [try] block of [saveHistoryItem], step by step. *)
Lemma saveHistoryItem_try_run result config image (w : World num) :
  saveHistoryItem_try result config image w =
    match spread (storedValue w) with
    | Return previous =>
        localStorage_setItem STORAGE_KEY
          (JsonText (VArray (take MAX_ITEMS
                               (VItem (itemToSave result config image w) :: previous))))
          (afterReadings w)
    | Throw e => (afterReadings w, Throw e)
    end.
Proof.
  unfold saveHistoryItem_try, compressImage, Date_now, bind, ret. simpl.
  rewrite getHistory_stored. cbn [storedValue].
  change (storedValue (setClock (setClock w (elapse (clock w)))
                         (elapse (elapse (clock w)))))
    with (storedValue w).
  unfold answer. by destruct (spread (storedValue w)).
Qed.

Lemma storedValue_written (w : World num) (value : JsValue num) :
  storageEnabled w = true ->
  storedValue (setStorage w (<[STORAGE_KEY := JsonText value]> (localStorage w)))
  = value.
Proof.
  intros Hen. unfold storedValue. simpl. rewrite Hen.
  by rewrite lookup_insert_eq.
Qed.

(** With storage usable, a stored value that reads as a list and room
    for the text, the [try] block runs to its end. *)
Lemma saveHistoryItem_succeeds result config image (w : World num) previous :
  storageEnabled w = true ->
  readsAsList (storedValue w) previous ->
  quotaAllows (JsonText (VArray (take MAX_ITEMS
                 (VItem (itemToSave result config image w) :: previous)))) = true ->
  saveHistoryItem_try result config image w
  = (setStorage (afterReadings w)
       (<[STORAGE_KEY := JsonText (VArray (take MAX_ITEMS
            (VItem (itemToSave result config image w) :: previous)))]>
          (localStorage w)),
     Return ()).
Proof.
  intros Hen Hlist%spread_readsAsList Hq. rewrite saveHistoryItem_try_run, Hlist.
  unfold localStorage_setItem. cbn [storageEnabled afterReadings setClock].
  by rewrite Hen, Hq.
Qed.

(** C6.  A call of [saveHistoryItem] whose [try] block runs to its end
    writes, under the key [lathe_estimator_history], the new item put in
    front of the list that was stored before, cut to [MAX_ITEMS = 10]
    entries.  The list stored before is the stored array (the items of a
    stored history, in their order), the empty list when there was no
    text or a text that is not JSON, and, where a JSON string was stored,
    its characters; with any other value stored the block does not run to
    its end.  So the stored history then has at most 10 entries and the
    new item comes first.  The block runs to its end exactly when storage
    can be used, the stored value reads as a list and the quota lets the
    new text in. *)
Theorem saveHistoryItem_prepends (result : EstimationResult num)
    (config : AnalysisConfig.t) (originalImageBase64 : string)
    (w : World num) :
  let newItem := itemToSave result config originalImageBase64 w in
  (forall w',
      saveHistoryItem_try result config originalImageBase64 w = (w', Return ()) ->
      exists previous,
        readsAsList (storedValue w) previous
        /\ (localStorage w !! STORAGE_KEY = None -> previous = [])
        /\ (forall s, localStorage w !! STORAGE_KEY = Some (NotJson s) ->
              previous = [])
        /\ (forall items, localStorage w !! STORAGE_KEY = Some (JsonHistory items) ->
              previous = VItem <$> items)
        /\ let updated := take MAX_ITEMS (VItem newItem :: previous) in
           saveHistoryItem result config originalImageBase64 w = (w', Return ())
           /\ localStorage w' !! STORAGE_KEY = Some (JsonText (VArray updated))
           /\ storedValue w' = VArray updated
           /\ length updated <= 10
           /\ head updated = Some (VItem newItem)
           /\ storageEnabled w = true
           /\ quotaAllows (JsonText (VArray updated)) = true)
  /\ (forall previous,
        storageEnabled w = true ->
        readsAsList (storedValue w) previous ->
        quotaAllows (JsonText (VArray (take MAX_ITEMS (VItem newItem :: previous))))
        = true ->
        exists w',
          saveHistoryItem_try result config originalImageBase64 w = (w', Return ())).
Proof.
  intros newItem. split.
  2:{ intros previous Hen Hlist Hq. eexists.
      by apply (saveHistoryItem_succeeds _ _ _ _ previous). }
  intros w' Hrun.
  assert (Hsave : saveHistoryItem result config originalImageBase64 w = (w', Return ())).
  { unfold saveHistoryItem, tryCatch. by rewrite Hrun. }
  rewrite saveHistoryItem_try_run in Hrun.
  destruct (spread (storedValue w)) as [previous|e] eqn:Hspread; [|done].
  apply setItem_Return in Hrun as (Hen & Hq & ->).
  cbn [storageEnabled afterReadings setClock] in Hen.
  exists previous.
  split; [by apply spread_readsAsList|].
  assert (Hstored : forall text, localStorage w !! STORAGE_KEY = text ->
            storedValue w = match text with
                            | Some (JsonText value) => value
                            | _ => VArray []
                            end).
  { intros text <-. unfold storedValue. rewrite Hen.
    by destruct (localStorage w !! STORAGE_KEY) as [[]|]. }
  split. { intros Hnone. rewrite (Hstored _ Hnone) in Hspread. by inversion Hspread. }
  split. { intros s Hs. rewrite (Hstored _ Hs) in Hspread. by inversion Hspread. }
  split. { intros items Hitems. rewrite (Hstored _ Hitems) in Hspread.
           by inversion Hspread. }
  cbv zeta. split; [done|].
  split; [by simpl; rewrite lookup_insert_eq|].
  split. { by rewrite (storedValue_written (afterReadings w)) by done. }
  split. { rewrite length_take. unfold MAX_ITEMS. lia. }
  by repeat split.
Qed.

(** A failed save leaves the storage as it was. *)
Lemma saveHistoryItem_fails result config image (w : World num) e w' :
  saveHistoryItem_try result config image w = (w', Throw e) ->
  saveHistoryItem result config image w = (w', Return ())
  /\ localStorage w' = localStorage w.
Proof.
  intros Hrun. split; [unfold saveHistoryItem, tryCatch; by rewrite Hrun|].
  rewrite saveHistoryItem_try_run in Hrun.
  destruct (spread (storedValue w)) as [previous|e'].
  - by apply setItem_Throw in Hrun as (_ & ->).
  - by inversion Hrun.
Qed.

(** With a stored value that is no list (a [null], a number, a boolean,
    an object), nothing is saved. *)
Lemma saveHistoryItem_not_a_list result config image (w : World num) :
  (forall previous, ~ readsAsList (storedValue w) previous) ->
  saveHistoryItem result config image w = (afterReadings w, Return ()).
Proof.
  intros Hno. unfold saveHistoryItem, tryCatch.
  rewrite saveHistoryItem_try_run.
  destruct (spread (storedValue w)) as [previous|e] eqn:Hspread; [|done].
  by apply spread_readsAsList, Hno in Hspread.
Qed.

(** The filter of the code, on an array without a [null] entry: the
    entries that do not carry the id, in their order. *)
Lemma Array_filter_idDiffers (id : string) (entries : list (JsValue num)) :
  existsb isNull entries = false ->
  Array_filter (idDiffers id) entries
  = Return (filter (fun entry => hasId id entry = false) entries).
Proof.
  induction entries as [|entry entries IH]; intros Hnull; [done|].
  cbn [existsb] in Hnull. apply orb_false_elim in Hnull as [Hentry Hrest].
  cbn [Array_filter]. rewrite (IH Hrest). rewrite filter_cons.
  destruct entry as [|b|n|s|elements|properties|h]; try done; cbn.
  - destruct (property "id" properties) as [[| | |s| | |]|]; cbn;
      try (by destruct (decide _)).
    destruct (String.eqb s id); cbn; by destruct (decide _).
  - destruct (String.eqb (HistoryItem.id h) id); cbn; by destruct (decide _).
Qed.

(** On an array with a [null] entry the filter throws. *)
Lemma Array_filter_null (id : string) (entries : list (JsValue num)) :
  existsb isNull entries = true ->
  exists e, Array_filter (idDiffers id) entries = Throw e.
Proof.
  induction entries as [|entry entries IH]; intros Hnull; [done|].
  cbn [existsb] in Hnull. cbn [Array_filter].
  destruct entry as [|b|n|s|elements|properties|h]; cbn in *; eauto;
    destruct (IH Hnull) as [e ->]; eauto.
Qed.

Lemma existing_filter_entries (id : string) (w : World num) entries :
  storedEntries w = Some entries ->
  storedValue w = VArray entries
  /\ existing_filter id (storedValue w)
     = Return (filter (fun entry => hasId id entry = false) entries).
Proof.
  unfold storedEntries. destruct (storedValue w) as [| | | |elements| |]; try done.
  destruct (existsb isNull elements) eqn:Hnull; [done|].
  intros [= <-]. split; [done|]. by apply Array_filter_idDiffers.
Qed.

Lemma existing_filter_none (id : string) (w : World num) :
  storedEntries w = None ->
  exists e, existing_filter id (storedValue w) = Throw e.
Proof.
  unfold storedEntries. destruct (storedValue w) as [| | | |elements| |];
    cbn; eauto.
  destruct (existsb isNull elements) eqn:Hnull; [|done].
  intros _. by apply Array_filter_null.
Qed.

(** [deleteHistoryItem], step by step. *)
Lemma deleteHistoryItem_run (id : string) (w : World num) :
  deleteHistoryItem id w =
    match existing_filter id (storedValue w) with
    | Return updated =>
        if storageEnabled w && quotaAllows (JsonText (VArray updated))
        then (setStorage w (<[STORAGE_KEY := JsonText (VArray updated)]>
                              (localStorage w)),
              Return (VArray updated))
        else (w, Return (VArray []))
    | Throw _ => (w, Return (VArray []))
    end.
Proof.
  unfold deleteHistoryItem, tryCatch, bind. rewrite getHistory_stored.
  unfold answer. destruct (existing_filter id (storedValue w)) as [updated|e];
    [|done].
  unfold localStorage_setItem.
  destruct (storageEnabled w); [|done].
  by destruct (quotaAllows (JsonText (VArray updated))).
Qed.

(** [saveHistoryItem], step by step. *)
Lemma saveHistoryItem_run result config image (w : World num) :
  saveHistoryItem result config image w =
    match spread (storedValue w) with
    | Return previous =>
        let updated :=
          take MAX_ITEMS (VItem (itemToSave result config image w) :: previous) in
        if storageEnabled w && quotaAllows (JsonText (VArray updated))
        then (setStorage (afterReadings w)
                (<[STORAGE_KEY := JsonText (VArray updated)]> (localStorage w)),
              Return ())
        else (afterReadings w, Return ())
    | Throw _ => (afterReadings w, Return ())
    end.
Proof.
  unfold saveHistoryItem, tryCatch. rewrite saveHistoryItem_try_run.
  destruct (spread (storedValue w)) as [previous|e]; [|done].
  cbv zeta. unfold localStorage_setItem.
  cbn [storageEnabled afterReadings setClock localStorage].
  destruct (storageEnabled w); [|done].
  by destruct (quotaAllows _).
Qed.

(** Through any run of calls of the service, a stored history of at most
    [MAX_ITEMS] entries stays one; from an empty storage in particular. *)
Lemma history_stays_bounded (calls : list ServiceCall) (w : World num) :
  entryCount (storedValue w) <= MAX_ITEMS ->
  entryCount (storedValue (afterCalls w calls)) <= MAX_ITEMS.
Proof.
  revert w. induction calls as [|c calls IH]; intros w Hw; [done|].
  apply IH. clear IH. destruct c as [result config image| |id|]; simpl.
  - rewrite saveHistoryItem_run.
    destruct (spread (storedValue w)) as [previous|e]; [|done].
    cbv zeta. destruct (storageEnabled w) eqn:Hen; [|done].
    destruct (quotaAllows _); [|done]. cbn [andb fst].
    rewrite (storedValue_written (afterReadings w)) by done.
    cbn [entryCount]. rewrite length_take. lia.
  - by rewrite getHistory_stored.
  - rewrite deleteHistoryItem_run.
    destruct (existing_filter id (storedValue w)) as [updated|e] eqn:Hfilter;
      [|done].
    destruct (storageEnabled w) eqn:Hen; [|done].
    destruct (quotaAllows _); [|done]. cbn [andb fst].
    rewrite storedValue_written by done. cbn [entryCount].
    destruct (storedEntries w) as [entries|] eqn:Hentries.
    + destruct (existing_filter_entries id w entries Hentries) as [Hv Hf].
      rewrite Hf in Hfilter. inversion Hfilter; subst updated.
      rewrite Hv in Hw. cbn [entryCount] in Hw.
      etrans; [apply length_filter | done].
    + destruct (existing_filter_none id w Hentries) as [e He]. congruence.
  - unfold clearHistory, localStorage_removeItem.
    destruct (storageEnabled w) eqn:Hen; cbn [fst]; [|done].
    unfold storedValue. cbn [storageEnabled setStorage localStorage].
    rewrite Hen, lookup_delete_eq. simpl. lia.
Qed.

(** C10, as the code has it.  [getHistory] never throws and leaves the
    world alone; it returns the value of the stored text, and the empty
    list when there is no stored text, when the stored text is not JSON
    and when storage cannot be read.  [deleteHistoryItem id] works on the
    value [getHistory] returns.  When that is an array without a [null]
    entry, and storage can be used and takes the new text, it stores and
    returns that array without the entries whose [id] is the argument,
    the others in their order; when a storage access throws it returns
    the empty list and stores nothing.  When the value is no array, or an
    array with a [null] entry, it returns the empty list and stores
    nothing, though no storage access throws. *)
Theorem history_read_delete (w : World num) (id : string) :
  getHistory w = (w, Return (storedValue w))
  /\ (forall value, storageEnabled w = true ->
        localStorage w !! STORAGE_KEY = Some (JsonText value) ->
        storedValue w = value)
  /\ (localStorage w !! STORAGE_KEY = None -> storedValue w = VArray [])
  /\ (forall s, localStorage w !! STORAGE_KEY = Some (NotJson s) ->
        storedValue w = VArray [])
  /\ (storageEnabled w = false -> storedValue w = VArray [])
  /\ (forall entries,
        storedValue w = VArray entries -> existsb isNull entries = false ->
        let updated := filter (fun entry => hasId id entry = false) entries in
        updated `sublist_of` entries
        /\ (forall entry, entry ∈ updated <-> entry ∈ entries /\ hasId id entry = false)
        /\ (storageEnabled w = true ->
            quotaAllows (JsonText (VArray updated)) = true ->
            deleteHistoryItem id w =
              (setStorage w (<[STORAGE_KEY := JsonText (VArray updated)]>
                               (localStorage w)),
               Return (VArray updated)))
        /\ (storageEnabled w = false
            \/ quotaAllows (JsonText (VArray updated)) = false ->
            deleteHistoryItem id w = (w, Return (VArray []))))
  /\ ((forall entries, storedValue w = VArray entries ->
         existsb isNull entries = true) ->
      deleteHistoryItem id w = (w, Return (VArray []))).
Proof.
  split; [apply getHistory_stored|].
  split. { intros value Hen Hv. unfold storedValue. by rewrite Hen, Hv. }
  split. { intros Hnone. unfold storedValue. rewrite Hnone.
           by destruct (storageEnabled w). }
  split. { intros s Hs. unfold storedValue. rewrite Hs.
           by destruct (storageEnabled w). }
  split. { intros Hen. unfold storedValue. by rewrite Hen. }
  split.
  - intros entries Hv Hnull updated.
    assert (Hentries : storedEntries w = Some entries).
    { unfold storedEntries. by rewrite Hv, Hnull. }
    destruct (existing_filter_entries id w entries Hentries) as [_ Hf].
    split; [apply sublist_filter|].
    split. { intros entry. unfold updated. by rewrite list_elem_of_filter, (comm and). }
    split.
    + intros Hen Hq. rewrite deleteHistoryItem_run, Hf. fold updated.
      by rewrite Hen, Hq.
    + intros Hfail. rewrite deleteHistoryItem_run, Hf. fold updated.
      destruct (storageEnabled w); [|done].
      destruct Hfail as [? | ->]; done.
  - intros Hno.
    assert (Hentries : storedEntries w = None).
    { unfold storedEntries. destruct (storedValue w) as [| | | |elements| |] eqn:Hv;
        try done. by rewrite (Hno elements). }
    rewrite deleteHistoryItem_run.
    by destruct (existing_filter_none id w Hentries) as [e ->].
Qed.
End StorageFacts.

(* ================================================================== *)
(** * Facts: geminiService                                              *)
(* ================================================================== *)

Section GeminiFacts.
Context {num : Type} `{Platform num} `{JsString}.

Lemma getEnvApiKey_none :
  strTruthy import_meta_env_VITE_API_KEY = false ->
  strTruthy process_env_VITE_API_KEY = false ->
  strTruthy process_env_REACT_APP_API_KEY = false ->
  strTruthy process_env_API_KEY = false ->
  strTruthy window_API_KEY = false ->
  getEnvApiKey = "".
Proof. unfold getEnvApiKey. by intros -> -> -> -> ->. Qed.

(** The key the request is made with: the trimmed key of the form when
    it is not empty, whatever the environment holds. *)
Lemma effectiveApiKey_ui (config : AnalysisConfig.t) k :
  AnalysisConfig.apiKey config = Some k -> trim k <> "" ->
  effectiveApiKey config = trim k.
Proof.
  intros Hk Hne. unfold effectiveApiKey. rewrite Hk. simpl.
  by destruct (String.eqb_spec (trim k) "").
Qed.

Lemma effectiveApiKey_env (config : AnalysisConfig.t) :
  strTruthy (trim <$> AnalysisConfig.apiKey config) = false ->
  effectiveApiKey config = getEnvApiKey.
Proof. unfold effectiveApiKey. by intros ->. Qed.

(** Without a key the call throws before any request. *)
Lemma analyzeBlueprint_no_key base64Image mimeType config (w : World num) :
  effectiveApiKey config = "" ->
  analyzeBlueprint base64Image mimeType config w =
    (setAnalyzeCalls w (S (analyzeCalls w)), Throw (Error API_KEY_MISSING_message)).
Proof. intros Hkey. unfold analyzeBlueprint. by rewrite Hkey. Qed.

(** With a key the call makes one request, whatever comes back. *)
Lemma analyzeBlueprint_with_key base64Image mimeType config (w : World num) :
  effectiveApiKey config <> "" ->
  fst (analyzeBlueprint base64Image mimeType config w) =
    setRequests (setAnalyzeCalls w (S (analyzeCalls w)))
      (requestOf base64Image mimeType config :: requests w).
Proof.
  intros Hkey. unfold analyzeBlueprint.
  destruct (String.eqb_spec (effectiveApiKey config) "") as [|_]; [done|].
  unfold tryCatch, bind, ai_models_generateContent, requestOf.
  destruct (generateContent _) as [response|e]; [|done].
  destruct (strTruthy response); [|done].
  unfold answer. by destruct (JSON_parse _).
Qed.

(** C7.  (1) When the key of the form is absent or trims to the empty
    text and none of the five places of the environment holds a non-empty
    key, [analyzeBlueprint] throws an error whose message begins with
    [API_KEY_MISSING] and sends no request.  (2) When the key of the form
    trims to a non-empty text, that text is the key used, whatever the
    environment holds, and it is the key of the one request sent. *)
Theorem analyzeBlueprint_api_key (base64Image : option string)
    (mimeType : string) (config : AnalysisConfig.t) (w : World num) :
  ((AnalysisConfig.apiKey config = None
    \/ exists k, AnalysisConfig.apiKey config = Some k /\ trim k = "") ->
   strTruthy import_meta_env_VITE_API_KEY = false ->
   strTruthy process_env_VITE_API_KEY = false ->
   strTruthy process_env_REACT_APP_API_KEY = false ->
   strTruthy process_env_API_KEY = false ->
   strTruthy window_API_KEY = false ->
   exists e,
     snd (analyzeBlueprint base64Image mimeType config w) = Throw e
     /\ startsWith (err_message e) "API_KEY_MISSING" = true
     /\ requests (fst (analyzeBlueprint base64Image mimeType config w))
        = requests w)
  /\ (forall k,
        AnalysisConfig.apiKey config = Some k -> trim k <> "" ->
        effectiveApiKey config = trim k
        /\ requests (fst (analyzeBlueprint base64Image mimeType config w))
           = {| req_apiKey := trim k; req_model := "gemini-2.5-flash";
                req_data := base64Image; req_mimeType := mimeType |}
             :: requests w).
Proof.
  split.
  - intros Hui H1 H2 H3 H4 H5.
    assert (Hkey : effectiveApiKey config = "").
    { rewrite effectiveApiKey_env; [by apply getEnvApiKey_none|].
      destruct Hui as [-> | (k & -> & Hk)]; [done|]. simpl. by rewrite Hk. }
    rewrite (analyzeBlueprint_no_key _ _ _ _ Hkey).
    exists (Error API_KEY_MISSING_message). by repeat split.
  - intros k Hk Hne.
    pose proof (effectiveApiKey_ui config k Hk Hne) as Hkey.
    split; [done|].
    rewrite analyzeBlueprint_with_key by (by rewrite Hkey).
    unfold requestOf. by rewrite Hkey.
Qed.
End GeminiFacts.

(* ================================================================== *)
(** * Facts: App                                                        *)
(* ================================================================== *)

Section AppFacts.
Context {num : Type} `{Platform num} `{JsString}.

Lemma pdfToJpeg_run (file : File) (w : World num) :
  pdfToJpeg file w =
    (w, match renderFirstPageJpeg file with
        | Return url => Return {| base64 := splitCommaSecond url;
                                  mimeType := "image/jpeg" |}
        | Throw e => Throw e
        end).
Proof.
  unfold pdfToJpeg, renderFirstPageJpeg, bind, answer, ret, throw.
  destruct (file_arrayBuffer file) as [arrayBuffer|]; [|done].
  destruct (pdfjs_getDocument arrayBuffer) as [pdf|]; [|done].
  destruct (pdf_getPage pdf 1) as [page|]; [|done].
  destruct canvas_getContext_2d; [|done]. simpl.
  by destruct (page_render page 2).
Qed.

(** [fileToGenerativePart] reads the file and leaves the world alone. *)
Lemma fileToGenerativePart_world (file : File) (w : World num) :
  fst (fileToGenerativePart file w) = w.
Proof.
  unfold fileToGenerativePart.
  destruct (String.eqb (file_type file) "application/pdf").
  - unfold tryCatch. rewrite pdfToJpeg_run.
    by destruct (renderFirstPageJpeg file).
  - by destruct (readAsDataURL file).
Qed.

Lemma fileToGenerativePart_any_world (file : File) (w1 w2 : World num) :
  snd (fileToGenerativePart file w1) = snd (fileToGenerativePart file w2).
Proof.
  unfold fileToGenerativePart.
  destruct (String.eqb (file_type file) "application/pdf").
  - unfold tryCatch. rewrite !pdfToJpeg_run.
    by destruct (renderFirstPageJpeg file).
  - by destruct (readAsDataURL file).
Qed.

(** C8, as the code has it.  For a file of type [application/pdf],
    [fileToGenerativePart] resolves with mime type [image/jpeg] and the
    payload of the JPEG data URL of the first page rendered to a canvas, or,
    when a step of that fails, rejects with the PDF conversion error.  For
    any other file it resolves with the mime type of the file and the
    payload of the data URL the reader gives when the read succeeds, and
    rejects with the error event of the reader when the read fails. *)
Theorem fileToGenerativePart_outcomes (file : File) (w : World num) :
  (file_type file = "application/pdf" ->
   match renderFirstPageJpeg file with
   | Return url =>
       fileToGenerativePart file w =
         (w, Return {| base64 := splitCommaSecond url; mimeType := "image/jpeg" |})
   | Throw _ =>
       fileToGenerativePart file w = (w, Throw (Error pdf_conversion_message))
   end)
  /\ (file_type file <> "application/pdf" ->
      match readAsDataURL file with
      | Return url =>
          fileToGenerativePart file w =
            (w, Return {| base64 := splitCommaSecond url;
                          mimeType := file_type file |})
      | Throw event => fileToGenerativePart file w = (w, Throw event)
      end).
Proof.
  unfold fileToGenerativePart. split.
  - intros ->. simpl. unfold tryCatch. rewrite pdfToJpeg_run.
    by destruct (renderFirstPageJpeg file).
  - intros Hne. destruct (String.eqb_spec (file_type file) "application/pdf");
      [done|]. by destruct (readAsDataURL file).
Qed.
End AppFacts.

Section AnalyzeFacts.
Context {num : Type} `{Platform num} `{JsString}.

(** The history service touches neither the log nor the App state, and
    [saveHistoryItem] never throws. *)
Lemma saveHistoryItem_quiet result config image (w : World num) :
  exists w', saveHistoryItem result config image w = (w', Return ())
             /\ analyzeCalls w' = analyzeCalls w
             /\ requests w' = requests w
             /\ app w' = app w.
Proof.
  rewrite saveHistoryItem_run.
  destruct (spread (storedValue w)) as [previous|e]; [|by eexists].
  cbv zeta. destruct (storageEnabled w && quotaAllows _); by eexists.
Qed.

(** What [analyzeBlueprint] does to the log. *)
Lemma analyzeBlueprint_log base64Image mimeType config (w : World num) :
  let w' := fst (analyzeBlueprint base64Image mimeType config w) in
  analyzeCalls w' = S (analyzeCalls w)
  /\ app w' = app w
  /\ requests w' =
       if String.eqb (effectiveApiKey config) "" then requests w
       else requestOf base64Image mimeType config :: requests w.
Proof.
  destruct (String.eqb_spec (effectiveApiKey config) "") as [Hkey | Hkey]; simpl.
  - by rewrite analyzeBlueprint_no_key.
  - by rewrite analyzeBlueprint_with_key.
Qed.

(** [handleAnalyze] starts its [try] block in the [analyzing] world. *)
Lemma handleAnalyze_run file config (w : World num) :
  handleAnalyze file config w =
    tryCatch (handleAnalyze_try file config)
      (fun err => bind (setAppState ERROR)
                    (fun _ => setErrorMsg (Some (errorMessageFor err))))
      (analyzing w).
Proof. reflexivity. Qed.

(** The [try] block, by the outcome of the file conversion. *)
Lemma handleAnalyze_try_run file config (w : World num) :
  handleAnalyze_try file config w =
    match snd (fileToGenerativePart file w) with
    | Throw e => (w, Throw e)
    | Return part =>
        let fullDataUrl :=
          "data:" +:+ mimeType part +:+ ";base64," +:+ templateText (base64 part) in
        bind (setPreviewImage (Some fullDataUrl))
          (fun _ =>
             bind (analyzeBlueprint (base64 part) (mimeType part) config)
               (fun data =>
                  bind (setResult (Some data))
                    (fun _ => bind (setAppState SUCCESS)
                                (fun _ => saveHistoryItem data config fullDataUrl))))
          w
    end.
Proof.
  unfold handleAnalyze_try at 1. unfold bind at 1.
  pose proof (fileToGenerativePart_world file w) as Hw.
  destruct (fileToGenerativePart file w) as [w0 [part|e]]; simpl in *; by subst.
Qed.

End AnalyzeFacts.

(* ================================================================== *)
(** * Runs of the services on the sample platform                       *)
(* ================================================================== *)

Section ServiceRuns.
Import AsciiStrings.
Import Sample.

(** Saving into a full history drops the oldest item. *)
Example save_into_full_history :
  idsOf (storedValue fullWorld)
    = ["10"; "9"; "8"; "7"; "6"; "5"; "4"; "3"; "2"; "1"]
  /\ idsOf (storedValue afterSave)
    = ["1730000000000"; "10"; "9"; "8"; "7"; "6"; "5"; "4"; "3"; "2"].
Proof. by vm_compute. Qed.

(** Iterating a string yields its characters, one for each code point;
    the second character here takes two bytes. *)
Example codePoints_sample :
  codePoints "a" = ["a"] /\ length (codePoints "[]") = 2
  /\ length (codePoints (String "a" (String "195" (String "169" "b")))) = 3.
Proof. by vm_compute. Qed.

(** C6 on a browser whose history is full. *)
Lemma saveHistoryItem_prepends_witness :
  saveHistoryItem_try estimate config "iVBORw0KGgo=" fullWorld
    = (afterSave, Return ())
  /\ storedValue afterSave
     = VArray (take MAX_ITEMS
                 (VItem (itemToSave estimate config "iVBORw0KGgo=" fullWorld)
                  :: (VItem <$> (historyItem <$> [10; 9; 8; 7; 6; 5; 4; 3; 2; 1]%Z))))
  /\ entryCount (storedValue afterSave) = 10.
Proof.
  assert (Hrun : saveHistoryItem_try estimate config "iVBORw0KGgo=" fullWorld
                 = (afterSave, Return ())) by (by vm_compute).
  split; [exact Hrun|].
  destruct (proj1 (saveHistoryItem_prepends estimate config "iVBORw0KGgo="
                     fullWorld) afterSave Hrun)
    as (previous & _ & _ & _ & Hitems & _ & _ & Hstored & _).
  rewrite Hstored, (Hitems (historyItem <$> [10; 9; 8; 7; 6; 5; 4; 3; 2; 1]%Z))
    by (by vm_compute).
  split; [done | by vm_compute].
Defined.

(** A stored JSON string is read as the list of its characters; with
    [null] stored nothing is saved. *)
Example save_onto_other_values :
  let wString := setStorage freshWorld {[ STORAGE_KEY := JsonText (VString "ab") ]} in
  let wNull := setStorage freshWorld {[ STORAGE_KEY := JsonText VNull ]} in
  storedValue (fst (saveHistoryItem estimate config "iVBORw0KGgo=" wString))
    = VArray [VItem (itemToSave estimate config "iVBORw0KGgo=" wString);
              VString "a"; VString "b"]
  /\ localStorage (fst (saveHistoryItem estimate config "iVBORw0KGgo=" wNull))
     = localStorage wNull
  /\ snd (saveHistoryItem estimate config "iVBORw0KGgo=" wNull) = Return ().
Proof. by vm_compute. Qed.

(** With storage disabled nothing is saved and nothing is thrown. *)
Example save_without_storage :
  let w := {| localStorage := ∅; storageEnabled := false; clock := 5;
              requests := []; analyzeCalls := 0; app := app freshWorld |} in
  snd (saveHistoryItem estimate config "iVBORw0KGgo=" w) = Return ()
  /\ localStorage (fst (saveHistoryItem estimate config "iVBORw0KGgo=" w)) = ∅
  /\ getHistory w = (w, Return (VArray []))
  /\ deleteHistoryItem "5" w = (w, Return (VArray [])).
Proof. by vm_compute. Qed.

(** A stored text that is not JSON reads as an empty history. *)
Example read_unparsable :
  let w := setStorage freshWorld {[ STORAGE_KEY := NotJson "[{" ]} in
  getHistory w = (w, Return (VArray [])).
Proof. by vm_compute. Qed.

(** C10 on a browser whose history is full: deleting the item with id 5. *)
Lemma history_read_delete_witness :
  getHistory fullWorld = (fullWorld, Return (storedValue fullWorld))
  /\ snd (deleteHistoryItem "5" fullWorld)
     = Return (VArray (VItem <$> (historyItem <$> [10; 9; 8; 7; 6; 4; 3; 2; 1]%Z)))
  /\ storedValue (fst (deleteHistoryItem "5" fullWorld))
     = VArray (VItem <$> (historyItem <$> [10; 9; 8; 7; 6; 4; 3; 2; 1]%Z)).
Proof.
  destruct (history_read_delete fullWorld "5")
    as (Hread & _ & _ & _ & _ & Hdelete & _).
  split; [exact Hread|].
  destruct (Hdelete (VItem <$> (historyItem <$> [10; 9; 8; 7; 6; 5; 4; 3; 2; 1]%Z))
              eq_refl eq_refl) as (_ & _ & Hrun & _).
  rewrite Hrun by (by vm_compute).
  split; by vm_compute.
Defined.

(** C10, counterexample.  The stored history holds the item with id 1
    and a [null] entry; storage can be used and has room.
    [deleteHistoryItem "1"] returns the empty list and stores nothing: the
    item is still there, and the other entry is not returned.  With
    [null] itself stored, [getHistory] returns [null] and
    [deleteHistoryItem] the empty list, storing nothing. *)
Lemma delete_leaves_history :
  let w := setStorage freshWorld
             {[ STORAGE_KEY := JsonText (VArray [VItem (historyItem 1); VNull]) ]} in
  let wNull := setStorage freshWorld {[ STORAGE_KEY := JsonText VNull ]} in
  storageEnabled w = true
  /\ quotaAllows (JsonText (VArray [@VNull Q])) = true
  /\ getHistory w = (w, Return (VArray [VItem (historyItem 1); VNull]))
  /\ deleteHistoryItem "1" w = (w, Return (VArray []))
  /\ storedValue (fst (deleteHistoryItem "1" w))
     = VArray [VItem (historyItem 1); VNull]
  /\ getHistory wNull = (wNull, Return VNull)
  /\ deleteHistoryItem "1" wNull = (wNull, Return (VArray [])).
Proof. by vm_compute. Qed.
End ServiceRuns.

Section AnalysisRuns.
Import AsciiStrings.
Import Sample.

(** Without a key in the form, the first non-empty key of the
    environment is used; an empty one is passed over. *)
Example key_from_environment :
  effectiveApiKey config = "env-key"
  /\ effectiveApiKey (withApiKey config (Some "   ")) = "env-key"
  /\ effectiveApiKey (withApiKey config (Some " ui-key ")) = "ui-key"
  /\ effectiveApiKey (H := platformWithoutEnvKey) config = "".
Proof. by vm_compute. Qed.

(** C7 on the sample platform: a blank key with an empty environment, and
    a key in the form with keys in the environment. *)
Lemma analyzeBlueprint_api_key_witness :
  (exists e,
     snd (analyzeBlueprint (H := platformWithoutEnvKey)
            (Some "iVBORw0KGgo=") "image/png"
            (withApiKey config (Some "   ")) freshWorld) = Throw e
     /\ startsWith (err_message e) "API_KEY_MISSING" = true
     /\ requests (fst (analyzeBlueprint (H := platformWithoutEnvKey)
                         (Some "iVBORw0KGgo=") "image/png"
                         (withApiKey config (Some "   ")) freshWorld)) = [])
  /\ effectiveApiKey (withApiKey config (Some " ui-key ")) = "ui-key"
  /\ requests (fst (analyzeBlueprint (Some "iVBORw0KGgo=") "image/png"
                      (withApiKey config (Some " ui-key ")) freshWorld))
     = [ {| req_apiKey := "ui-key"; req_model := "gemini-2.5-flash";
            req_data := Some "iVBORw0KGgo="; req_mimeType := "image/png" |} ].
Proof.
  split.
  - apply (proj1 (analyzeBlueprint_api_key (H := platformWithoutEnvKey)
                    (Some "iVBORw0KGgo=") "image/png"
                    (withApiKey config (Some "   ")) freshWorld));
      try reflexivity.
    right. by exists "   "%string.
  - assert (Hne : trim " ui-key " <> "") by (by vm_compute).
    exact (proj2 (analyzeBlueprint_api_key (Some "iVBORw0KGgo=") "image/png"
                    (withApiKey config (Some " ui-key ")) freshWorld)
             " ui-key "%string eq_refl Hne).
Defined.

(** The four kinds of file. *)
Example file_conversions :
  fileToGenerativePart drawingPdf freshWorld
    = (freshWorld, Return {| base64 := Some "/9j/4AAQ"; mimeType := "image/jpeg" |})
  /\ fileToGenerativePart corruptPdf freshWorld
    = (freshWorld, Throw (Error pdf_conversion_message))
  /\ fileToGenerativePart drawingPng freshWorld
    = (freshWorld, Return {| base64 := Some "iVBORw0KGgo="; mimeType := "image/png" |})
  /\ fileToGenerativePart unreadablePng freshWorld
    = (freshWorld, Throw NotReadableError).
Proof. by vm_compute. Qed.

(** C8 on the four sample files. *)
Lemma fileToGenerativePart_outcomes_witness :
  fileToGenerativePart drawingPdf freshWorld
    = (freshWorld, Return {| base64 := Some "/9j/4AAQ"; mimeType := "image/jpeg" |})
  /\ fileToGenerativePart corruptPdf freshWorld
    = (freshWorld, Throw (Error pdf_conversion_message))
  /\ fileToGenerativePart drawingPng freshWorld
    = (freshWorld, Return {| base64 := Some "iVBORw0KGgo="; mimeType := "image/png" |})
  /\ fileToGenerativePart unreadablePng freshWorld
    = (freshWorld, Throw NotReadableError).
Proof.
  split; [|split; [|split]].
  - exact (proj1 (fileToGenerativePart_outcomes drawingPdf freshWorld) eq_refl).
  - exact (proj1 (fileToGenerativePart_outcomes corruptPdf freshWorld) eq_refl).
  - assert (Hne : file_type drawingPng <> "application/pdf") by (by vm_compute).
    exact (proj2 (fileToGenerativePart_outcomes drawingPng freshWorld) Hne).
  - assert (Hne : file_type unreadablePng <> "application/pdf") by (by vm_compute).
    exact (proj2 (fileToGenerativePart_outcomes unreadablePng freshWorld) Hne).
Defined.

(** C8, counterexample.  An image file whose read fails: the promise is
    rejected with the error event of the reader, it does not resolve. *)
Lemma non_pdf_file_can_reject :
  file_type unreadablePng <> "application/pdf"
  /\ fileToGenerativePart unreadablePng freshWorld
     = (freshWorld, Throw NotReadableError)
  /\ ~ exists part,
        snd (fileToGenerativePart unreadablePng freshWorld) = Return part.
Proof.
  split; [by vm_compute|]. split; [by vm_compute|].
  intros [part Hpart]. by vm_compute in Hpart.
Qed.

(** [handleAnalyze] on the sample platform: a good run, a file that
    cannot be read, a PDF that cannot be converted, a refused key and no
    key at all. *)
Example analyze_runs :
  let outcome (w : World Q) :=
    (appState (app w), errorMsg (app w), analyzeCalls w, length (requests w)) in
  outcome (fst (handleAnalyze drawingPdf config freshWorld))
    = (SUCCESS, None, 1, 1)
  /\ outcome (fst (handleAnalyze unreadablePng config freshWorld))
    = (ERROR, Some default_error_message, 0, 0)
  /\ outcome (fst (handleAnalyze corruptPdf config freshWorld))
    = (ERROR, Some pdf_failure_message, 0, 0)
  /\ outcome (fst (handleAnalyze drawingPng (withApiKey config (Some "bad-key"))
                     freshWorld))
    = (ERROR, Some invalid_key_message, 1, 1)
  /\ outcome (fst (handleAnalyze (H := platformWithoutEnvKey) drawingPng config
                     freshWorld))
    = (ERROR, Some default_error_message, 1, 0).
Proof. by vm_compute. Qed.

(** A good run also saves the estimate in the history. *)
Example analyze_saves :
  entryCount (storedValue (fst (handleAnalyze drawingPdf config freshWorld))) = 1.
Proof. by vm_compute. Qed.
End AnalysisRuns.

(* ================================================================== *)
(** * The same code on binary64 numbers                                 *)
(* ================================================================== *)

Section Binary64Runs.
Import Floats.
Import Binary64.
Import AsciiStrings.
Import Sample64.
Local Open Scope float_scope.

(** [Math.round] on binary64: ties go up, also below zero, and the
    largest number below one half rounds to 0. *)
Example Math_round_samples :
  List.map Math_round [2.5; -2.5; 0x1.fffffffffffffp-2; 1234.5; -3.5]
  = [3; -2; 0; 1235; -3].
Proof. by vm_compute. Qed.

(** [parseFloat] gives the nearest binary64 number. *)
Example parseFloat_samples :
  parseFloat "0.1" = Some 0x1.999999999999ap-4
  /\ parseFloat "2000" = Some 2000
  /\ parseFloat " -1.5e3abc" = Some (-1500)
  /\ parseFloat "1e400" = Some infinity
  /\ parseFloat "abc" = None.
Proof. by vm_compute. Qed.

(** The edit of [edit_rpm_2000], on binary64 numbers: 30 seconds again. *)
Example edit_rpm_2000_binary64 :
  exists r, handleParamChange estimate64 estimate64 0 rpmField "2000" = Edited r
            /\ estimatedTimeSeconds <$> operations r !! 0%nat = Some 30
            /\ totalTimeSeconds r = 30.
Proof. eexists. by vm_compute. Qed.
End Binary64Runs.

(* ================================================================== *)
(** * ResultsView: a session of edits                                   *)
(* ================================================================== *)

Section EditSessions.
Context {num : Type} `{JsNumber num}.
Local Open Scope js_scope.

Lemma setText_numbers (op : MachiningOperation num) field value :
  estimatedTimeSeconds (setText op field value) = estimatedTimeSeconds op
  /\ rpm (setText op field value) = rpm op
  /\ feedRate (setText op field value) = feedRate op
  /\ toolType (setText op field value) = toolType op.
Proof. by destruct field. Qed.

Lemma fmap_insert_same {A B} (f : A -> B) (l : list A) i x y :
  l !! i = Some x -> f y = f x -> f <$> <[i := y]> l = f <$> l.
Proof.
  intros Hl Hf. rewrite list_fmap_insert, Hf.
  apply list_insert_id. by rewrite list_lookup_fmap, Hl.
Qed.

Lemma sumTimes_times (ops ops' : list (MachiningOperation num)) :
  estimatedTimeSeconds <$> ops' = estimatedTimeSeconds <$> ops ->
  sumTimes ops' = sumTimes ops.
Proof.
  unfold sumTimes. generalize (lit 0).
  revert ops'. induction ops as [|op ops IH]; intros [|op' ops'] acc Heq;
    try done.
  simpl in *. injection Heq as Hop Hrest. rewrite Hop. by apply IH.
Qed.

Lemma claimedTotal_times (ops ops' : list (MachiningOperation num)) :
  estimatedTimeSeconds <$> ops' = estimatedTimeSeconds <$> ops ->
  claimedTotal ops' = claimedTotal ops.
Proof.
  intros Heq. unfold claimedTotal.
  assert (Hcounted : forall l : list (MachiningOperation num),
            countedTime <$> l
            = (fun t => if toBoolean t then t else lit 0)
                <$> (estimatedTimeSeconds <$> l)).
  { intros l. rewrite <- list_fmap_compose. by apply list_fmap_ext. }
  by rewrite !Hcounted, Heq.
Qed.

Lemma handleOpTextChange_Edited (localResult localResult' : EstimationResult num)
    index field value :
  handleOpTextChange localResult index field value = Edited localResult' ->
  exists op,
    operations localResult !! index = Some op
    /\ localResult' =
         withOperations localResult
           (<[index := setText op field value]> (operations localResult))
           (totalTimeSeconds localResult).
Proof.
  unfold handleOpTextChange.
  destruct (operations localResult !! index) as [op|]; [|done].
  intros [= <-]. by exists op.
Qed.

Lemma handleParamChange_names result localResult index field value
    (localResult' : EstimationResult num) :
  handleParamChange result localResult index field value = Edited localResult' ->
  name <$> operations localResult' = name <$> operations localResult.
Proof.
  intros Hrun.
  destruct (handleParamChange_Edited _ _ _ _ _ _ Hrun)
    as (originalOp & op & _ & Hop & ->).
  cbn. apply fmap_insert_same with (x := op); [done|].
  unfold recalculate, retime.
  repeat case_match; by destruct field.
Qed.

Lemma same_stock_refl (a : EstimationResult num) : same_stock a a.
Proof. by repeat split. Qed.

Lemma same_stock_trans (a b c : EstimationResult num) :
  same_stock a b -> same_stock b c -> same_stock a c.
Proof.
  intros (?&?&?&?&?&?&?&?) (?&?&?&?&?&?&?&?).
  repeat split; congruence.
Qed.

Lemma applyEdit_same_stock result localResult e
    (localResult' : EstimationResult num) :
  applyEdit result localResult e = Edited localResult' ->
  same_stock localResult' localResult.
Proof.
  destruct e as [index field value|index field value|value|value]; cbn.
  - intros Hrun.
    destruct (handleParamChange_Edited _ _ _ _ _ _ Hrun)
      as (originalOp & op & _ & Hop & ->).
    repeat split; cbn; try done.
    + by rewrite length_insert.
    + apply fmap_insert_same with (x := op); [done|].
      unfold recalculate, retime. repeat case_match; by destruct field.
  - intros Hrun.
    destruct (handleOpTextChange_Edited _ _ _ _ _ Hrun) as (op & Hop & ->).
    repeat split; cbn; try done.
    + by rewrite length_insert.
    + apply fmap_insert_same with (x := op); [done|]. by destruct field.
  - intros [= <-]. by repeat split.
  - intros [= <-]. by repeat split.
Qed.

Lemma applyEdit_text_numbers result localResult e
    (localResult' : EstimationResult num) :
  isParamEdit e = false ->
  applyEdit result localResult e = Edited localResult' ->
  same_numbers localResult' localResult.
Proof.
  destruct e as [index field value|index field value|value|value]; cbn;
    [done| | |]; intros _.
  - intros Hrun.
    destruct (handleOpTextChange_Edited _ _ _ _ _ Hrun) as (op & Hop & ->).
    repeat split; cbn; try done;
      (apply fmap_insert_same with (x := op); [done|]; by destruct field).
  - intros [= <-]. by repeat split.
  - intros [= <-]. by repeat split.
Qed.

Lemma applyEdits_cons result localResult e rest
    (localResult' : EstimationResult num) :
  applyEdits result localResult (e :: rest) = Edited localResult' ->
  exists mid, applyEdit result localResult e = Edited mid
              /\ applyEdits result mid rest = Edited localResult'.
Proof.
  cbn. destruct (applyEdit result localResult e) as [mid| |]; [|done..].
  intros Hrest. by exists mid.
Qed.

(** X1.  Edits of the text boxes (part name, notes, the name and the
    description of an operation) change no number: at the end of any run
    of them the total, and the time, the rpm and the feed of every
    operation are what they were at its start. *)
Theorem text_edits_keep_numbers (result localResult localResult' : EstimationResult num)
    (edits : list Edit) :
  forallb (fun e => negb (isParamEdit e)) edits = true ->
  applyEdits result localResult edits = Edited localResult' ->
  totalTimeSeconds localResult' = totalTimeSeconds localResult
  /\ estimatedTimeSeconds <$> operations localResult'
     = estimatedTimeSeconds <$> operations localResult
  /\ rpm <$> operations localResult' = rpm <$> operations localResult
  /\ feedRate <$> operations localResult' = feedRate <$> operations localResult.
Proof.
  revert localResult. induction edits as [|e rest IH]; intros localResult Hall Hrun.
  - cbn in Hrun. injection Hrun as <-. by repeat split.
  - cbn in Hall. apply andb_prop in Hall as [He Hrest].
    apply applyEdits_cons in Hrun as (mid & Hmid & Hrun).
    apply negb_true_iff in He.
    destruct (applyEdit_text_numbers _ _ _ _ He Hmid) as (?&?&?&?).
    destruct (IH mid Hrest Hrun) as (?&?&?&?).
    repeat split; congruence.
Qed.

(** X2.  No edit of the result page, of a number or of a text, changes
    the material, the stock dimensions, the difficulty, the side mode,
    the number of operations or the tool of an operation. *)
Theorem edits_keep_stock (result localResult localResult' : EstimationResult num)
    (edits : list Edit) :
  applyEdits result localResult edits = Edited localResult' ->
  material localResult' = material localResult
  /\ stockDiameter localResult' = stockDiameter localResult
  /\ stockInnerDiameter localResult' = stockInnerDiameter localResult
  /\ stockLength localResult' = stockLength localResult
  /\ difficultyRating localResult' = difficultyRating localResult
  /\ sideMode localResult' = sideMode localResult
  /\ length (operations localResult') = length (operations localResult)
  /\ toolType <$> operations localResult' = toolType <$> operations localResult.
Proof.
  revert localResult. induction edits as [|e rest IH]; intros localResult Hrun.
  - cbn in Hrun. injection Hrun as <-. by repeat split.
  - apply applyEdits_cons in Hrun as (mid & Hmid & Hrun).
    exact (same_stock_trans _ _ _ (IH mid Hrun) (applyEdit_same_stock _ _ _ _ Hmid)).
Qed.

Lemma applyEdit_total_consistent result localResult e
    (localResult' : EstimationResult num) :
  applyEdit result localResult e = Edited localResult' ->
  total_consistent localResult \/ isParamEdit e = true ->
  total_consistent localResult'.
Proof.
  unfold total_consistent.
  destruct e as [index field value|index field value|value|value]; cbn.
  - intros Hrun _.
    destruct (handleParamChange_Edited _ _ _ _ _ _ Hrun)
      as (originalOp & op & _ & Hop & ->).
    cbn [totalTimeSeconds operations withOperations].
    apply roundTenth_claimedTotal.
  - intros Hrun [Hcons|]; [|done].
    destruct (handleOpTextChange_Edited _ _ _ _ _ Hrun) as (op & Hop & ->).
    cbn [totalTimeSeconds operations withOperations]. rewrite Hcons.
    symmetry. apply claimedTotal_times.
    apply fmap_insert_same with (x := op); [done|]. by destruct field.
  - intros [= <-] [Hcons|]; [|done]. exact Hcons.
  - intros [= <-] [Hcons|]; [|done]. exact Hcons.
Qed.

(** X3.  Once a number has been edited, the total shown is the sum of
    the times shown (added from 0 in list order, a time that is zero or
    NaN counting as 0), rounded to a tenth, and stays so through every
    later edit, of a number or of a text. *)
Theorem edits_total_consistent (result localResult localResult' : EstimationResult num)
    (edits : list Edit) :
  applyEdits result localResult edits = Edited localResult' ->
  total_consistent localResult \/ existsb isParamEdit edits = true ->
  totalTimeSeconds localResult'
  = Math_round (sumInOrder (countedTime <$> operations localResult') * lit 10)
    / lit 10.
Proof.
  change (applyEdits result localResult edits = Edited localResult' ->
          total_consistent localResult \/ existsb isParamEdit edits = true ->
          total_consistent localResult').
  revert localResult. induction edits as [|e rest IH]; intros localResult Hrun Hstart.
  - cbn in Hrun. injection Hrun as <-. by destruct Hstart.
  - apply applyEdits_cons in Hrun as (mid & Hmid & Hrun).
    cbn in Hstart. destruct (isParamEdit e) eqn:He.
    + apply (IH mid Hrun). left.
      apply (applyEdit_total_consistent _ _ _ _ Hmid). by right.
    + apply (IH mid Hrun). destruct Hstart as [Hcons|Hlater].
      * left. apply (applyEdit_total_consistent _ _ _ _ Hmid). by left.
      * by right.
Qed.
End EditSessions.

Section EditOrder.
Context {num : Type} `{JsNumber num}.
Local Open Scope js_scope.

Lemma setParam_same (op : MachiningOperation num) field v :
  match field with rpmField => rpm op | feedRateField => feedRate op end = v ->
  setParam op field v = op.
Proof. destruct op, field; cbn; by intros ->. Qed.

Lemma setParam_field (op : MachiningOperation num) field v :
  match field with
  | rpmField => rpm (setParam op field v)
  | feedRateField => feedRate (setParam op field v)
  end = v.
Proof. by destruct field. Qed.

Lemma retime_twice workFactor (op : MachiningOperation num) :
  retime workFactor (retime workFactor op) = retime workFactor op.
Proof.
  unfold retime at 2.
  destruct (gt (optOrZero (rpm op)) (lit 0) && gt (optOrZero (feedRate op)) (lit 0))
    eqn:Hpos.
  - unfold retime. cbn. by rewrite Hpos.
  - unfold retime. by rewrite Hpos.
Qed.

Lemma recalculate_twice (originalOp op : MachiningOperation num) :
  recalculate originalOp (recalculate originalOp op) = recalculate originalOp op.
Proof.
  unfold recalculate.
  destruct (rpm originalOp) as [rpm0|]; [|done].
  destruct (feedRate originalOp) as [feed0|]; [|done].
  destruct (toBoolean (estimatedTimeSeconds originalOp) && toBoolean rpm0
            && toBoolean feed0); [|done].
  apply retime_twice.
Qed.

Lemma recalculate_field (originalOp op : MachiningOperation num) field :
  match field with
  | rpmField => rpm (recalculate originalOp op)
  | feedRateField => feedRate (recalculate originalOp op)
  end
  = match field with rpmField => rpm op | feedRateField => feedRate op end.
Proof. destruct (recalculate_params originalOp op). by destruct field. Qed.

(** X4.  Typing the value a box already received changes nothing: the
    second of two equal edits of one parameter leaves the state the first
    one made. *)
Theorem handleParamChange_idempotent (result localResult : EstimationResult num)
    (index : nat) (field : ParamField) (value : string) :
  handleParamChanges result localResult
    [(index, field, value); (index, field, value)]
  = handleParamChange result localResult index field value.
Proof.
  cbn.
  destruct (handleParamChange result localResult index field value)
    as [mid| |] eqn:Hfirst; [|done..].
  destruct (handleParamChange_Edited _ _ _ _ _ _ Hfirst)
    as (originalOp & op & Horig & Hop & Hmid).
  cbn in Hmid.
  set (op' := recalculate originalOp (setParam op field (enteredValue value))) in *.
  assert (Hlook : operations mid !! index = Some op').
  { rewrite Hmid. cbn. apply list_lookup_insert_eq.
    by apply lookup_lt_Some in Hop. }
  unfold handleParamChange. rewrite Horig, Hlook.
  rewrite (setParam_same op').
  2:{ unfold op'. rewrite recalculate_field. apply setParam_field. }
  unfold op' at 1 2. rewrite recalculate_twice. fold op'.
  rewrite Hmid. cbn. by rewrite list_insert_insert_eq.
Qed.

(** X5.  Edits of two different operations commute: made in either
    order they leave the same operations and the same total. *)
Theorem handleParamChange_commute (result localResult : EstimationResult num)
    (i j : nat) (fi fj : ParamField) (vi vj : string) :
  i <> j ->
  i < length (operations result) -> j < length (operations result) ->
  same_shape result localResult ->
  exists localResult',
    handleParamChanges result localResult [(i, fi, vi); (j, fj, vj)]
      = Edited localResult'
    /\ handleParamChanges result localResult [(j, fj, vj); (i, fi, vi)]
      = Edited localResult'.
Proof.
  intros Hij Hi Hj Hshape. unfold same_shape in Hshape.
  destruct (lookup_lt_is_Some_2 (operations result) i Hi) as [oi Hoi].
  destruct (lookup_lt_is_Some_2 (operations result) j Hj) as [oj Hoj].
  destruct (lookup_lt_is_Some_2 (operations localResult) i) as [pi Hpi]; [lia|].
  destruct (lookup_lt_is_Some_2 (operations localResult) j) as [pj Hpj]; [lia|].
  unfold handleParamChanges, handleParamChange. rewrite Hoi, Hoj, Hpi, Hpj.
  cbn [operations withOperations].
  rewrite (list_lookup_insert_ne _ i j) by done. rewrite Hpj.
  rewrite (list_lookup_insert_ne _ j i) by done. rewrite Hpi.
  eexists. split; [reflexivity|].
  by rewrite (list_insert_insert_ne _ i j) by done.
Qed.
End EditOrder.

Section EditBuckets.
Context {num : Type} `{JsNumber num} `{JsString}.

Lemma bucketsFrom_names (ops ops' : list (MachiningOperation num)) side2 :
  name <$> ops' = name <$> ops -> bucketsFrom side2 ops' = bucketsFrom side2 ops.
Proof.
  revert ops' side2. induction ops as [|op ops IH]; intros [|op' ops'] side2 Heq;
    try done.
  cbn in Heq. injection Heq as Hname Hrest.
  cbn. unfold bucketOf, nextSide2. rewrite Hname. f_equal. by apply IH.
Qed.

Lemma applyEdit_names result localResult e (localResult' : EstimationResult num) :
  isRename e = false ->
  applyEdit result localResult e = Edited localResult' ->
  name <$> operations localResult' = name <$> operations localResult.
Proof.
  destruct e as [index field value|index field value|value|value]; cbn.
  - intros _. apply handleParamChange_names.
  - intros Hfield Hrun.
    destruct (handleOpTextChange_Edited _ _ _ _ _ Hrun) as (op & Hop & ->).
    cbn. apply fmap_insert_same with (x := op); [done|]. by destruct field.
  - by intros _ [= <-].
  - by intros _ [= <-].
Qed.

(** X6.  Only a change of an operation's name can move an operation
    between L1 and L2: through any run of other edits every operation
    stays in the bucket it was in. *)
Theorem edits_keep_buckets (result localResult localResult' : EstimationResult num)
    (edits : list Edit) :
  forallb (fun e => negb (isRename e)) edits = true ->
  applyEdits result localResult edits = Edited localResult' ->
  buckets (operations localResult') = buckets (operations localResult).
Proof.
  revert localResult. induction edits as [|e rest IH]; intros localResult Hall Hrun.
  - cbn in Hrun. by injection Hrun as <-.
  - cbn in Hall. apply andb_prop in Hall as [He Hrest].
    apply applyEdits_cons in Hrun as (mid & Hmid & Hrun).
    apply negb_true_iff in He.
    rewrite (IH mid Hrest Hrun). unfold buckets. apply bucketsFrom_names.
    by apply (applyEdit_names result localResult e).
Qed.
End EditBuckets.

(* ================================================================== *)
(** * ResultsView: what the page displays                               *)
(* ================================================================== *)

Section DisplayFacts.
Context `{JsString}.
Local Open Scope Q_scope.

(** ** formatTime *)

Lemma Qfloor_ge (x : Q) (k : Z) : inject_Z k <= x -> (k <= Qfloor x)%Z.
Proof. intros Hk. rewrite <- (Qfloor_Z k). by apply Qfloor_resp_le. Qed.

Lemma Qfloor_lt (x : Q) (k : Z) : x < inject_Z k -> (Qfloor x < k)%Z.
Proof.
  intros Hk. rewrite Zlt_Qlt.
  apply Qle_lt_trans with x; [apply Qfloor_le|done].
Qed.

Lemma Qtruncate_nonneg (x : Q) : 0 <= x -> Qtruncate x = Qfloor x.
Proof.
  destruct x as [n d]. unfold Qle, Qtruncate, Qfloor. cbn. intros Hn.
  apply Z.quot_div_nonneg; lia.
Qed.

Lemma Q_rem_60 (seconds : Q) :
  0 <= seconds ->
  Q_rem seconds 60 == seconds - 60 * inject_Z (Qfloor (seconds / 60))
  /\ 0 <= Q_rem seconds 60 < 60.
Proof.
  intros Hs. unfold Q_rem.
  rewrite Qtruncate_nonneg.
  2:{ apply Qle_shift_div_l; lra. }
  split; [reflexivity|].
  pose proof (Qfloor_le (seconds / 60)) as Hlo.
  pose proof (Qlt_floor (seconds / 60)) as Hhi.
  rewrite inject_Z_plus in Hhi. change (inject_Z 1) with 1 in Hhi.
  set (f := inject_Z (Qfloor (seconds / 60))) in *.
  assert (Hdiv : seconds == 60 * (seconds / 60)) by (field; lra).
  split; lra.
Qed.

Lemma Qround_half_up_Z (k : Z) : Qround_half_up (inject_Z k) = inject_Z k.
Proof.
  unfold Qround_half_up. f_equal.
  assert (k <= Qfloor (inject_Z k + (1 # 2)))%Z by (apply Qfloor_ge; lra).
  assert (Qfloor (inject_Z k + (1 # 2)) < k + 1)%Z.
  { apply Qfloor_lt. rewrite inject_Z_plus. change (inject_Z 1) with 1. lra. }
  lia.
Qed.

(** X8.  For a time that is not negative, [formatTime] prints minutes
    that are not negative and seconds between 0 and 60, and the two
    together are within half a second of the time; for a whole number of
    seconds the seconds stay below 60 and the two give the time exactly. *)
Theorem formatTime_parts (seconds : Q) :
  0 <= seconds ->
  let minutes := formatTime_minutes seconds in
  let remainingSeconds := formatTime_remainingSeconds seconds in
  formatTime seconds
  = integerText minutes +:+ minutes_suffix
    +:+ integerText remainingSeconds +:+ seconds_suffix
  /\ 0 <= minutes
  /\ 0 <= remainingSeconds <= 60
  /\ Qabs (60 * minutes + remainingSeconds - seconds) <= 1 # 2
  /\ (forall n : Z, seconds == inject_Z n ->
        remainingSeconds < 60 /\ 60 * minutes + remainingSeconds == seconds).
Proof.
  intros Hs minutes remainingSeconds.
  destruct (Q_rem_60 seconds Hs) as [Hrem [Hlo Hhi]].
  assert (Hmin : 0 <= minutes).
  { unfold minutes, formatTime_minutes, Q_floor.
    change 0 with (inject_Z 0). rewrite <- Zle_Qle.
    apply Qfloor_ge. change (inject_Z 0) with 0. apply Qle_shift_div_l; lra. }
  pose proof (Qround_half_up_close (Q_rem seconds 60)) as [Hr1 Hr2].
  unfold Qround_half_up in Hr1, Hr2.
  assert (Hr0 : (0 <= Qfloor (Q_rem seconds 60 + (1 # 2)))%Z).
  { apply Qfloor_ge. change (inject_Z 0) with 0. lra. }
  assert (Hr60 : (Qfloor (Q_rem seconds 60 + (1 # 2)) < 61)%Z).
  { apply Qfloor_lt. change (inject_Z 61) with 61. lra. }
  split; [reflexivity|]. split; [exact Hmin|].
  subst remainingSeconds.
  change (formatTime_remainingSeconds seconds) with
    (inject_Z (Qfloor (Q_rem seconds 60 + (1 # 2)))).
  set (r := Qfloor (Q_rem seconds 60 + (1 # 2))) in *.
  split.
  { split.
    - change 0 with (inject_Z 0). rewrite <- Zle_Qle. lia.
    - change 60 with (inject_Z 60). rewrite <- Zle_Qle. lia. }
  assert (Hm : 60 * minutes == seconds - Q_rem seconds 60).
  { unfold minutes, formatTime_minutes, Q_floor. rewrite Hrem. ring. }
  split.
  { apply Qabs_Qle_condition. split; lra. }
  intros n Hn.
  assert (Hremn : Q_rem seconds 60 == inject_Z (n mod 60)).
  { rewrite Hrem.
    assert (Hfl : Qfloor (seconds / 60) = (n / 60)%Z).
    { rewrite (Zdiv_Qdiv n 60). apply Qfloor_comp. by rewrite Hn. }
    rewrite Hfl, Hn.
    rewrite (Z.mod_eq n 60) by lia.
    unfold Zminus. rewrite inject_Z_plus, inject_Z_opp, inject_Z_mult.
    change (inject_Z 60) with 60. ring. }
  assert (Hr : r = (n mod 60)%Z).
  { unfold r.
    transitivity (Qfloor (inject_Z (n mod 60) + (1 # 2))).
    - apply Qfloor_comp. by rewrite Hremn.
    - pose proof (Qround_half_up_Z (n mod 60)) as Hz.
      unfold Qround_half_up in Hz.
      apply (f_equal Qfloor) in Hz. by rewrite !Qfloor_Z in Hz. }
  rewrite Hr, <- Hremn. split; lra.
Qed.

(** X9.  The seconds [formatTime] prints are 60, with the minutes not
    carried, exactly when the time lies within half a second below a
    whole minute. *)
Theorem formatTime_sixty_seconds (seconds : Q) :
  0 <= seconds ->
  formatTime_remainingSeconds seconds == 60
  <-> (119 # 2) <= Q_rem seconds 60.
Proof.
  intros Hs.
  destruct (Q_rem_60 seconds Hs) as [_ [Hlo Hhi]].
  change (formatTime_remainingSeconds seconds) with
    (inject_Z (Qfloor (Q_rem seconds 60 + (1 # 2)))).
  pose proof (Qfloor_le (Q_rem seconds 60 + (1 # 2))) as Hfl.
  set (x := Q_rem seconds 60) in *.
  split.
  - intros H60. rewrite H60 in Hfl. lra.
  - intros Hx.
    assert (60 <= Qfloor (x + (1 # 2)))%Z
      by (apply Qfloor_ge; change (inject_Z 60) with 60; lra).
    assert (Qfloor (x + (1 # 2)) < 61)%Z
      by (apply Qfloor_lt; change (inject_Z 61) with 61; lra).
    replace (Qfloor (x + (1 # 2))) with 60%Z by lia. reflexivity.
Qed.

(** ** hasInnerDiameter and the 2D view *)

(** X10.  When the header shows an inner diameter, the 2D view does not
    call the part solid.  The two disagree the other way round, the
    header hiding the bore of a part that the 2D view draws as hollow,
    only for an inner diameter that reads as a negative number. *)
Theorem hasInnerDiameter_not_solid :
  (forall localResult : EstimationResult Q,
      hasInnerDiameter (stockInnerDiameter localResult) = true ->
      isSolid (previewId localResult) = false)
  /\ (forall idVal : string,
        hasInnerDiameter (num := Q) (Some idVal) = false ->
        isSolid (num := Q) idVal = false ->
        exists n : Q,
          parseFloat (trim (replace_mm_end (replace_ID idVal))) = Some n
          /\ n < 0).
Proof.
  split.
  - intros localResult. unfold previewId, hasInnerDiameter, isSolid.
    destruct (stockInnerDiameter localResult) as [s|]; [|done].
    cbn [strTruthy templateText negb].
    destruct (String.eqb s "") eqn:Hs; [done|]. cbn [negb]. rewrite Hs.
    destruct (_ || _); [done|].
    destruct (parseFloat _) as [n|]; [|done].
    intros Hpos. apply Q_gt_spec in Hpos.
    change (lit 0) with 0 in Hpos.
    by rewrite Q_positive_truthy.
  - intros idVal. unfold hasInnerDiameter, isSolid.
    cbn [strTruthy templateText].
    destruct (String.eqb idVal ""); [done|]. cbn [negb].
    destruct (_ || _); [done|].
    destruct (parseFloat _) as [n|]; [|done].
    intros Hnot Htruthy. exists n. split; [done|].
    apply Q_not_positive in Hnot.
    apply negb_false_iff, Q_toBoolean_spec in Htruthy.
    change (lit 0) with 0 in Hnot. lra.
Qed.
End DisplayFacts.

(* ================================================================== *)
(** * EmptyState: the age of a history item                             *)
(* ================================================================== *)

Section EmptyStateFacts.
Local Open Scope Z_scope.

(** X11.  [formatTimeAgo] says "just now" for anything younger than a
    minute, a timestamp in the future included; after that it counts
    whole minutes from 1 to 59, then whole hours from 1 to 23, then whole
    days from 1 on. *)
Theorem formatTimeAgo_ranges (now timestamp : Z) :
  let elapsed := now - timestamp in
  (elapsed < 60000 -> formatTimeAgo now timestamp = just_now_text)
  /\ (60000 <= elapsed < 3600000 ->
      formatTimeAgo now timestamp
      = Z_toString (elapsed / 60000) +:+ minutes_ago_text
      /\ 1 <= elapsed / 60000 <= 59)
  /\ (3600000 <= elapsed < 86400000 ->
      formatTimeAgo now timestamp
      = Z_toString (elapsed / 3600000) +:+ hours_ago_text
      /\ 1 <= elapsed / 3600000 <= 23)
  /\ (86400000 <= elapsed ->
      formatTimeAgo now timestamp
      = Z_toString (elapsed / 86400000) +:+ days_ago_text
      /\ 1 <= elapsed / 86400000).
Proof.
  intros elapsed. unfold formatTimeAgo. fold elapsed.
  rewrite (Z.div_div elapsed 1000 60) by lia.
  rewrite (Z.div_div elapsed (1000 * 60) 60) by lia.
  rewrite (Z.div_div elapsed (1000 * 60 * 60) 24) by lia.
  change (1000 * 60 * 60 * 24) with 86400000.
  change (1000 * 60 * 60) with 3600000.
  change (1000 * 60) with 60000.
  pose proof (Z.div_mod elapsed 1000 ltac:(lia)) as E1.
  pose proof (Z.mod_pos_bound elapsed 1000 ltac:(lia)) as B1.
  pose proof (Z.div_mod elapsed 60000 ltac:(lia)) as E2.
  pose proof (Z.mod_pos_bound elapsed 60000 ltac:(lia)) as B2.
  pose proof (Z.div_mod elapsed 3600000 ltac:(lia)) as E3.
  pose proof (Z.mod_pos_bound elapsed 3600000 ltac:(lia)) as B3.
  pose proof (Z.div_mod elapsed 86400000 ltac:(lia)) as E4.
  pose proof (Z.mod_pos_bound elapsed 86400000 ltac:(lia)) as B4.
  repeat split; try lia.
  - destruct (Z.ltb_spec (elapsed / 1000) 60); [done|lia].
  - destruct (Z.ltb_spec (elapsed / 1000) 60); [lia|].
    destruct (Z.ltb_spec (elapsed / 60000) 60); [done|lia].
  - destruct (Z.ltb_spec (elapsed / 1000) 60); [lia|].
    destruct (Z.ltb_spec (elapsed / 60000) 60); [lia|].
    destruct (Z.ltb_spec (elapsed / 3600000) 24); [done|lia].
  - destruct (Z.ltb_spec (elapsed / 1000) 60); [lia|].
    destruct (Z.ltb_spec (elapsed / 60000) 60); [lia|].
    destruct (Z.ltb_spec (elapsed / 3600000) 24); [lia|done].
Qed.
End EmptyStateFacts.

(* ================================================================== *)
(** * CostAnalysisCard: density, dimensions and weight                  *)
(* ================================================================== *)

Section IncludesFacts.

Lemma prefix_app_l (a b s : string) :
  String.prefix (a +:+ b) s = true -> String.prefix a s = true.
Proof.
  revert s. induction a as [|c a IH]; intros s.
  - by destruct s.
  - change (String c a +:+ b) with (String c (a +:+ b)).
    destruct s as [|d s]; cbn; [done|].
    destruct (ascii_dec c d); [apply IH|done].
Qed.

Lemma includes_cons (kw : string) (b : ascii) (s : string) :
  includes (String b s) kw = String.prefix kw (String b s) || includes s kw.
Proof.
  unfold includes. cbn [String.index].
  destruct (String.prefix kw (String b s)); [done|].
  by destruct (String.index 0 kw s).
Qed.

(** A text that includes a keyword includes every prefix of it. *)
Lemma includes_app_l (a b s : string) :
  includes s (a +:+ b) = true -> includes s a = true.
Proof.
  induction s as [|c s IH].
  - unfold includes. cbn. by destruct a.
  - rewrite !includes_cons. intros Hinc.
    apply orb_true_iff in Hinc as [Hp|Hrest]; apply orb_true_iff.
    + left. by apply prefix_app_l with b.
    + right. by apply IH.
Qed.
End IncludesFacts.

Section DensityFacts.
Context `{JsUpperCase}.
Local Open Scope Q_scope.

Lemma forInOrder_DENSITY_MAP :
  forInOrder (DENSITY_MAP (num := Q))
  = [("1215", decimal 787 100);
     ("S45C", decimal 785 100);
     ("SUS304", decimal 793 100);
     ("SUS316", decimal 798 100);
     ("AL6061", decimal 270 100);
     ("AL7075", decimal 281 100);
     ("SCM440", decimal 785 100);
     ("SCM415", decimal 785 100);
     ("SKD11", decimal 780 100);
     ("C3604", decimal 850 100);
     ("POM", decimal 141 100);
     ("ABS", decimal 105 100);
     ("FC", decimal 720 100);
     ("FCD", decimal 710 100)].
Proof. reflexivity. Qed.

(** The values the detection can give. *)
Lemma detectedDensity_in (material : string) :
  In (detectedDensity material)
    [decimal 787 100; decimal 785 100; decimal 793 100; decimal 798 100;
     decimal 270 100; decimal 281 100; decimal 780 100; decimal 850 100;
     decimal 141 100; decimal 105 100; decimal 720 100;
     decimal 27 10; decimal 85 10; decimal 12 10].
Proof.
  unfold detectedDensity. rewrite forInOrder_DENSITY_MAP.
  set (m := toUpperCase material).
  pose proof (includes_app_l "FC" "D" m) as Hfc.
  change ("FC" +:+ "D") with "FCD" in Hfc.
  cbn [List.find fst].
  destruct (includes m "FC") eqn:Efc.
  { repeat match goal with
           | |- context [if includes m ?k then _ else _] =>
               destruct (includes m k)
           end;
      cbn [In]; tauto. }
  destruct (includes m "FCD") eqn:Efcd.
  { specialize (Hfc eq_refl). congruence. }
  repeat match goal with
         | |- context [includes m ?k] => destruct (includes m k)
         end;
    cbn [orb In]; tauto.
Qed.

Lemma detectedDensity_range (material : string) :
  (105 # 100) <= detectedDensity material <= (85 # 10).
Proof.
  pose proof (detectedDensity_in material) as Hin. cbn [In] in Hin.
  repeat (destruct Hin as [<-|Hin]; [split; by vm_compute|]). done.
Qed.

(** X12.  The density the card detects is never the 7.10 of the FCD
    entry: a material that names FCD names FC, which is tried before it.
    Whatever the material, the density lies between 1.05 and 8.5; and a
    material that names 1215 gets 7.87 whatever else it names, that key
    being the first one the loop visits. *)
Theorem detectedDensity_values (material : string) :
  ~ detectedDensity material == 71 # 10
  /\ (105 # 100) <= detectedDensity material <= (85 # 10)
  /\ (includes (toUpperCase material) "1215" = true ->
      detectedDensity material == 787 # 100).
Proof.
  split; [|split].
  - pose proof (detectedDensity_in material) as Hin. cbn [In] in Hin.
    repeat (destruct Hin as [<-|Hin]; [by vm_compute|]). done.
  - apply detectedDensity_range.
  - intros H1215. unfold detectedDensity. rewrite forInOrder_DENSITY_MAP.
    cbn [List.find fst]. rewrite H1215. by vm_compute.
Qed.
End DensityFacts.

Section DimensionFacts.
Local Open Scope Q_scope.

Lemma stripNonNumeric_head (v : string) c r :
  stripNonNumeric v = String c r -> isDimChar c = true.
Proof.
  induction v as [|d v IH]; [done|]. cbn.
  destruct (isDimChar d) eqn:Hd; [|exact IH].
  by intros [= <- _].
Qed.

Lemma span_digits_all (s : string) : all_digits (fst (span_digits s)) = true.
Proof.
  induction s as [|c s IH]; [done|]. cbn [span_digits].
  destruct (is_digit c) eqn:Hc; [|done].
  destruct (span_digits s) as [d rest]. cbn [fst all_digits] in *.
  by rewrite Hc, IH.
Qed.

Lemma all_digits_app (a b : string) :
  all_digits a = true -> all_digits b = true -> all_digits (a +:+ b) = true.
Proof.
  induction a as [|c a IH]; [done|].
  change (String c a +:+ b) with (String c (a +:+ b)). cbn [all_digits].
  intros [Hc Ha]%andb_prop Hb. by rewrite Hc, IH.
Qed.

Lemma digit_val_nonneg (c : ascii) : is_digit c = true -> (0 <= digit_val c)%Z.
Proof.
  unfold is_digit, digit_val. intros [Hlo _]%andb_prop.
  apply Nat.leb_le in Hlo. lia.
Qed.

Lemma digits_value_from_nonneg (s : string) (acc : Z) :
  all_digits s = true -> (0 <= acc)%Z -> (0 <= digits_value_from acc s)%Z.
Proof.
  revert acc. induction s as [|c s IH]; intros acc; [done|].
  cbn [all_digits digits_value_from].
  intros [Hc Hs]%andb_prop Hacc. apply IH; [done|].
  pose proof (digit_val_nonneg c Hc). lia.
Qed.

Lemma decimal_value_nonneg (d : DecimalLiteral) :
  dl_negative d = false ->
  all_digits (dl_int d) = true -> all_digits (dl_frac d) = true ->
  0 <= decimal_value d.
Proof.
  intros Hneg Hint Hfrac. unfold decimal_value. rewrite Hneg, Qred_correct.
  apply Qmult_le_0_compat.
  - change 0 with (inject_Z 0). rewrite <- Zle_Qle.
    apply digits_value_from_nonneg; [|lia]. by apply all_digits_app.
  - apply Qpower.Qpower_0_le. by vm_compute.
Qed.

Lemma read_decimal_parts (s : string) d :
  read_decimal s = Some d ->
  all_digits (dl_int d) = true /\ all_digits (dl_frac d) = true
  /\ (dl_negative d = true -> exists r, trimStart s = String "-" r).
Proof.
  unfold read_decimal.
  set (signed := match trimStart s with
                 | String "-" r => (true, r)
                 | String "+" r => (false, r)
                 | _ => (false, trimStart s)
                 end).
  assert (Hsign : signed.1 = true -> exists r, trimStart s = String "-" r).
  { unfold signed. destruct (trimStart s) as [|c r]; [done|].
    destruct c as [[] [] [] [] [] [] [] []]; cbn; try done. by exists r. }
  destruct signed as [neg s1]. cbn in Hsign.
  pose proof (span_digits_all s1) as Hip.
  destruct (span_digits s1) as [ip s2]. cbn in Hip.
  set (frac := match s2 with
               | String "." r => span_digits r
               | _ => (EmptyString, s2)
               end).
  assert (Hfp : all_digits frac.1 = true).
  { unfold frac. destruct s2 as [|c r]; [done|].
    destruct c as [[] [] [] [] [] [] [] []]; cbn; try done.
    apply span_digits_all. }
  destruct frac as [fp s3]. cbn in Hfp.
  destruct (String.eqb ip "" && String.eqb fp ""); [done|].
  by intros [= <-].
Qed.

Lemma isDimChar_trimStart c r :
  isDimChar c = true -> trimStart (String c r) = String c r.
Proof.
  destruct c as [[] [] [] [] [] [] [] []]; by cbn.
Qed.

Lemma parseDim_Some_nonneg (v : string) : 0 <= parseDim (Some v).
Proof.
  cbn [parseDim].
  destruct (String.eqb v ""); [done|].
  change (parseFloat (stripNonNumeric v))
    with (decimal_value <$> read_decimal (stripNonNumeric v)).
  destruct (read_decimal (stripNonNumeric v)) as [d|] eqn:Hread; [|done].
  cbn [fmap option_fmap option_map].
  destruct (read_decimal_parts _ _ Hread) as (Hint & Hfrac & Hneg).
  apply decimal_value_nonneg; [|done..].
  destruct (dl_negative d); [|done].
  destruct (Hneg eq_refl) as [r Hr].
  destruct (stripNonNumeric v) as [|c r'] eqn:Hstrip; [done|].
  pose proof (stripNonNumeric_head _ _ _ Hstrip) as Hc.
  rewrite (isDimChar_trimStart _ _ Hc) in Hr.
  injection Hr as -> _. done.
Qed.

(** X13.  A dimension read by the cost card is never negative, whatever
    the text: the minus sign is among the characters it deletes before
    parsing, and a missing or unparsable text reads as 0. *)
Theorem parseDim_nonneg (val : option string) :
  0 <= parseDim val
  /\ (val = None \/ val = Some "" -> parseDim val = 0).
Proof.
  split.
  - destruct val as [v|]; [apply parseDim_Some_nonneg|done].
  - by intros [-> | ->].
Qed.

Lemma weight_value (odStr : string) (idStr : option string) (lengthStr : string)
    (totalTime density rate price : Q) :
  let od := parseDim (Some odStr) in
  let id := parseDim idStr in
  let len := parseDim (Some lengthStr) in
  let c := calculation odStr idStr lengthStr totalTime density rate price in
  weight c == Q_PI * (od * od - id * id) * len * density / 4000000
  /\ materialCost c == weight c * price.
Proof.
  cbn zeta. unfold calculation. cbn [weight materialCost].
  set (od := parseDim (Some odStr)). set (id := parseDim idStr).
  set (len := parseDim (Some lengthStr)).
  change (@mul Q _) with Qmult. change (@div Q _) with Qdiv.
  change (@sub Q _) with Qminus. change (@Math_pow Q _) with Qpower.
  change (@Math_PI Q _) with Q_PI. change (@lit Q _) with inject_Z.
  change (inject_Z 2) with 2. change (inject_Z 1000) with 1000.
  split; [|reflexivity].
  change ((od / 2) ^ 2) with ((od / 2) * (od / 2)).
  change ((id / 2) ^ 2) with ((id / 2) * (id / 2)).
  field.
Qed.

Lemma weight_nonneg (odStr : string) (idStr : option string) (lengthStr : string)
    (totalTime density rate price : Q) :
  parseDim idStr <= parseDim (Some odStr) -> 0 <= density ->
  0 <= weight (calculation odStr idStr lengthStr totalTime density rate price).
Proof.
  intros Hle Hd.
  destruct (weight_value odStr idStr lengthStr totalTime density rate price)
    as [Hw _].
  rewrite Hw.
  pose proof (parseDim_Some_nonneg odStr) as Hod.
  pose proof (parseDim_Some_nonneg lengthStr) as Hlen.
  assert (Hid : 0 <= parseDim idStr).
  { destruct idStr as [v|]; [apply parseDim_Some_nonneg|done]. }
  assert (Hpi : 0 < Q_PI) by (by vm_compute).
  apply Qle_shift_div_l; [lra|]. rewrite Qmult_0_l.
  repeat apply Qmult_le_0_compat; try lra. nra.
Qed.

(** X14.  The weight is not negative when the inner diameter read is at
    most the outer one and the density is not negative; when the inner
    diameter read exceeds the outer one, the card shows a negative weight
    and, at a positive price, a negative material cost. *)
Theorem weight_sign (odStr : string) (idStr : option string) (lengthStr : string)
    (totalTime density rate price : Q) :
  let od := parseDim (Some odStr) in
  let id := parseDim idStr in
  let len := parseDim (Some lengthStr) in
  let c := calculation odStr idStr lengthStr totalTime density rate price in
  (id <= od -> 0 <= density -> 0 <= weight c)
  /\ (od < id -> 0 < len -> 0 < density ->
      weight c < 0 /\ (0 < price -> materialCost c < 0)).
Proof.
  intros od id len c. split; [apply weight_nonneg|].
  destruct (weight_value odStr idStr lengthStr totalTime density rate price)
    as [Hw Hm].
  fold od id len c in Hw, Hm.
  pose proof (parseDim_Some_nonneg odStr) as Hod. fold od in Hod.
  assert (Hpi : 0 < Q_PI) by (by vm_compute).
  intros Hlt Hl Hd.
  assert (Hneg : weight c < 0).
  { rewrite Hw. apply Qlt_shift_div_r; [lra|]. rewrite Qmult_0_l.
    assert (Hsq : od * od - id * id < 0) by nra.
    assert (0 < Q_PI * len * density).
    { repeat apply Qmult_lt_0_compat; lra. }
    assert (Hre : Q_PI * (od * od - id * id) * len * density
                  == (Q_PI * len * density) * (od * od - id * id)) by ring.
    rewrite Hre. nra. }
  split; [exact Hneg|]. intros Hp. rewrite Hm. nra.
Qed.
End DimensionFacts.

Section ImageSizeFacts.
#[local] Existing Instance Binary64.float_JsNumber.

(** No binary64 number is below itself. *)
Lemma float_ltb_irrefl (x : PrimFloat.float) : PrimFloat.ltb x x = false.
Proof.
  rewrite FloatAxioms.ltb_spec. unfold SpecFloat.SFltb.
  destruct (FloatOps.Prim2SF x) as [s|s| |s m e]; cbn.
  - by destruct s.
  - by destruct s.
  - done.
  - destruct s;
      by rewrite Z.compare_refl, ?Pos.compare_cont_refl, ?Pos.compare_refl.
Qed.

Lemma scaledSize_cases {num : Type} `{JsNumber num} (width height maxWidth : num) :
  (gt width maxWidth = false ->
   scaledSize width height maxWidth = (width, height))
  /\ (gt width maxWidth = true ->
      scaledSize width height maxWidth
      = (maxWidth, div (mul height maxWidth) width)).
Proof. unfold scaledSize. by split; intros ->. Qed.

End ImageSizeFacts.
(* ================================================================== *)
(** * storageService: calls in sequence                                 *)
(* ================================================================== *)

Section StorageRuns.
Context {num : Type} `{Platform num}.

(** X16.  [clearHistory] leaves no history behind: [getHistory] then
    returns the empty list.  It is the one function of the service that
    has no [try]: where the others swallow the failure, it throws when
    storage cannot be used. *)
Theorem clearHistory_run (w : World num) :
  (storageEnabled w = true ->
   let w' := fst (clearHistory w) in
   snd (clearHistory w) = Return ()
   /\ localStorage w' !! STORAGE_KEY = None
   /\ getHistory w' = (w', Return (VArray [])))
  /\ (storageEnabled w = false ->
      clearHistory w = (w, Throw SecurityError)
      /\ getHistory w = (w, Return (VArray []))
      /\ forall id, deleteHistoryItem id w = (w, Return (VArray []))).
Proof.
  unfold clearHistory, localStorage_removeItem. split; intros Hen; rewrite Hen.
  - cbn [fst snd]. split; [done|].
    split; [cbn; apply lookup_delete_eq|].
    rewrite getHistory_stored. unfold storedValue.
    cbn [storageEnabled setStorage localStorage].
    by rewrite Hen, lookup_delete_eq.
  - assert (Hv : storedValue w = VArray []).
    { unfold storedValue. by rewrite Hen. }
    split; [done|]. split.
    + by rewrite getHistory_stored, Hv.
    + intros id. by rewrite deleteHistoryItem_run, Hv, Hen.
Qed.

Lemma filter_all {A} (P : A -> Prop) `{forall x, Decision (P x)} (l : list A) :
  Forall P l -> filter P l = l.
Proof.
  induction 1 as [|x l Hx Hl IH]; [done|].
  rewrite filter_cons. destruct (decide (P x)); [|done]. by rewrite IH.
Qed.

(** What the filter of the code returns has no [null] entry and no entry
    with the id, so that filtering it again changes nothing. *)
Lemma existing_filter_again (id : string) (w : World num) updated :
  existing_filter id (storedValue w) = Return updated ->
  existing_filter id (VArray updated) = Return updated.
Proof.
  intros Hfilter.
  destruct (storedEntries w) as [entries|] eqn:Hentries.
  - destruct (existing_filter_entries id w entries Hentries) as [Hv Hf].
    rewrite Hf in Hfilter. injection Hfilter as <-.
    assert (Hnull : existsb isNull entries = false).
    { unfold storedEntries in Hentries. rewrite Hv in Hentries.
      by destruct (existsb isNull entries). }
    cbn [existing_filter]. rewrite Array_filter_idDiffers.
    + f_equal. apply filter_all. apply Forall_forall.
      by intros entry [Hid _]%list_elem_of_filter.
    + apply not_true_is_false. intros (entry & Hin & Hentry)%existsb_exists.
      apply list_elem_of_In, list_elem_of_filter in Hin as [_ Hin].
      apply list_elem_of_In in Hin.
      assert (Hex : existsb isNull entries = true).
      { apply existsb_exists. eauto. }
      congruence.
  - destruct (existing_filter_none id w Hentries) as [e He]. congruence.
Qed.

Lemma deleteHistoryItem_idempotent (id : string) (w : World num) :
  deleteHistoryItem id (fst (deleteHistoryItem id w))
  = (fst (deleteHistoryItem id w), snd (deleteHistoryItem id w)).
Proof.
  rewrite (deleteHistoryItem_run id w).
  destruct (existing_filter id (storedValue w)) as [updated|e] eqn:Hfilter.
  - destruct (storageEnabled w) eqn:Hen.
    + destruct (quotaAllows (JsonText (VArray updated))) eqn:Hq; cbn [andb fst snd].
      * rewrite deleteHistoryItem_run, storedValue_written by done.
        rewrite (existing_filter_again id w updated Hfilter).
        cbn [storageEnabled setStorage localStorage].
        by rewrite Hen, Hq, insert_insert_eq.
      * by rewrite deleteHistoryItem_run, Hfilter, Hen, Hq.
    + cbn [andb fst snd]. by rewrite deleteHistoryItem_run, Hfilter, Hen.
  - cbn [fst snd]. by rewrite deleteHistoryItem_run, Hfilter.
Qed.

(** X17.  Deleting an item a second time changes nothing: the second
    call returns what the first one returned and leaves the storage as
    the first one left it, whatever is stored.  Where the stored value is
    an array without a [null] entry (no text and a text that is not JSON
    count as the empty array) and storage takes the new text, both calls
    return that array without the entries of the id. *)
Theorem deleteHistoryItem_twice (id : string) (w : World num) :
  let w1 := fst (deleteHistoryItem id w) in
  deleteHistoryItem id w1 = (w1, snd (deleteHistoryItem id w))
  /\ (forall entries,
        storedValue w = VArray entries -> existsb isNull entries = false ->
        let updated := filter (fun entry => hasId id entry = false) entries in
        storageEnabled w = true ->
        quotaAllows (JsonText (VArray updated)) = true ->
        snd (deleteHistoryItem id w) = Return (VArray updated)
        /\ deleteHistoryItem id w1 = (w1, Return (VArray updated))).
Proof.
  intros w1. subst w1. split; [apply deleteHistoryItem_idempotent|].
  intros entries Hv Hnull updated Hen Hq.
  assert (Hentries : storedEntries w = Some entries).
  { unfold storedEntries. by rewrite Hv, Hnull. }
  destruct (existing_filter_entries id w entries Hentries) as [_ Hf].
  assert (Hfirst : snd (deleteHistoryItem id w) = Return (VArray updated)).
  { rewrite deleteHistoryItem_run, Hf. fold updated. by rewrite Hen, Hq. }
  split; [exact Hfirst|].
  by rewrite deleteHistoryItem_idempotent, Hfirst.
Qed.

(** X18.  Saving an estimate and then deleting the item just saved
    gives back the first nine entries of the list that was stored before
    (the stored array; the empty list for no text and for a text that is
    not JSON), when none of them is [null] or has the id of the new item:
    a history of fewer than ten entries is restored, the tenth entry of a
    full one is lost. *)
Theorem save_then_delete result config image (w : World num)
    (previous : list (JsValue num)) :
  let newItem := itemToSave result config image w in
  let saved := take MAX_ITEMS (VItem newItem :: previous) in
  readsAsList (storedValue w) previous ->
  storageEnabled w = true ->
  quotaAllows (JsonText (VArray saved)) = true ->
  quotaAllows (JsonText (VArray (take 9 previous))) = true ->
  Forall (fun entry => isNull entry = false
                       /\ hasId (HistoryItem.id newItem) entry = false)
    previous ->
  let w1 := fst (saveHistoryItem result config image w) in
  let w2 := fst (deleteHistoryItem (HistoryItem.id newItem) w1) in
  storedValue w1 = VArray saved
  /\ snd (deleteHistoryItem (HistoryItem.id newItem) w1)
     = Return (VArray (take 9 previous))
  /\ storedValue w2 = VArray (take 9 previous)
  /\ (length previous < 10 -> storedValue w2 = VArray previous).
Proof.
  intros newItem saved Hlist Hen Hq Hq' Hfresh w1 w2.
  assert (Hw1 : w1 = setStorage (afterReadings w)
                       (<[STORAGE_KEY := JsonText (VArray saved)]> (localStorage w))).
  { unfold w1. rewrite saveHistoryItem_run.
    apply spread_readsAsList in Hlist. rewrite Hlist. cbv zeta.
    fold newItem. fold saved. by rewrite Hen, Hq. }
  assert (Hs1 : storedValue w1 = VArray saved).
  { rewrite Hw1. by apply (storedValue_written (afterReadings w)). }
  assert (Hkeep : Forall (fun entry => hasId (HistoryItem.id newItem) entry = false)
                    (take 9 previous)).
  { apply Forall_take. eapply Forall_impl; [exact Hfresh|]. by intros entry [_ ?]. }
  assert (Hfilter : filter (fun entry => hasId (HistoryItem.id newItem) entry = false)
                      saved
                    = take 9 previous).
  { unfold saved, MAX_ITEMS. cbn [take]. rewrite filter_cons.
    destruct (decide (hasId (HistoryItem.id newItem) (VItem newItem) = false))
      as [Hid|_].
    - cbn in Hid. by rewrite String.eqb_refl in Hid.
    - by apply filter_all. }
  assert (Hnull : existsb isNull saved = false).
  { unfold saved, MAX_ITEMS. cbn [take existsb isNull orb].
    apply not_true_is_false. intros (entry & Hin & Hentry)%existsb_exists.
    apply list_elem_of_In, elem_of_take in Hin as (i & Hin & _).
    apply list_elem_of_lookup_2 in Hin.
    rewrite Forall_forall in Hfresh. destruct (Hfresh entry Hin). congruence. }
  assert (Hen1 : storageEnabled w1 = true) by (by rewrite Hw1).
  assert (Hdel : deleteHistoryItem (HistoryItem.id newItem) w1
                 = (setStorage w1 (<[STORAGE_KEY := JsonText (VArray (take 9 previous))]>
                                     (localStorage w1)),
                    Return (VArray (take 9 previous)))).
  { rewrite deleteHistoryItem_run, Hs1. cbn [existing_filter].
    rewrite Array_filter_idDiffers by done.
    by rewrite Hfilter, Hen1, Hq'. }
  split; [exact Hs1|]. split; [by rewrite Hdel|].
  assert (Hs2 : storedValue w2 = VArray (take 9 previous)).
  { unfold w2. rewrite Hdel. cbn [fst]. by apply storedValue_written. }
  split; [exact Hs2|].
  intros Hlen. rewrite Hs2. f_equal. apply take_ge. lia.
Qed.
End StorageRuns.

(* ================================================================== *)
(** * geminiService and App: keys, failures and the history             *)
(* ================================================================== *)

Section KeyFacts.
Context {num : Type} `{Platform num} `{JsString}.

Lemma strTruthy_text (s : option string) :
  strTruthy s = true -> templateText s <> "".
Proof.
  destruct s as [v|]; [|done]. cbn.
  by destruct (String.eqb_spec v "").
Qed.

Lemma getEnvApiKey_empty_iff :
  getEnvApiKey = ""
  <-> strTruthy import_meta_env_VITE_API_KEY = false
      /\ strTruthy process_env_VITE_API_KEY = false
      /\ strTruthy process_env_REACT_APP_API_KEY = false
      /\ strTruthy process_env_API_KEY = false
      /\ strTruthy window_API_KEY = false.
Proof.
  split.
  - unfold getEnvApiKey.
    destruct (strTruthy import_meta_env_VITE_API_KEY) eqn:E1;
      [by intros ?%strTruthy_text|].
    destruct (strTruthy process_env_VITE_API_KEY) eqn:E2;
      [by intros ?%strTruthy_text|].
    destruct (strTruthy process_env_REACT_APP_API_KEY) eqn:E3;
      [by intros ?%strTruthy_text|].
    destruct (strTruthy process_env_API_KEY) eqn:E4;
      [by intros ?%strTruthy_text|].
    destruct (strTruthy window_API_KEY) eqn:E5;
      [by intros ?%strTruthy_text|].
    done.
  - intros (?&?&?&?&?). by apply getEnvApiKey_none.
Qed.

(** X19.  [analyzeBlueprint] finds no key exactly when the key of the
    form is absent or blank and each of the five places of the
    environment is undefined or empty; in every other case it calls the
    service, once, with a key that is not empty. *)
Theorem effectiveApiKey_empty_iff (base64Image : option string)
    (mimeType : string) (config : AnalysisConfig.t) (w : World num) :
  (effectiveApiKey config = ""
   <-> strTruthy (trim <$> AnalysisConfig.apiKey config) = false
       /\ strTruthy import_meta_env_VITE_API_KEY = false
       /\ strTruthy process_env_VITE_API_KEY = false
       /\ strTruthy process_env_REACT_APP_API_KEY = false
       /\ strTruthy process_env_API_KEY = false
       /\ strTruthy window_API_KEY = false)
  /\ (effectiveApiKey config <> "" ->
      exists req,
        requests (fst (analyzeBlueprint base64Image mimeType config w))
        = req :: requests w
        /\ req_apiKey req = effectiveApiKey config
        /\ req_apiKey req <> "").
Proof.
  split.
  - unfold effectiveApiKey.
    destruct (strTruthy (trim <$> AnalysisConfig.apiKey config)) eqn:Hform.
    + split; [by intros ?%strTruthy_text|]. by intros [? _].
    + rewrite getEnvApiKey_empty_iff. tauto.
  - intros Hkey. eexists. split.
    + by rewrite analyzeBlueprint_with_key.
    + done.
Qed.

Lemma analyzeBlueprint_split base64Image mimeType config (w w0 : World num) :
  analyzeBlueprint base64Image mimeType config w
  = (logged w base64Image mimeType config,
     snd (analyzeBlueprint base64Image mimeType config w0)).
Proof.
  unfold analyzeBlueprint, logged, requestOf.
  destruct (String.eqb (effectiveApiKey config) "").
  - unfold throw. cbn. by destruct w.
  - unfold tryCatch, bind, ai_models_generateContent.
    destruct (generateContent _) as [response|e]; [|done].
    destruct (strTruthy response); [|done].
    unfold answer. by destruct (JSON_parse _).
Qed.
End KeyFacts.

Section AnalyzeRuns.
Context {num : Type} `{Platform num} `{JsString}.

(** [handleAnalyze], by the outcome of the file conversion and of the
    analysis. *)
Lemma handleAnalyze_outcome file config (w : World num) :
  handleAnalyze file config w =
    match snd (fileToGenerativePart file w) with
    | Throw e =>
        (setApp w {| appState := ERROR; result := result (app w);
                     errorMsg := Some (errorMessageFor e);
                     previewImage := previewImage (app w) |}, Return ())
    | Return part =>
        let w3 := logged w (base64 part) (mimeType part) config in
        match snd (analyzeBlueprint (base64 part) (mimeType part) config w) with
        | Throw e =>
            (setApp w3 {| appState := ERROR; result := result (app w);
                          errorMsg := Some (errorMessageFor e);
                          previewImage := Some (fullDataUrl part) |}, Return ())
        | Return data =>
            saveHistoryItem data config (fullDataUrl part)
              (setApp w3 {| appState := SUCCESS; result := Some data;
                            errorMsg := None;
                            previewImage := Some (fullDataUrl part) |})
        end
    end.
Proof.
  rewrite handleAnalyze_run. unfold tryCatch.
  rewrite handleAnalyze_try_run.
  rewrite (fileToGenerativePart_any_world file (analyzing w) w).
  destruct (snd (fileToGenerativePart file w)) as [part|e].
  2:{ by destruct w. }
  cbv zeta. fold (fullDataUrl part).
  unfold bind at 1. unfold setPreviewImage at 1.
  unfold bind at 1.
  rewrite (analyzeBlueprint_split _ _ _ _ w).
  destruct (snd (analyzeBlueprint (base64 part) (mimeType part) config w))
    as [data|e].
  - unfold bind at 1. unfold setResult at 1.
    unfold bind at 1. unfold setAppState at 1.
    match goal with
    | |- match saveHistoryItem _ _ _ ?a with _ => _ end
         = saveHistoryItem _ _ _ ?b =>
        replace a with b by (by destruct w)
    end.
    destruct (saveHistoryItem_quiet data config (fullDataUrl part)
                (setApp (logged w (base64 part) (mimeType part) config)
                   {| appState := SUCCESS; result := Some data;
                      errorMsg := None;
                      previewImage := Some (fullDataUrl part) |}))
      as (w6 & -> & _). done.
  - by destruct w.
Qed.

(** The conversion of the code ends as the platform says. *)
Lemma fileToGenerativePart_conversion (file : File) (w : World num) :
  fileToGenerativePart file w = (w, conversionOutcome file).
Proof.
  unfold fileToGenerativePart, conversionOutcome.
  destruct (String.eqb (file_type file) "application/pdf").
  - unfold tryCatch. rewrite pdfToJpeg_run.
    by destruct (renderFirstPageJpeg file).
  - by destruct (readAsDataURL file).
Qed.

(** So does the analysis. *)
Lemma analyzeBlueprint_analysis (part : GenerativePart)
    (config : AnalysisConfig.t) (w : World num) :
  snd (analyzeBlueprint (base64 part) (mimeType part) config w)
  = analysisOutcome part config.
Proof.
  unfold analyzeBlueprint, analysisOutcome, requestOf.
  destruct (String.eqb (effectiveApiKey config) ""); [done|].
  unfold tryCatch, bind, ai_models_generateContent.
  destruct (generateContent _) as [response|e]; [|done].
  destruct (strTruthy response); [|done].
  unfold answer. by destruct (JSON_parse _).
Qed.

(** C9.  A call of [handleAnalyze] never throws.  It calls
    [analyzeBlueprint] at most once and sends at most one
    [generateContent] request.  When the file conversion fails (the read
    of an image fails, a PDF cannot be rendered), there is no call and no
    request, and the App ends in the [ERROR] state with the message for
    the error of the conversion.  When it succeeds there is one call,
    with one request when a key is available and none when there is no
    key; when the analysis then fails (no key, a rejected request, an
    answer without text or one that does not parse) the App ends in
    [ERROR] with the message for that error, and nothing is tried again;
    when it succeeds the App ends in [SUCCESS] with the estimate and no
    message.  What fails and what succeeds is read off the platform
    ([conversionOutcome], [analysisOutcome]), not off the handler. *)
Theorem handleAnalyze_single_call (file : File) (config : AnalysisConfig.t)
    (w : World num) :
  let w' := fst (handleAnalyze file config w) in
  snd (handleAnalyze file config w) = Return ()
  /\ analyzeCalls w' <= S (analyzeCalls w)
  /\ length (requests w') <= S (length (requests w))
  /\ match conversionOutcome file with
     | Throw e =>
         analyzeCalls w' = analyzeCalls w /\ requests w' = requests w
         /\ appState (app w') = ERROR
         /\ errorMsg (app w') = Some (errorMessageFor e)
     | Return part =>
         analyzeCalls w' = S (analyzeCalls w)
         /\ requests w' =
              (if String.eqb (effectiveApiKey config) "" then requests w
               else requestOf (base64 part) (mimeType part) config :: requests w)
         /\ match analysisOutcome part config with
            | Throw e =>
                appState (app w') = ERROR
                /\ errorMsg (app w') = Some (errorMessageFor e)
            | Return data =>
                appState (app w') = SUCCESS
                /\ errorMsg (app w') = None
                /\ result (app w') = Some data
            end
     end.
Proof.
  cbv zeta. rewrite handleAnalyze_outcome, fileToGenerativePart_conversion.
  cbn [snd].
  destruct (conversionOutcome file) as [part|e].
  2:{ cbn. repeat split; lia. }
  cbv zeta. rewrite analyzeBlueprint_analysis.
  assert (Hlen : length (if String.eqb (effectiveApiKey config) "" then requests w
                         else requestOf (base64 part) (mimeType part) config
                              :: requests w)
                 <= S (length (requests w))).
  { destruct (String.eqb (effectiveApiKey config) ""); simpl; lia. }
  destruct (analysisOutcome part config) as [data|e].
  - match goal with
    | |- context [saveHistoryItem ?r ?c ?i ?a] =>
        destruct (saveHistoryItem_quiet r c i a) as (w6 & -> & Hc6 & Hr6 & Ha6)
    end.
    cbn [fst snd]. rewrite Hc6, Hr6, Ha6. cbn. by repeat split.
  - cbn. by repeat split.
Qed.

Lemma errorMessageFor_known (e : JsError) :
  errorMessageFor e ∈ [invalid_key_message; overloaded_message;
                       pdf_failure_message; default_error_message].
Proof.
  unfold errorMessageFor.
  destruct (_ || _); [set_solver|].
  destruct (_ || _); [set_solver|].
  destruct (includes _ _); set_solver.
Qed.

Lemma handleEvent_coherent (e : AppEvent num) (w : World num) :
  app_coherent (app (afterEvent w e)).
Proof.
  unfold afterEvent. destruct e as [file config|item|]; cbn [handleEvent].
  - rewrite handleAnalyze_outcome.
    destruct (snd (fileToGenerativePart file w)) as [part|e].
    2:{ cbn. repeat split; try done. intros _. eexists. split; [done|].
        apply errorMessageFor_known. }
    cbv zeta.
    destruct (snd (analyzeBlueprint (base64 part) (mimeType part) config w))
      as [data|e].
    + match goal with
      | |- app_coherent (app (fst (saveHistoryItem ?r ?c ?i ?a))) =>
          destruct (saveHistoryItem_quiet r c i a) as (w6 & -> & _ & _ & Happ)
      end.
      cbn [fst]. rewrite Happ.
      cbn. repeat split; try done. intros _. by eexists.
    + cbn. repeat split; try done. intros _. eexists. split; [done|].
      apply errorMessageFor_known.
  - cbn. repeat split; try done. intros _. by eexists.
  - cbn. repeat split; done.
Qed.


(** X21.  When no key is available, the analysis of any file that can
    be read ends with the message for an unclear image, not with the one
    about the key: the text of the error thrown holds neither "API key"
    nor a status code.  No request is sent and nothing is stored. *)
Theorem handleAnalyze_missing_key (file : File) (config : AnalysisConfig.t)
    (part : GenerativePart) (w : World num) :
  snd (fileToGenerativePart file w) = Return part ->
  effectiveApiKey config = "" ->
  let w' := fst (handleAnalyze file config w) in
  appState (app w') = ERROR
  /\ errorMsg (app w') = Some default_error_message
  /\ errorMsg (app w') <> Some invalid_key_message
  /\ requests w' = requests w
  /\ localStorage w' = localStorage w.
Proof.
  intros Hpart Hkey. cbv zeta.
  rewrite handleAnalyze_outcome, Hpart. cbv zeta.
  rewrite (analyzeBlueprint_no_key _ _ _ _ Hkey). cbn [snd fst].
  unfold logged. rewrite Hkey. cbn. by repeat split.
Qed.

(** X22.  When the first page of a PDF file cannot be rendered, the
    analysis ends with the message about PDF processing; the service is
    not called, and the result, the preview image and the stored history
    stay as they were. *)
Theorem handleAnalyze_pdf_failure (file : File) (config : AnalysisConfig.t)
    (e : JsError) (w : World num) :
  file_type file = "application/pdf" ->
  renderFirstPageJpeg file = Throw e ->
  let w' := fst (handleAnalyze file config w) in
  appState (app w') = ERROR
  /\ errorMsg (app w') = Some pdf_failure_message
  /\ result (app w') = result (app w)
  /\ previewImage (app w') = previewImage (app w)
  /\ analyzeCalls w' = analyzeCalls w
  /\ requests w' = requests w
  /\ localStorage w' = localStorage w.
Proof.
  intros Htype Hrender. cbv zeta.
  rewrite handleAnalyze_outcome.
  assert (Hpart : snd (fileToGenerativePart file w)
                  = Throw (Error pdf_conversion_message)).
  { unfold fileToGenerativePart. rewrite Htype, String.eqb_refl.
    unfold tryCatch. by rewrite pdfToJpeg_run, Hrender. }
  rewrite Hpart. cbn. by repeat split.
Qed.

Lemma includes_comma_cons (c : ascii) (s : string) :
  includes (String c s) "," = Ascii.eqb c "," || includes s ",".
Proof.
  rewrite includes_cons. f_equal.
  change (String.prefix "," (String c s))
    with (if ascii_dec "," c then String.prefix "" s else false).
  destruct (ascii_dec "," c) as [<-|Hne]; [by destruct s|].
  symmetry. apply Ascii.eqb_neq. congruence.
Qed.

Lemma upToComma_no_comma (p : string) :
  includes p "," = false -> upToComma p = p.
Proof.
  induction p as [|c p IH]; [done|].
  rewrite includes_comma_cons. intros [Hc Hp]%orb_false_elim.
  cbn [upToComma]. by rewrite Hc, (IH Hp).
Qed.

Lemma splitCommaSecond_skip (a rest : string) :
  includes a "," = false ->
  splitCommaSecond (a +:+ rest) = splitCommaSecond rest.
Proof.
  induction a as [|c a IH]; [done|].
  rewrite includes_comma_cons. intros [Hc Ha]%orb_false_elim.
  change (String c a +:+ rest) with (String c (a +:+ rest)).
  cbn [splitCommaSecond]. by rewrite Hc, (IH Ha).
Qed.

Lemma splitCommaSecond_none (url : string) :
  includes url "," = false -> splitCommaSecond url = None.
Proof.
  induction url as [|c url IH]; [done|].
  rewrite includes_comma_cons. intros [Hc Hu]%orb_false_elim.
  cbn [splitCommaSecond]. by rewrite Hc, (IH Hu).
Qed.

(** X23.  For an image file whose data URL has the usual form, the file
    type and a base64 payload, neither holding a comma, [handleAnalyze]
    rebuilds that very URL as the preview image and sends the payload;
    this whether the analysis then succeeds or fails.  For a data URL
    without a comma the payload is undefined, and the preview URL ends in
    the text "undefined". *)
Theorem handleAnalyze_preview (file : File) (config : AnalysisConfig.t)
    (w : World num) :
  file_type file <> "application/pdf" ->
  let w' := fst (handleAnalyze file config w) in
  (forall payload,
      readAsDataURL file
      = Return ("data:" +:+ file_type file +:+ ";base64," +:+ payload) ->
      includes (file_type file) "," = false ->
      includes payload "," = false ->
      previewImage (app w')
      = Some ("data:" +:+ file_type file +:+ ";base64," +:+ payload)
      /\ snd (fileToGenerativePart file w)
         = Return {| base64 := Some payload; mimeType := file_type file |})
  /\ (forall url,
        readAsDataURL file = Return url ->
        includes url "," = false ->
        previewImage (app w')
        = Some ("data:" +:+ file_type file +:+ ";base64,undefined")).
Proof.
  intros Htype. cbv zeta.
  assert (Hconv : forall url, readAsDataURL file = Return url ->
            snd (fileToGenerativePart file w)
            = Return {| base64 := splitCommaSecond url;
                        mimeType := file_type file |}).
  { intros url Hurl. unfold fileToGenerativePart.
    destruct (String.eqb_spec (file_type file) "application/pdf"); [done|].
    by rewrite Hurl. }
  assert (Hprev : forall part,
            snd (fileToGenerativePart file w) = Return part ->
            previewImage (app (fst (handleAnalyze file config w)))
            = Some (fullDataUrl part)).
  { intros part Hpart. rewrite handleAnalyze_outcome, Hpart. cbv zeta.
    destruct (snd (analyzeBlueprint _ _ _ _)) as [data|e]; [|done].
    match goal with
    | |- context [saveHistoryItem ?r ?c ?i ?a] =>
        destruct (saveHistoryItem_quiet r c i a) as (w6 & -> & _ & _ & Happ)
    end.
    cbn [fst]. by rewrite Happ. }
  split.
  - intros payload Hurl Hty Hpay.
    assert (Hsplit : splitCommaSecond
                       ("data:" +:+ file_type file +:+ ";base64," +:+ payload)
                     = Some payload).
    { rewrite (splitCommaSecond_skip "data:") by done.
      rewrite (splitCommaSecond_skip (file_type file)) by done.
      change (";base64," +:+ payload) with (";base64" +:+ String "," payload).
      rewrite (splitCommaSecond_skip ";base64") by done.
      cbn [splitCommaSecond]. change (Ascii.eqb "," ",") with true.
      by rewrite (upToComma_no_comma payload Hpay). }
    rewrite (Hprev _ (Hconv _ Hurl)). rewrite (Hconv _ Hurl), Hsplit. done.
  - intros url Hurl Hno.
    rewrite (Hprev _ (Hconv _ Hurl)). unfold fullDataUrl. cbn [base64 mimeType].
    assert (Hnone : splitCommaSecond url = None)
      by (by apply splitCommaSecond_none).
    by rewrite Hnone.
Qed.
End AnalyzeRuns.

Section HistoryRoundTrip.
Context {num : Type} `{Platform num} `{JsString}.

Lemma startsWith_app (p rest : string) : startsWith (p +:+ rest) p = true.
Proof.
  unfold startsWith. apply prefix_correct.
  induction p as [|c p IH]; [by destruct rest|].
  change (String c p +:+ rest) with (String c (p +:+ rest)).
  cbn [String.length substring]. by rewrite IH.
Qed.

Lemma analyzeBlueprint_sideMode base64Image mimeType config (w : World num) data :
  snd (analyzeBlueprint base64Image mimeType config w) = Return data ->
  sideMode data = Some (sidesText (AnalysisConfig.sides config)).
Proof.
  unfold analyzeBlueprint.
  destruct (String.eqb (effectiveApiKey config) ""); [done|].
  unfold tryCatch, bind, ai_models_generateContent.
  destruct (generateContent _) as [response|e]; [|done].
  destruct (strTruthy response); [|done].
  unfold answer. destruct (JSON_parse _) as [parsed|e]; [|done].
  by intros [= <-].
Qed.

(** X24.  An analysis that succeeds shows the estimate, with the side
    mode of the form whatever the service answered, and the data URL of
    the converted file.  While the history can be written (storage can be
    used, the stored value reads as a list, the quota has room) it puts at
    the head of the history an item that holds the estimate shown, the
    configuration, and the preview image compressed from the very data URL
    shown; with a stored value that is no list the storage stays as it
    was.  Loading that item later shows the same estimate again, in the
    [SUCCESS] state and without an error message. *)
Theorem analyze_then_load (file : File) (config : AnalysisConfig.t)
    (part : GenerativePart) (data : EstimationResult num) (w : World num) :
  conversionOutcome file = Return part ->
  analysisOutcome part config = Return data ->
  let url := fullDataUrl part in
  let item := newHistoryItem data config
                (encodeImage url 150 (6 # 10)) (encodeImage url 800 (7 # 10))
                (clock w) (elapse (clock w)) in
  let w' := fst (handleAnalyze file config w) in
  appState (app w') = SUCCESS
  /\ result (app w') = Some data
  /\ sideMode data = Some (sidesText (AnalysisConfig.sides config))
  /\ previewImage (app w') = Some url
  /\ (forall previous,
        storageEnabled w = true ->
        readsAsList (storedValue w) previous ->
        quotaAllows (JsonText (VArray (take MAX_ITEMS (VItem item :: previous))))
        = true ->
        storedValue w' = VArray (take MAX_ITEMS (VItem item :: previous)))
  /\ ((forall previous, ~ readsAsList (storedValue w) previous) ->
      localStorage w' = localStorage w)
  /\ forall w2 : World num,
       let w3 := fst (handleLoadHistory item w2) in
       appState (app w3) = SUCCESS
       /\ result (app w3) = Some data
       /\ errorMsg (app w3) = None
       /\ previewImage (app w3) = Some (encodeImage url 800 (7 # 10)).
Proof.
  intros Hpart Hdata url item w'.
  set (w5 := setApp (logged w (base64 part) (mimeType part) config)
               {| appState := SUCCESS; result := Some data;
                  errorMsg := None; previewImage := Some url |}).
  assert (Hrun : w' = fst (saveHistoryItem data config url w5)).
  { unfold w'. rewrite handleAnalyze_outcome, fileToGenerativePart_conversion.
    cbn [snd]. rewrite Hpart. cbv zeta.
    by rewrite analyzeBlueprint_analysis, Hdata. }
  assert (Hitem : itemToSave data config url w5 = item).
  { unfold itemToSave, item, url, fullDataUrl. by rewrite startsWith_app. }
  assert (Hold : storedValue w5 = storedValue w) by done.
  destruct (saveHistoryItem_quiet data config url w5)
    as (w6 & Hsave & _ & _ & Happ).
  assert (Hside : sideMode data = Some (sidesText (AnalysisConfig.sides config))).
  { apply (analyzeBlueprint_sideMode (base64 part) (mimeType part) config w).
    by rewrite analyzeBlueprint_analysis. }
  assert (Happ' : app w' = app w5).
  { by rewrite Hrun, Hsave. }
  split; [by rewrite Happ'|]. split; [by rewrite Happ'|].
  split; [exact Hside|]. split; [by rewrite Happ'|].
  split; [|split].
  - intros previous Hen Hlist Hq.
    rewrite Hrun, saveHistoryItem_run, Hold.
    apply spread_readsAsList in Hlist. rewrite Hlist. cbv zeta. rewrite Hitem.
    change (storageEnabled w5) with (storageEnabled w). rewrite Hen, Hq.
    cbn [andb fst]. by apply (storedValue_written (afterReadings w5)).
  - intros Hno. rewrite Hrun, saveHistoryItem_not_a_list; [done|].
    by rewrite Hold.
  - by repeat split.
Qed.
End HistoryRoundTrip.

(* ================================================================== *)
(** * EmptyState: the form and the history list                         *)
(* ================================================================== *)

Section FormFacts.
Context {num : Type} `{Platform num} `{JsString}.
Import EmptyState.

(** X25.  A click on the confirm button starts an analysis only with a
    file selected and with an outer diameter and a length that are not
    empty; the material passed on is the custom text, which is then not
    blank, when "custom" is selected, the empty text when "automatic" is
    selected, and the selection itself otherwise.  The key of the form is
    always passed on, the empty one too. *)
Theorem clickConfirm_config (st : State num) (file : File)
    (config : AnalysisConfig.t) :
  clickConfirm st = Some (file, config) ->
  selectedFile st = Some file
  /\ AnalysisConfig.od config = od st /\ od st <> ""
  /\ AnalysisConfig.length config = length st /\ length st <> ""
  /\ AnalysisConfig.apiKey config = Some (apiKey st)
  /\ (materialSelection st = CUSTOM_MATERIAL ->
      AnalysisConfig.material config = customMaterial st
      /\ trim (customMaterial st) <> "")
  /\ (materialSelection st = AUTO_MATERIAL ->
      AnalysisConfig.material config = "")
  /\ (materialSelection st <> CUSTOM_MATERIAL ->
      materialSelection st <> AUTO_MATERIAL ->
      AnalysisConfig.material config = materialSelection st).
Proof.
  unfold clickConfirm, confirmDisabled, handleConfirmAnalysis.
  destruct (String.eqb_spec (od st) "") as [|Hod];
    [by rewrite orb_true_r|].
  destruct (String.eqb_spec (length st) "") as [|Hlen];
    [by rewrite orb_true_r|].
  rewrite !orb_false_r.
  destruct (String.eqb_spec (materialSelection st) CUSTOM_MATERIAL) as [Hc|Hc];
    cbn [andb].
  - destruct (String.eqb_spec (trim (customMaterial st)) "") as [|Htrim]; [done|].
    destruct (selectedFile st) as [f|]; [|done].
    intros [= <- <-]. cbn. unfold finalMaterial. rewrite Hc, String.eqb_refl.
    repeat split; done.
  - destruct (selectedFile st) as [f|]; [|done].
    intros [= <- <-]. cbn. unfold finalMaterial.
    destruct (String.eqb_spec (materialSelection st) CUSTOM_MATERIAL); [done|].
    destruct (String.eqb_spec (materialSelection st) AUTO_MATERIAL) as [Ha|Ha];
      repeat split; done.
Qed.

(** X26.  The history of the form is, after the component mounts, the
    value [getHistory] returns: the stored value, an array of items or
    not.  After a delete that storage accepts, on a stored array without
    a [null] entry, it is the stored history again, without the entries
    of the id deleted.  When the write of a delete is refused, and when the
    stored value is no array or has a [null] entry, the history of the
    form becomes empty while the storage stays as it was. *)
Theorem history_list_shown (st : State num) (itemId : string) (w : World num) :
  onMount st w = (w, Return (setHistory st (storedValue w)))
  /\ (forall entries,
        storedValue w = VArray entries -> existsb isNull entries = false ->
        let kept := filter (fun entry => hasId itemId entry = false) entries in
        (storageEnabled w = true -> quotaAllows (JsonText (VArray kept)) = true ->
         exists w',
           handleDeleteHistory itemId st w
           = (w', Return (setHistory st (VArray kept)))
           /\ storedValue w' = VArray kept)
        /\ (storageEnabled w = false \/ quotaAllows (JsonText (VArray kept)) = false ->
            handleDeleteHistory itemId st w
            = (w, Return (setHistory st (VArray [])))))
  /\ ((forall entries, storedValue w = VArray entries ->
                       existsb isNull entries = true) ->
      handleDeleteHistory itemId st w = (w, Return (setHistory st (VArray [])))).
Proof.
  split; [|split].
  - unfold onMount, bind. by rewrite getHistory_stored.
  - intros entries Hv Hnull kept.
    assert (Hentries : storedEntries w = Some entries).
    { unfold storedEntries. by rewrite Hv, Hnull. }
    destruct (existing_filter_entries itemId w entries Hentries) as [_ Hf].
    split.
    + intros Hen Hq. unfold handleDeleteHistory, bind.
      rewrite deleteHistoryItem_run, Hf. fold kept. rewrite Hen, Hq.
      cbn [andb]. eexists. split; [done|]. by apply storedValue_written.
    + intros Hfail. unfold handleDeleteHistory, bind.
      rewrite deleteHistoryItem_run, Hf. fold kept.
      destruct Hfail as [-> | ->]; [done|]. by rewrite andb_false_r.
  - intros Hno.
    assert (Hentries : storedEntries w = None).
    { unfold storedEntries. destruct (storedValue w) as [| | | |elements| |] eqn:Hv;
        try done. by rewrite (Hno elements). }
    unfold handleDeleteHistory, bind. rewrite deleteHistoryItem_run.
    by destruct (existing_filter_none itemId w Hentries) as [e ->].
Qed.
End FormFacts.

(* ================================================================== *)
(** * The side times and the card on mount                              *)
(* ================================================================== *)

Section SingleSide.
Context {num : Type} `{JsNumber num} `{JsString}.

Lemma fold_splitStep_side1 (ops : list (MachiningOperation num)) (st : SplitState) :
  isSide2 st = false ->
  existsb isTrigger ops = false ->
  l2 (fold_left splitStep ops st) = l2 st
  /\ bucketsFrom false ops = replicate (length ops) L1.
Proof.
  revert st. induction ops as [|op ops IH]; intros st Hside Hnone; [done|].
  cbn [existsb] in Hnone. apply orb_false_elim in Hnone as [Hop Hrest].
  unfold isTrigger in Hop. apply orb_false_elim in Hop as [Hs2 Hflip].
  unfold hasSide2Keyword in Hs2. unfold hasFlipKeyword in Hflip.
  cbn [fold_left bucketsFrom length replicate].
  assert (Hstep : splitStep st op
                  = {| l1 := add (l1 st) (estimatedTimeSeconds op);
                       l2 := l2 st; isSide2 := false |}).
  { unfold splitStep. by rewrite Hs2, Hflip, Hside. }
  assert (Hbucket : bucketOf false op = L1).
  { unfold bucketOf. by rewrite Hs2, Hflip. }
  assert (Hnext : nextSide2 false op = false).
  { unfold nextSide2. by rewrite Hs2, Hflip. }
  rewrite Hstep, Hbucket, Hnext.
  destruct (IH {| l1 := add (l1 st) (estimatedTimeSeconds op);
                  l2 := l2 st; isSide2 := false |} eq_refl Hrest) as [Hl2 Hb].
  by rewrite Hl2, Hb.
Qed.

Lemma splitBuckets_single_side (ops : list (MachiningOperation num)) :
  existsb isTrigger ops = false ->
  buckets ops = replicate (length ops) L1
  /\ l2 (splitBuckets ops) = lit 0
  /\ snd (splitTimes ops) = Math_round (lit 0).
Proof.
  intros Hnone.
  destruct (fold_splitStep_side1 ops splitInit eq_refl Hnone) as [Hl2 Hb].
  unfold buckets, splitTimes, splitBuckets. cbn [snd].
  rewrite Hl2. by repeat split.
Qed.
End SingleSide.

Section SingleSideShown.
Context `{JsString}.
#[local] Existing Instance Binary64.float_JsNumber.

(** X27.  When no operation name holds a side-2 or a flip keyword, every
    operation is counted on L1, L2 stays at zero, and the page does not
    show the two side times; this on exact numbers and on binary64
    numbers alike. *)
Theorem single_side_not_shown :
  (forall ops : list (MachiningOperation Q),
      existsb isTrigger ops = false ->
      buckets ops = replicate (length ops) L1
      /\ l2 (splitBuckets ops) = 0%Q
      /\ showSplit ops = false)
  /\ (forall ops : list (MachiningOperation PrimFloat.float),
        existsb isTrigger ops = false ->
        buckets ops = replicate (length ops) L1
        /\ showSplit ops = false).
Proof.
  split; intros ops Hnone;
    destruct (splitBuckets_single_side ops Hnone) as (Hb & Hl2 & Hshown).
  - split; [exact Hb|]. split; [exact Hl2|].
    unfold showSplit. rewrite Hshown. by vm_compute.
  - split; [exact Hb|].
    unfold showSplit. rewrite Hshown. by vm_compute.
Qed.
End SingleSideShown.

Section CardOnMount.
Context `{JsUpperCase}.
Local Open Scope Q_scope.

(** X28.  For an estimate whose time is not negative and whose inner
    diameter, as the card reads it, does not exceed the outer one, the
    card shows on mount, with the density it detects and its default rate
    of 600 and price of 45, no negative weight and no negative cost. *)
Theorem card_on_mount (localResult : EstimationResult Q) :
  let st := onMaterial (material localResult) initialCard in
  let c := cardCalculation localResult st in
  0 <= totalTimeSeconds localResult ->
  parseDim (stockInnerDiameter localResult)
  <= parseDim (Some (stockDiameter localResult)) ->
  0 <= weight c /\ 0 <= machiningCost c /\ 0 <= materialCost c
  /\ 0 <= totalCost c
  /\ machiningCost c == totalTimeSeconds localResult / 3600 * 600
  /\ materialCost c == weight c * 45.
Proof.
  cbv zeta. intros Htime Hid.
  unfold cardCalculation, onMaterial, initialCard.
  cbn [customDensity hourlyRate materialPriceKg].
  destruct (detectedDensity_range (material localResult)) as [Hd _].
  set (density := detectedDensity (material localResult)) in *.
  assert (Hd0 : 0 <= density) by lra.
  pose proof (weight_nonneg (stockDiameter localResult)
                (stockInnerDiameter localResult)
                (stockLength localResult)
                (totalTimeSeconds localResult) density
                (lit 600) (lit 45) Hid Hd0) as Hw.
  destruct (weight_value (stockDiameter localResult)
              (stockInnerDiameter localResult) (stockLength localResult)
              (totalTimeSeconds localResult) density (lit 600) (lit 45))
    as [_ Hm].
  set (c := calculation _ _ _ _ _ _ _) in *.
  assert (Hmach : machiningCost c == totalTimeSeconds localResult / 3600 * 600).
  { unfold c, calculation. cbn [machiningCost]. reflexivity. }
  assert (Htot : totalCost c == machiningCost c + materialCost c).
  { unfold c, calculation. cbn [totalCost machiningCost materialCost].
    reflexivity. }
  change (lit 45) with 45 in Hm.
  assert (Hmach0 : 0 <= machiningCost c).
  { rewrite Hmach. apply Qmult_le_0_compat; [|lra].
    apply Qle_shift_div_l; lra. }
  assert (Hmat0 : 0 <= materialCost c).
  { rewrite Hm. apply Qmult_le_0_compat; lra. }
  repeat split; try done. rewrite Htot. lra.
Qed.
End CardOnMount.

Section SideTimesShown.
Context `{JsString}.
Local Open Scope Q_scope.

Lemma formatTime_whole (n : Z) :
  (0 <= n)%Z ->
  formatTime_minutes (inject_Z n) = inject_Z (n / 60)
  /\ formatTime_remainingSeconds (inject_Z n) = inject_Z (n mod 60).
Proof.
  intros Hn.
  assert (Hfl : Qfloor (inject_Z n / 60) = (n / 60)%Z).
  { symmetry. apply (Zdiv_Qdiv n 60). }
  split.
  - unfold formatTime_minutes, Q_floor. by rewrite Hfl.
  - assert (Hs : 0 <= inject_Z n).
    { change 0 with (inject_Z 0). by rewrite <- Zle_Qle. }
    destruct (Q_rem_60 (inject_Z n) Hs) as [Hrem _].
    unfold formatTime_remainingSeconds.
    change (@Math_round Q _) with Qround_half_up.
    rewrite <- (Qround_half_up_Z (n mod 60)).
    apply Qround_half_up_proper.
    rewrite Hrem, Hfl, (Z.mod_eq n 60) by lia.
    unfold Zminus. rewrite inject_Z_plus, inject_Z_opp, inject_Z_mult.
    change (inject_Z 60) with 60. ring.
Qed.

Lemma opsOfBucketFrom_Forall (P : MachiningOperation Q -> Prop) b side2
    (ops : list (MachiningOperation Q)) :
  Forall P ops -> Forall P (opsOfBucketFrom b side2 ops).
Proof.
  intros Hall. revert side2.
  induction Hall as [|op ops Hop Hall IH]; intros side2.
  - constructor.
  - rewrite opsOfBucketFrom_cons.
    destruct (bucket_eqb (bucketOf side2 op) b); [constructor; [done|]|];
      apply IH.
Qed.

Lemma timeSum_nonneg (ops : list (MachiningOperation Q)) :
  Forall (fun op => 0 <= estimatedTimeSeconds op) ops -> 0 <= timeSum ops.
Proof.
  induction 1 as [|op ops Hop Hall IH]; [done|].
  rewrite timeSum_cons. lra.
Qed.

(** X29.  When no operation has a negative time, the two side times
    L1 and L2 that the page prints with [formatTime] never read 60
    seconds, and their minutes and seconds give the rounded side time
    exactly: [splitTimes] hands [formatTime] whole numbers. *)
Theorem side_times_formatted (ops : list (MachiningOperation Q)) :
  Forall (fun op => 0 <= estimatedTimeSeconds op) ops ->
  let shown := splitTimes ops in
  (0 <= formatTime_remainingSeconds shown.1 < 60
   /\ 60 * formatTime_minutes shown.1 + formatTime_remainingSeconds shown.1
      == shown.1)
  /\ (0 <= formatTime_remainingSeconds shown.2 < 60
      /\ 60 * formatTime_minutes shown.2 + formatTime_remainingSeconds shown.2
         == shown.2).
Proof.
  intros Hall shown.
  assert (Hwhole : forall x : Q, 0 <= x ->
            0 <= formatTime_remainingSeconds (Qround_half_up x) < 60
            /\ 60 * formatTime_minutes (Qround_half_up x)
               + formatTime_remainingSeconds (Qround_half_up x)
               == Qround_half_up x).
  { intros x Hx. unfold Qround_half_up.
    set (k := Qfloor (x + (1 # 2))).
    assert (Hk : (0 <= k)%Z).
    { apply Qfloor_ge. change (inject_Z 0) with 0. lra. }
    destruct (formatTime_whole k Hk) as [-> ->].
    pose proof (Z.mod_pos_bound k 60 ltac:(lia)) as [Hlo Hhi].
    split.
    - split.
      + change 0 with (inject_Z 0). by rewrite <- Zle_Qle.
      + change 60 with (inject_Z 60). by rewrite <- Zlt_Qlt.
    - rewrite (Z.div_mod k 60) at 3 by lia.
      rewrite inject_Z_plus, inject_Z_mult. reflexivity. }
  destruct (fold_splitStep ops splitInit) as [H1 H2].
  cbn [l1 l2 isSide2 splitInit] in H1, H2.
  change (lit 0) with 0 in H1, H2.
  assert (Hl1 : 0 <= l1 (splitBuckets ops)).
  { unfold splitBuckets. rewrite H1.
    pose proof (timeSum_nonneg _ (opsOfBucketFrom_Forall _ L1 false ops Hall)).
    lra. }
  assert (Hl2 : 0 <= l2 (splitBuckets ops)).
  { unfold splitBuckets. rewrite H2.
    pose proof (timeSum_nonneg _ (opsOfBucketFrom_Forall _ L2 false ops Hall)).
    lra. }
  split; [exact (Hwhole _ Hl1)|exact (Hwhole _ Hl2)].
Qed.
End SideTimesShown.

Section InitialApp.
Context {num : Type} `{Platform num} `{JsString}.

Lemma initialApp_coherent : app_coherent (initialApp (num := num)).
Proof. repeat split; done. Qed.
End InitialApp.

(* ================================================================== *)
(** * The further statements on the sample data                         *)
(* ================================================================== *)

Section SessionSamples.
Import AsciiStrings AsciiUpperCase.
Import Sample SampleSession.
Local Open Scope Q_scope.

Lemma text_edits_keep_numbers_witness :
  totalTimeSeconds afterTextEdits = totalTimeSeconds estimate
  /\ estimatedTimeSeconds <$> operations afterTextEdits
     = estimatedTimeSeconds <$> operations estimate
  /\ rpm <$> operations afterTextEdits = rpm <$> operations estimate
  /\ feedRate <$> operations afterTextEdits = feedRate <$> operations estimate.
Proof.
  assert (Hall : forallb (fun e => negb (isParamEdit e)) textEdits = true)
    by (by vm_compute).
  assert (Hrun : applyEdits estimate estimate textEdits = Edited afterTextEdits)
    by (by vm_compute).
  exact (text_edits_keep_numbers estimate estimate afterTextEdits textEdits
           Hall Hrun).
Defined.

Lemma edits_keep_stock_witness :
  material afterMixedEdits = material estimate
  /\ stockDiameter afterMixedEdits = stockDiameter estimate
  /\ stockInnerDiameter afterMixedEdits = stockInnerDiameter estimate
  /\ stockLength afterMixedEdits = stockLength estimate
  /\ difficultyRating afterMixedEdits = difficultyRating estimate
  /\ sideMode afterMixedEdits = sideMode estimate
  /\ length (operations afterMixedEdits) = length (operations estimate)
  /\ toolType <$> operations afterMixedEdits = toolType <$> operations estimate.
Proof.
  assert (Hrun : applyEdits estimate estimate mixedEdits = Edited afterMixedEdits)
    by (by vm_compute).
  exact (edits_keep_stock estimate estimate afterMixedEdits mixedEdits Hrun).
Defined.

Lemma edits_total_consistent_witness :
  totalTimeSeconds afterMixedEdits
  = Math_round (sumInOrder (countedTime <$> operations afterMixedEdits) * 10) / 10.
Proof.
  assert (Hrun : applyEdits estimate estimate mixedEdits = Edited afterMixedEdits)
    by (by vm_compute).
  assert (Hparam : existsb isParamEdit mixedEdits = true) by (by vm_compute).
  exact (edits_total_consistent estimate estimate afterMixedEdits mixedEdits
           Hrun (or_intror Hparam)).
Defined.

Lemma handleParamChange_commute_witness :
  exists localResult',
    handleParamChanges estimate estimate
      [(0, rpmField, "2000"); (1, feedRateField, "0.25")]%nat
      = Edited localResult'
    /\ handleParamChanges estimate estimate
         [(1, feedRateField, "0.25"); (0, rpmField, "2000")]%nat
       = Edited localResult'.
Proof.
  assert (Hne : 0%nat <> 1%nat) by lia.
  assert (H0 : (0 < length (operations estimate))%nat) by (cbn; lia).
  assert (H1 : (1 < length (operations estimate))%nat) by (cbn; lia).
  assert (Hshape : same_shape estimate estimate) by reflexivity.
  exact (handleParamChange_commute estimate estimate 0 1 rpmField feedRateField
           "2000" "0.25" Hne H0 H1 Hshape).
Defined.

Lemma edits_keep_buckets_witness :
  buckets (operations afterMixedEdits) = buckets (operations estimate).
Proof.
  assert (Hall : forallb (fun e => negb (isRename e)) mixedEdits = true)
    by (by vm_compute).
  assert (Hrun : applyEdits estimate estimate mixedEdits = Edited afterMixedEdits)
    by (by vm_compute).
  exact (edits_keep_buckets estimate estimate afterMixedEdits mixedEdits
           Hall Hrun).
Defined.

Lemma formatTime_parts_witness :
  formatTime (251 # 2)
  = integerText 2 +:+ minutes_suffix +:+ integerText 6 +:+ seconds_suffix
  /\ Qabs (60 * formatTime_minutes (251 # 2)
           + formatTime_remainingSeconds (251 # 2) - (251 # 2)) <= 1 # 2.
Proof.
  assert (Hs : 0 <= 251 # 2) by (by vm_compute).
  destruct (formatTime_parts (251 # 2) Hs) as (Htext & _ & _ & Hclose & _).
  split; [exact Htext|exact Hclose].
Defined.

Lemma formatTime_sixty_seconds_witness :
  formatTime_remainingSeconds (239 # 2) == 60
  /\ formatTime (239 # 2)
     = "1" +:+ minutes_suffix +:+ "60" +:+ seconds_suffix.
Proof.
  assert (Hs : 0 <= 239 # 2) by (by vm_compute).
  assert (Hrem : (119 # 2) <= Q_rem (239 # 2) 60) by (by vm_compute).
  split; [|by vm_compute].
  exact (proj2 (formatTime_sixty_seconds (239 # 2) Hs) Hrem).
Defined.

Lemma hasInnerDiameter_not_solid_witness :
  hasInnerDiameter (stockInnerDiameter tube) = true
  /\ isSolid (previewId tube) = false.
Proof.
  assert (Hshown : hasInnerDiameter (stockInnerDiameter tube) = true)
    by (by vm_compute).
  split; [exact Hshown|].
  exact (proj1 hasInnerDiameter_not_solid tube Hshown).
Defined.

Lemma formatTimeAgo_ranges_witness :
  formatTimeAgo 1730000300000 1730000000000 = "5" +:+ minutes_ago_text
  /\ formatTimeAgo 1730000000000 1730000300000 = just_now_text.
Proof.
  split.
  - assert (Hrange : (60000 <= 1730000300000 - 1730000000000 < 3600000)%Z) by lia.
    exact (proj1 (proj1 (proj2 (formatTimeAgo_ranges 1730000300000 1730000000000))
                    Hrange)).
  - assert (Hrange : (1730000000000 - 1730000300000 < 60000)%Z) by lia.
    exact (proj1 (formatTimeAgo_ranges 1730000000000 1730000300000) Hrange).
Defined.

Lemma detectedDensity_values_witness :
  detectedDensity "SUS304 (1215 bar)" == 787 # 100.
Proof.
  assert (Hinc : includes (toUpperCase "SUS304 (1215 bar)") "1215" = true)
    by (by vm_compute).
  exact (proj2 (proj2 (detectedDensity_values "SUS304 (1215 bar)")) Hinc).
Defined.

Lemma parseDim_nonneg_witness :
  0 <= parseDim (Some "-12.5 mm") /\ parseDim (Some "-12.5 mm") = 25 # 2
  /\ parseDim (Some "") = 0.
Proof.
  split; [exact (proj1 (parseDim_nonneg (Some "-12.5 mm")))|].
  split; [by vm_compute|].
  exact (proj2 (parseDim_nonneg (Some "")) (or_intror eq_refl)).
Defined.

Lemma weight_sign_witness :
  weight (calculation "50 mm" (Some "ID 60") "100 mm" 120 (785 # 100) 600 45) < 0
  /\ materialCost
       (calculation "50 mm" (Some "ID 60") "100 mm" 120 (785 # 100) 600 45) < 0.
Proof.
  assert (Hid : parseDim (Some "50 mm") < parseDim (Some "ID 60"))
    by (by vm_compute).
  assert (Hlen : 0 < parseDim (Some "100 mm")) by (by vm_compute).
  assert (Hd : 0 < 785 # 100) by (by vm_compute).
  assert (Hp : 0 < 45) by (by vm_compute).
  destruct (proj2 (weight_sign "50 mm" (Some "ID 60") "100 mm" 120 (785 # 100)
                     600 45) Hid Hlen Hd) as [Hw Hm].
  split; [exact Hw|exact (Hm Hp)].
Defined.


Lemma clearHistory_run_witness :
  snd (clearHistory fullWorld) = Return ()
  /\ getHistory (fst (clearHistory fullWorld))
     = (fst (clearHistory fullWorld), Return (VArray [])).
Proof.
  assert (Hen : storageEnabled fullWorld = true) by reflexivity.
  destruct (proj1 (clearHistory_run fullWorld) Hen) as (Hret & _ & Hget).
  split; [exact Hret|exact Hget].
Defined.

Lemma deleteHistoryItem_twice_witness :
  let w1 := fst (deleteHistoryItem "5" fullWorld) in
  deleteHistoryItem "5" w1
  = (w1, Return (VArray (VItem <$> (historyItem <$> [10; 9; 8; 7; 6; 4; 3; 2; 1]%Z)))).
Proof.
  assert (Hen : storageEnabled fullWorld = true) by reflexivity.
  assert (Hq : quotaAllows
                 (JsonText
                    (VArray
                       (filter (fun entry => hasId "5" entry = false)
                          (VItem <$> (historyItem <$> [10; 9; 8; 7; 6; 5; 4; 3; 2; 1]%Z)))))
               = true)
    by (by vm_compute).
  exact (proj2 (proj2 (deleteHistoryItem_twice "5" fullWorld)
                  (VItem <$> (historyItem <$> [10; 9; 8; 7; 6; 5; 4; 3; 2; 1]%Z))
                  eq_refl eq_refl Hen Hq)).
Defined.

Lemma save_then_delete_witness :
  let newItem := itemToSave estimate config "iVBORw0KGgo=" fullWorld in
  let w1 := fst (saveHistoryItem estimate config "iVBORw0KGgo=" fullWorld) in
  let w2 := fst (deleteHistoryItem (HistoryItem.id newItem) w1) in
  storedValue w2 = VArray (VItem <$> (historyItem <$> [10; 9; 8; 7; 6; 5; 4; 3; 2]%Z)).
Proof.
  set (previous := VItem <$> (historyItem <$> [10; 9; 8; 7; 6; 5; 4; 3; 2; 1]%Z)).
  assert (Hlist : readsAsList (storedValue fullWorld) previous)
    by exact (array_readsAsList previous).
  assert (Hen : storageEnabled fullWorld = true) by reflexivity.
  assert (Hq : quotaAllows
                 (JsonText
                    (VArray
                       (take MAX_ITEMS
                          (VItem (itemToSave estimate config "iVBORw0KGgo=" fullWorld)
                           :: previous)))) = true)
    by (by vm_compute).
  assert (Hq' : quotaAllows (JsonText (VArray (take 9 previous))) = true)
    by (by vm_compute).
  assert (Hfresh : Forall (fun entry : JsValue Q =>
                             isNull entry = false
                             /\ hasId (HistoryItem.id
                                         (itemToSave estimate config "iVBORw0KGgo="
                                            fullWorld)) entry = false)
                     previous).
  { unfold previous. repeat constructor. }
  exact (proj1 (proj2 (proj2 (save_then_delete estimate config "iVBORw0KGgo="
                                fullWorld previous Hlist Hen Hq Hq' Hfresh)))).
Defined.

Lemma effectiveApiKey_empty_iff_witness :
  @effectiveApiKey Q platformWithoutEnvKey _ config = ""
  /\ exists req,
       requests (fst (analyzeBlueprint (Some "iVBORw0KGgo=") "image/png"
                        config freshWorld))
       = req :: requests freshWorld
       /\ req_apiKey req = "env-key".
Proof.
  split.
  - assert (Hnone : strTruthy (trim <$> AnalysisConfig.apiKey config) = false
                    /\ strTruthy (@import_meta_env_VITE_API_KEY Q platformWithoutEnvKey) = false
                    /\ strTruthy (@process_env_VITE_API_KEY Q platformWithoutEnvKey) = false
                    /\ strTruthy (@process_env_REACT_APP_API_KEY Q platformWithoutEnvKey) = false
                    /\ strTruthy (@process_env_API_KEY Q platformWithoutEnvKey) = false
                    /\ strTruthy (@window_API_KEY Q platformWithoutEnvKey) = false)
      by (by vm_compute).
    exact (proj2 (proj1 (@effectiveApiKey_empty_iff Q platformWithoutEnvKey _
                           None "image/png" config freshWorld)) Hnone).
  - assert (Hkey : effectiveApiKey config <> "") by (by vm_compute).
    destruct (proj2 (effectiveApiKey_empty_iff (Some "iVBORw0KGgo=") "image/png"
                       config freshWorld) Hkey) as (req & Hreq & Hk & _).
    exists req. split; [exact Hreq|]. by rewrite Hk.
Defined.


Lemma handleAnalyze_missing_key_witness :
  let w' := fst (@handleAnalyze Q platformWithoutEnvKey _ drawingPng config freshWorld) in
  appState (app w') = ERROR
  /\ errorMsg (app w') = Some default_error_message
  /\ requests w' = [].
Proof.
  assert (Hpart : snd (@fileToGenerativePart Q platformWithoutEnvKey drawingPng freshWorld)
                  = Return drawingPart) by (by vm_compute).
  assert (Hkey : @effectiveApiKey Q platformWithoutEnvKey _ config = "")
    by (by vm_compute).
  destruct (@handleAnalyze_missing_key Q platformWithoutEnvKey _ drawingPng config
              drawingPart freshWorld Hpart Hkey) as (Hs & Hm & _ & Hr & _).
  split; [exact Hs|]. split; [exact Hm|exact Hr].
Defined.

Lemma handleAnalyze_pdf_failure_witness :
  let w' := fst (handleAnalyze corruptPdf config fullWorld) in
  appState (app w') = ERROR
  /\ errorMsg (app w') = Some pdf_failure_message
  /\ analyzeCalls w' = 0%nat
  /\ localStorage w' = localStorage fullWorld.
Proof.
  assert (Htype : file_type corruptPdf = "application/pdf") by reflexivity.
  assert (Hrender : renderFirstPageJpeg corruptPdf
                    = Throw (Error "Invalid PDF structure.")) by (by vm_compute).
  destruct (handleAnalyze_pdf_failure corruptPdf config _ fullWorld Htype Hrender)
    as (Hs & Hm & _ & _ & Hc & _ & Hl).
  split; [exact Hs|]. split; [exact Hm|]. split; [exact Hc|exact Hl].
Defined.

Lemma handleAnalyze_preview_witness :
  previewImage (app (fst (handleAnalyze drawingPng config freshWorld)))
  = Some "data:image/png;base64,iVBORw0KGgo=".
Proof.
  assert (Htype : file_type drawingPng <> "application/pdf") by done.
  assert (Hurl : readAsDataURL drawingPng
                 = Return ("data:" +:+ file_type drawingPng +:+ ";base64,"
                           +:+ "iVBORw0KGgo=")) by (by vm_compute).
  assert (Hty : includes (file_type drawingPng) "," = false) by (by vm_compute).
  assert (Hpay : includes "iVBORw0KGgo=" "," = false) by (by vm_compute).
  exact (proj1 (proj1 (handleAnalyze_preview drawingPng config freshWorld Htype)
                  "iVBORw0KGgo=" Hurl Hty Hpay)).
Defined.

Lemma analyze_then_load_witness :
  let w' := fst (handleAnalyze drawingPng config freshWorld) in
  result (app w') = Some analysed
  /\ idsOf (storedValue w') = ["1730000000000"]
  /\ entryCount (storedValue w') = 1%nat.
Proof.
  assert (Hpart : conversionOutcome drawingPng = Return drawingPart)
    by (by vm_compute).
  assert (Hdata : analysisOutcome drawingPart config = Return analysed)
    by (by vm_compute).
  assert (Hen : storageEnabled freshWorld = true) by reflexivity.
  assert (Hlist : readsAsList (storedValue freshWorld) [])
    by exact (array_readsAsList (@nil (JsValue Q))).
  assert (Hq : quotaAllows
                 (JsonText
                    (VArray
                       (take MAX_ITEMS
                          [VItem (newHistoryItem analysed config
                                    (encodeImage (fullDataUrl drawingPart) 150 (6 # 10))
                                    (encodeImage (fullDataUrl drawingPart) 800 (7 # 10))
                                    (clock freshWorld) (elapse (clock freshWorld)))])))
               = true)
    by (by vm_compute).
  destruct (analyze_then_load drawingPng config drawingPart analysed freshWorld
              Hpart Hdata) as (_ & Hres & _ & _ & Hstored & _).
  split; [exact Hres|]. rewrite (Hstored [] Hen Hlist Hq). by vm_compute.
Defined.

(** C9 on the sample platform: a good run and a run without a key. *)
Lemma handleAnalyze_single_call_witness :
  (let w' := fst (handleAnalyze drawingPdf config freshWorld) in
   analyzeCalls w' = 1%nat /\ length (requests w') = 1%nat
   /\ appState (app w') = SUCCESS /\ errorMsg (app w') = None)
  /\ (let w' := fst (handleAnalyze (H := platformWithoutEnvKey) drawingPdf config
                       freshWorld) in
      analyzeCalls w' = 1%nat /\ requests w' = []
      /\ appState (app w') = ERROR
      /\ errorMsg (app w') = Some default_error_message).
Proof.
  split.
  - pose proof (handleAnalyze_single_call drawingPdf config freshWorld) as Hall.
    cbv zeta in Hall. destruct Hall as (_ & _ & _ & Hcase).
    assert (Hconv : conversionOutcome drawingPdf
                    = Return {| base64 := Some "/9j/4AAQ"; mimeType := "image/jpeg" |})
      by (by vm_compute).
    rewrite Hconv in Hcase. destruct Hcase as (Hcalls & Hreqs & Hout).
    assert (Hana : exists data,
               analysisOutcome {| base64 := Some "/9j/4AAQ"; mimeType := "image/jpeg" |}
                 config = Return data) by (eexists; by vm_compute).
    destruct Hana as [data Hana]. rewrite Hana in Hout.
    destruct Hout as (Hstate & Hmsg & _).
    cbv zeta. rewrite Hreqs. by repeat split.
  - pose proof (handleAnalyze_single_call (H := platformWithoutEnvKey)
                  drawingPdf config freshWorld) as Hall.
    cbv zeta in Hall. destruct Hall as (_ & _ & _ & Hcase).
    assert (Hconv : conversionOutcome (H := platformWithoutEnvKey) drawingPdf
                    = Return {| base64 := Some "/9j/4AAQ"; mimeType := "image/jpeg" |})
      by (by vm_compute).
    rewrite Hconv in Hcase. destruct Hcase as (Hcalls & Hreqs & Hout).
    assert (Hana : analysisOutcome (H := platformWithoutEnvKey)
                     {| base64 := Some "/9j/4AAQ"; mimeType := "image/jpeg" |} config
                   = Throw (Error API_KEY_MISSING_message)) by (by vm_compute).
    rewrite Hana in Hout. destruct Hout as (Hstate & Hmsg).
    cbv zeta. rewrite Hmsg. by repeat split.
Defined.

Lemma clickConfirm_config_witness :
  EmptyState.clickConfirm form = Some (drawingPng, formConfig)
  /\ trim (EmptyState.customMaterial form) <> "".
Proof.
  assert (Hclick : EmptyState.clickConfirm form = Some (drawingPng, formConfig))
    by (by vm_compute).
  split; [exact Hclick|].
  destruct (clickConfirm_config form drawingPng formConfig Hclick)
    as (_ & _ & _ & _ & _ & _ & Hcustom & _).
  exact (proj2 (Hcustom eq_refl)).
Defined.

Lemma history_list_shown_witness :
  exists w',
    EmptyState.handleDeleteHistory "5" form fullWorld
    = (w', Return (EmptyState.setHistory form
                     (VArray (VItem <$> (historyItem <$> [10; 9; 8; 7; 6; 4; 3; 2; 1]%Z)))))
    /\ storedValue w'
       = VArray (VItem <$> (historyItem <$> [10; 9; 8; 7; 6; 4; 3; 2; 1]%Z)).
Proof.
  assert (Hen : storageEnabled fullWorld = true) by reflexivity.
  assert (Hq : quotaAllows
                 (JsonText
                    (VArray
                       (filter (fun entry => hasId "5" entry = false)
                          (VItem <$> (historyItem <$> [10; 9; 8; 7; 6; 5; 4; 3; 2; 1]%Z)))))
               = true)
    by (by vm_compute).
  exact (proj1 (proj1 (proj2 (history_list_shown form "5" fullWorld))
                  (VItem <$> (historyItem <$> [10; 9; 8; 7; 6; 5; 4; 3; 2; 1]%Z))
                  eq_refl eq_refl) Hen Hq).
Defined.
Lemma single_side_not_shown_witness :
  buckets [roughing; drilling] = [L1; L1]
  /\ showSplit [roughing; drilling] = false.
Proof.
  assert (Hnone : existsb isTrigger [roughing; drilling] = false)
    by (by vm_compute).
  destruct (proj1 single_side_not_shown [roughing; drilling] Hnone)
    as (Hb & _ & Hshown).
  split; [exact Hb|exact Hshown].
Defined.

Lemma card_on_mount_witness :
  let c := cardCalculation tube (onMaterial (material tube) initialCard) in
  0 <= weight c /\ 0 <= totalCost c.
Proof.
  assert (Htime : 0 <= totalTimeSeconds tube) by (by vm_compute).
  assert (Hid : parseDim (stockInnerDiameter tube)
                <= parseDim (Some (stockDiameter tube))) by (by vm_compute).
  destruct (card_on_mount tube Htime Hid) as (Hw & _ & _ & Htot & _).
  split; [exact Hw|exact Htot].
Defined.
Lemma side_times_formatted_witness :
  let shown := splitTimes (operations estimate) in
  shown = (136, 20)
  /\ formatTime_remainingSeconds shown.1 < 60
  /\ 60 * formatTime_minutes shown.1 + formatTime_remainingSeconds shown.1
     == shown.1.
Proof.
  assert (Hall : Forall (fun op : MachiningOperation Q => 0 <= estimatedTimeSeconds op)
                   (operations estimate)).
  { repeat constructor; by vm_compute. }
  destruct (side_times_formatted (operations estimate) Hall) as [[[_ Hlt] Hsum] _].
  split; [by vm_compute|]. split; [exact Hlt|exact Hsum].
Defined.
(** The density detected for each material of the menu of the form, with
    ASCII upper-casing: FC/FCD gets the density of FC, POM/ABS that of
    POM, and the two menu entries without a key fall back to steel. *)
Example menu_material_densities :
  Forall2 (fun m d => detectedDensity m == d) COMMON_MATERIALS
    [785 # 100; 785 # 100; 793 # 100; 798 # 100; 270 # 100; 281 # 100;
     785 # 100; 785 # 100; 787 # 100; 780 # 100; 850 # 100; 141 # 100;
     720 # 100; 785 # 100].
Proof. repeat constructor. Qed.
End SessionSamples.
